(** * Empathic-accuracy behavioural pipeline of datman ([bin/dm-proc-ea.py])

    A shallow embedding of the log parser, the block segmenter, the rating
    reconstructor, the reader of the reference tables, the length matcher,
    the per-log driver, the checks of the functional inputs and the batch
    loop of [dm-proc-ea.py], followed by the properties established about
    them.

    Conventions of the embedding.
    - Python exceptions are values of [pyexc]; a computation that may raise
      has type [result A].
    - Integer fields of the numpy records (the dtype string ['i32'] of the
      source) are mathematical integers [Z].
    - A Python or numpy float is modelled by the rational [Q] it denotes, and
      float arithmetic by exact arithmetic: every division by [10000.0], [2]
      or [60.0] is the exact quotient, and rounding (to an integer, to two
      decimals, to twelve significant digits) acts on the exact value. Where
      the exact value is a tie, or the binary double next to it falls on the
      other side of one, the source may round to the other neighbour: the
      double nearest to 2.675 lies below it and prints as [2.67], and
      [4.02 - 1.02] is a double just below 3, so that half of it rounds to
      1 where the exact 1.5 rounds to 2. Statements about the number of
      samples of a trace or about the last digit printed are to be read up
      to this.
    - Calls into numpy, scipy, matplotlib and the file system are modelled by
      the part of their behaviour the script observes; what the script only
      receives from the outside world (file contents, the tokenizer of
      [numpy.genfromtxt], the reference tables, Pearson's coefficient) is a
      field of the record [externals]. *)

From Stdlib Require Import ZArith QArith Qround Qabs String Ascii Bool Lia.
From Stdlib Require Import DecimalString DecimalPos DecimalN Lqa Permutation.
From Stdlib Require Import List.
Import ListNotations.

Local Open Scope Z_scope.

(* ===================================================================== *)
(** ** Exceptions *)
(* ===================================================================== *)

Inductive pyexc : Type :=
| ValueError
| IndexError
| TypeError
| ZeroDivisionError
| UnboundLocalError
| IOError.

Inductive result (A : Type) : Type :=
| Ok (a : A)
| Raise (e : pyexc).
Arguments Ok {A} a.
Arguments Raise {A} e.

Definition bind {A B : Type} (c : result A) (k : A -> result B) : result B :=
  match c with
  | Ok a => k a
  | Raise e => Raise e
  end.

Declare Scope py_scope.
Delimit Scope py_scope with py.
Notation "x <- c ;; k" := (bind c (fun x => k))
  (at level 61, c at next level, right associativity) : py_scope.
Notation "' pat <- c ;; k" := (bind c (fun x => match x with pat => k end))
  (at level 61, pat pattern, c at next level, right associativity) : py_scope.
Local Open Scope py_scope.

Definition raises {A : Type} (c : result A) : Prop := exists e, c = Raise e.

(** [try: c except: h], the bare [except:] of the source, which catches
    every exception. *)
Definition try_except {A : Type} (c h : result A) : result A :=
  match c with
  | Ok a => Ok a
  | Raise _ => h
  end.

(** [l[i]] for a Python list or a one-dimensional array and [i >= 0]. *)
Definition getitem {A : Type} (l : list A) (i : nat) : result A :=
  match nth_error l i with
  | Some x => Ok x
  | None => Raise IndexError
  end.

(** [l[-1]]. *)
Definition getlast {A : Type} (l : list A) : result A :=
  match rev l with
  | x :: _ => Ok x
  | [] => Raise IndexError
  end.

(* ===================================================================== *)
(** ** Strings *)
(* ===================================================================== *)

(** [needle in s] on Python strings. *)
Fixpoint contains (needle s : string) : bool :=
  String.prefix needle s ||
  match s with
  | EmptyString => false
  | String _ s' => contains needle s'
  end.

(** [s[i]] on a Python string, [i >= 0]. *)
Definition str_getitem (s : string) (i : nat) : result ascii :=
  match String.get i s with
  | Some c => Ok c
  | None => Raise IndexError
  end.

(** [s[-1]]. *)
Fixpoint str_last (s : string) : result ascii :=
  match s with
  | EmptyString => Raise IndexError
  | String c EmptyString => Ok c
  | String _ s' => str_last s'
  end.

Definition digit_of_ascii (c : ascii) : option Z :=
  let n := Z.of_nat (nat_of_ascii c) in
  if (48 <=? n) && (n <=? 57) then Some (n - 48) else None.

(** [int(c)] for a one-character string [c]. *)
Definition int_of_char (c : ascii) : result Z :=
  match digit_of_ascii c with
  | Some d => Ok d
  | None => Raise ValueError
  end.

(* ===================================================================== *)
(** ** The part of numpy the script relies on *)
(* ===================================================================== *)

(** The result of [numpy.genfromtxt] with a structured dtype: the rows are
    squeezed, so exactly one row gives a zero-dimensional array, which can be
    neither indexed nor iterated. *)
Inductive ndarray (A : Type) : Type :=
| Arr0 (x : A)
| Arr1 (xs : list A).
Arguments Arr0 {A} x.
Arguments Arr1 {A} xs.

Definition squeeze {A : Type} (rows : list A) : ndarray A :=
  match rows with
  | [r] => Arr0 r
  | _ => Arr1 rows
  end.

(** [a[0]] *)
Definition arr_first {A : Type} (a : ndarray A) : result A :=
  match a with
  | Arr0 _ => Raise IndexError
  | Arr1 xs => getitem xs 0
  end.

(** [for x in a] *)
Definition arr_iter {A : Type} (a : ndarray A) : result (list A) :=
  match a with
  | Arr0 _ => Raise TypeError
  | Arr1 xs => Ok xs
  end.

(** [numpy.linspace(start, stop, num)]: [num] evenly spaced samples with both
    end points; a negative [num] is refused. *)
Definition linspace (start stop : Q) (num : Z) : result (list Q) :=
  if num <? 0 then Raise ValueError
  else if num =? 0 then Ok []
  else if num =? 1 then Ok [start]
  else
    let step := ((stop - start) / inject_Z (num - 1))%Q in
    Ok (map (fun i => (inject_Z (Z.of_nat i) * step + start)%Q)
            (seq 0 (Z.to_nat num))).

(** [x in a] for an integer [x] and a float array [a]. *)
Definition in_array (x : Z) (a : list Q) : bool :=
  existsb (fun y => Qeq_bool y (inject_Z x)) a.

(** [numpy.round]: to the nearest integer, halves to the even neighbour. *)
Definition np_round (x : Q) : Z :=
  let f := Qfloor x in
  match ((x - inject_Z f) ?= (1 # 2))%Q with
  | Lt => f
  | Gt => f + 1
  | Eq => if Z.even f then f else f + 1
  end.

(** [len(numpy.arange(n))] for an integral float [n]. *)
Definition arange_len (n : Z) : nat := Z.to_nat n.

(* ===================================================================== *)
(** ** Data model: the records decoded from the log *)
(* ===================================================================== *)

(** The seven-field dtype used for the Response and the Video lines;
    position [k] of the source's [r[k]] is given in each comment. *)
Record event : Type := mk_event {
  subject : string;       (* 0 *)
  trial : Z;              (* 1 *)
  eventtype : string;     (* 2 *)
  code : string;          (* 3 *)
  time : Z;               (* 4 *)
  ttime : Z;              (* 5 *)
  uncertainty1 : Z        (* 6 *)
}.

(** The thirteen-field dtype used for the Picture lines. *)
Record picture : Type := mk_picture {
  p_subject : string;     (* 0 *)
  p_trial : Z;            (* 1 *)
  p_eventtype : string;   (* 2 *)
  p_code : string;        (* 3 *)
  p_time : Z;             (* 4 *)
  p_ttime : Z;            (* 5 *)
  p_uncertainty1 : Z;     (* 6 *)
  p_duration : Z;         (* 7 *)
  p_uncertainty2 : Z;     (* 8 *)
  p_reqtime : Z;          (* 9 *)
  p_reqduration : Z;      (* 10 *)
  p_stimtype : string;    (* 11 *)
  p_pairindex : Z         (* 12 *)
}.

(** [res_final] of [log_parser]: it starts as the record [res[0]] (a numpy
    void scalar) and becomes a one-dimensional array at the first
    [numpy.hstack]. *)
Inductive recarray : Type :=
| Void (r : event)
| Rows (rs : list event).

Definition hstack (a : recarray) (r : event) : recarray :=
  match a with
  | Void x => Rows [x; r]
  | Rows rs => Rows (rs ++ [r])
  end.

(** The events a [recarray] holds, in order. *)
Definition events (a : recarray) : list event :=
  match a with
  | Void r => [r]
  | Rows rs => rs
  end.

(** A value that is either an integer or a string: [res_final[0][4]] is the
    [time] field when [res_final] is an array, and the fifth character of the
    [subject] field when it is still a single record. *)
Inductive scalar : Type :=
| SInt (z : Z)
| SStr (c : ascii).

(** [z - m] for an integer [z] *)
Definition sub_scalar (z : Z) (m : scalar) : result Z :=
  match m with
  | SInt a => Ok (z - a)
  | SStr _ => Raise TypeError
  end.

(* ===================================================================== *)
(** ** What the script receives from outside *)
(* ===================================================================== *)

Record externals : Type := {
  (** [open(os.path.join(data_path, 'behav', sub, log)).readlines()] *)
  readlines : string -> string -> result (list string);
  (** the rows [numpy.genfromtxt] decodes from the selected lines, before
      they are squeezed, for the thirteen-field and the seven-field dtype *)
  decode_picture : list string -> result (list picture);
  decode_event : list string -> result (list event);
  (** [find_column_data(blk_name, 'EA-timing.csv')] and
      [find_column_data(blk_name, 'EA-vid-lengths.csv')] *)
  gold_rate_of : string -> result (list Q);
  duration_of : string -> result (list Q);
  (** [numpy.corrcoef(a, b)[1][0]]; [None] is NaN *)
  corrcoef : list Q -> list Q -> option Q;
  (** the batch loop's view of the study directory *)
  get_subjects : list string;
  subject_type : string -> string;
  complete_log_exists : string -> bool;
  process_functional_data : string -> result unit;
  listdir_behav : string -> result (list string)
}.

(* ===================================================================== *)
(** ** [log_parser] *)
(* ===================================================================== *)

(** Lines 72-77: the loop that drops repeated trials. *)
Fixpoint drop_repeats (rs : list event) (previously_seen : Z)
    (res_final : recarray) : recarray :=
  match rs with
  | [] => res_final
  | r :: rs' =>
      if negb (trial r =? previously_seen)
      then drop_repeats rs' (trial r) (hstack res_final r)
      else drop_repeats rs' previously_seen res_final
  end.

Definition remove_duplicate_trials (res : ndarray event) : result recarray :=
  r0 <- arr_first res ;;
  rs <- arr_iter res ;;
  Ok (drop_repeats rs (trial r0) (Void r0)).

(** [res_final[0][4]] *)
Definition first_time (res_final : recarray) : result scalar :=
  match res_final with
  | Rows rs => r <- getitem rs 0 ;; Ok (SInt (time r))
  | Void r => c <- str_getitem (subject r) 4 ;; Ok (SStr c)
  end.

Definition MRI_start : string := "MRI_start".

Record parsed_log : Type := mk_parsed {
  pl_pic : ndarray picture;
  pl_res : recarray;
  pl_vid : ndarray event;
  pl_mri_start : scalar
}.

Section Parser.
Variable E : externals.

Definition genfromtxt_picture (lines : list string) : result (ndarray picture) :=
  rows <- decode_picture E lines ;; Ok (squeeze rows).

Definition genfromtxt_event (lines : list string) : result (ndarray event) :=
  rows <- decode_event E lines ;; Ok (squeeze rows).

(** [log_parser] on the lines of the log. *)
Definition log_parser_lines (log : list string) : result parsed_log :=
  let pic := filter (contains "Picture") log in
  let res := filter (contains "Response") log in
  let vid := filter (contains "Video") log in
  pic <- genfromtxt_picture pic ;;
  res <- genfromtxt_event res ;;
  res_final <- remove_duplicate_trials res ;;
  vid <- genfromtxt_event vid ;;
  p0 <- arr_first pic ;;
  if negb (String.eqb (p_code p0) MRI_start)
  then Raise ValueError
  else
    mri_start <- first_time res_final ;;
    Ok (mk_parsed pic res_final vid mri_start).

Definition log_parser (sub log : string) : result parsed_log :=
  lines <- readlines E sub log ;;
  log_parser_lines lines.
End Parser.

(* ===================================================================== *)
(** ** [find_blocks] *)
(* ===================================================================== *)

Record block : Type := mk_block {
  block_number : Z;
  block_name : string;
  block_start : Q
}.

Definition block_of (mri_start : scalar) (v : event) : result block :=
  d <- sub_scalar (time v) mri_start ;;
  Ok (mk_block (trial v) (code v) (inject_Z d / 10000)%Q).

Fixpoint find_blocks_loop (vs : list event) (mri_start : scalar)
    : result (list block) :=
  match vs with
  | [] => Ok []
  | v :: vs' =>
      b <- block_of mri_start v ;;
      bs <- find_blocks_loop vs' mri_start ;;
      Ok (b :: bs)
  end.

Definition find_blocks (vid : ndarray event) (mri_start : scalar)
    : result (list block * list Q) :=
  vs <- arr_iter vid ;;
  blocks <- find_blocks_loop vs mri_start ;;
  Ok (blocks, map block_start blocks).

(* ===================================================================== *)
(** ** [find_ratings] *)
(* ===================================================================== *)

Definition neutral_rating : Z := 5.

(** ['103' in s[3] or '102' in s[3]] *)
Definition is_button_push (s : event) : bool :=
  contains "103" (code s) || contains "102" (code s).

(** Lines 135-140: the trial numbers of the block, as [numpy.linspace]
    builds them. *)
Definition block_trials (res : list event) (blk_start : Z)
    (blk_end : option Z) : result (list Q) :=
  match blk_end with
  | None =>
      final <- getlast res ;;
      linspace (inject_Z blk_start) (inject_Z (trial final))
               (trial final - blk_start + 1)
  | Some e =>
      linspace (inject_Z blk_start) (inject_Z (e - 1)) (e - blk_start)
  end.

(** Lines 152-156: first selected response, the button pushes, last selected
    response. When no response is a button push, [button_pushes] is
    [numpy.array([])], an array of floats, and [numpy.hstack] refuses to join
    it to an array of records. *)
Definition comparison_set (response_list : list event) : result (list event) :=
  first <- getitem response_list 0 ;;
  match filter is_button_push response_list with
  | [] => Raise TypeError
  | button_pushes =>
      final <- getlast response_list ;;
      Ok ([first] ++ button_pushes ++ [final])
  end.

(** Line 164: [filter(lambda s: s[1] in trial_list, pic)], for the list
    [trial_list] of the trial numbers following the responses. *)
Definition select_pictures (response_list : list event) (pic : list picture)
    : list picture :=
  let trial_list := map (fun r => trial r + 1) response_list in
  filter (fun s => existsb (Z.eqb (p_trial s)) trial_list) pic.

(** Lines 175-183; the value is computed and never used by the source. *)
Definition response_time (response_list : list event)
    (picture_list : list picture) (mri_start : Z) (i : nat) : result Q :=
  let endpoint := (length response_list - 1)%nat in
  if (i =? 0)%nat || (i =? endpoint)%nat
  then r <- getitem response_list i ;;
       Ok (inject_Z (time r - mri_start) / 10000)%Q
  else
    try_except
      (p <- getitem picture_list i ;;
       Ok (inject_Z (p_time p - mri_start) / 10000)%Q)
      (r <- getitem response_list i ;;
       Ok (inject_Z (time r - mri_start) / 10000)%Q).

(** Lines 185-191. *)
Definition rating_string (picture_list : list picture) (i : nat)
    : result string :=
  try_except
    (p <- getitem picture_list i ;; Ok (p_code p))
    (p <- getlast picture_list ;; Ok (p_code p)).

(** Lines 198-210. *)
Definition delta_time (response_list : list event)
    (picture_list : list picture) (blk_start_time : Q) (i : nat) : result Q :=
  if (i =? 0)%nat
  then p <- getitem picture_list i ;;
       Ok (inject_Z (p_time p) / 10000 - blk_start_time)%Q
  else
    try_except
      (p <- getitem picture_list i ;;
       q <- getitem picture_list (i - 1) ;;
       Ok (inject_Z (p_time p - p_time q) / 10000)%Q)
      (r <- getitem response_list i ;;
       s <- getitem response_list (i - 1) ;;
       Ok (inject_Z (time r - time s) / 10000)%Q).

(** [int(rating[-1])] *)
Definition decode_rating (rating : string) : result Z :=
  c <- str_last rating ;; int_of_char c.

(** The state of the loop of lines 166-234: the list [ratings], the variable
    [previous_rating] (unbound before the first pass) and, as a record of a
    local the source computes and drops, the successive [response_time]s. *)
Record loop_state : Type := mk_state {
  ratings : list Z;
  previous_rating : option Z;
  response_times : list Q
}.

Definition read_previous (st : loop_state) : result Z :=
  match previous_rating st with
  | Some v => Ok v
  | None => Raise UnboundLocalError
  end.

(** Lines 231-232: [previous_rating] appended [n] times; the variable is
    read only when the body runs. *)
Definition append_previous (st : loop_state) (n : nat) : result (list Z) :=
  match n with
  | O => Ok (ratings st)
  | S _ => prev <- read_previous st ;; Ok (ratings st ++ repeat prev n)
  end.

(** One pass of the loop, at position [i]. [n_events] is the rounding of
    the exact quotient [delta / 2]; in the source [delta] is a double, and
    a quotient next to a tie can give one sample more or less (see the
    conventions). The values appended are not affected. *)
Definition rating_pass (response_list : list event)
    (picture_list : list picture) (mri_start : Z) (blk_start_time : Q)
    (i : nat) (st : loop_state) : result loop_state :=
  t <- response_time response_list picture_list mri_start i ;;
  rating <- rating_string picture_list i ;;
  delta <- delta_time response_list picture_list blk_start_time i ;;
  let n_events := np_round (delta / 2)%Q in
  '(rating, st1) <-
     (if (i =? 0)%nat
      then Ok (neutral_rating,
               mk_state (ratings st) (Some neutral_rating) (response_times st))
      else v <- decode_rating rating ;; Ok (v, st)) ;;
  ratings' <- append_previous st1 (arange_len n_events) ;;
  Ok (mk_state ratings' (Some rating) (response_times st1 ++ [t])).

Fixpoint rating_loop (response_list : list event)
    (picture_list : list picture) (mri_start : Z) (blk_start_time : Q)
    (positions : list nat) (st : loop_state) : result loop_state :=
  match positions with
  | [] => Ok st
  | i :: rest =>
      st' <- rating_pass response_list picture_list mri_start
                         blk_start_time i st ;;
      rating_loop response_list picture_list mri_start blk_start_time rest st'
  end.

Definition find_ratings_trace (res : list event) (pic : list picture)
    (blk_start : Z) (blk_end : option Z) (mri_start : Z)
    (blk_start_time : Q) : result (loop_state * nat) :=
  trial_list <- block_trials res blk_start blk_end ;;
  let response_list := filter (fun s => in_array (trial s) trial_list) res in
  if (length response_list =? 0)%nat
  then Ok (mk_state [neutral_rating] None [], 0%nat)
  else
    let button_pushes := filter is_button_push response_list in
    response_list' <- comparison_set response_list ;;
    let picture_list := select_pictures response_list' pic in
    st <- rating_loop response_list' picture_list mri_start blk_start_time
                      (seq 0 (length response_list'))
                      (mk_state [] None []) ;;
    Ok (st, length button_pushes).

Definition find_ratings (res : list event) (pic : list picture)
    (blk_start : Z) (blk_end : option Z) (mri_start : Z)
    (blk_start_time : Q) : result (list Z * nat) :=
  '(st, n) <- find_ratings_trace res pic blk_start blk_end mri_start
                                blk_start_time ;;
  Ok (ratings st, n).

(* ===================================================================== *)
(** ** [match_lengths] *)
(* ===================================================================== *)

(** [numpy.searchsorted(xs, v)] on an increasing [xs]: the number of
    leading elements below [v]. *)
Fixpoint searchsorted (xs : list Q) (v : Q) : nat :=
  match xs with
  | [] => 0
  | x :: xs' => if Qlt_le_dec x v then S (searchsorted xs' v) else 0
  end.

Definition clip (i lo hi : nat) : nat := Nat.min (Nat.max i lo) hi.

(** The linear [scipy.interpolate.interp1d] object built on the knots [x]
    with values [y], applied to one point: points outside the knots are
    refused. *)
Definition interp1d_call (x y : list Q) (x_new : Q) : result Q :=
  if Qlt_le_dec x_new (nth 0 x 0%Q) then Raise ValueError
  else if Qlt_le_dec (last x 0%Q) x_new then Raise ValueError
  else
    let hi := clip (searchsorted x x_new) 1 (length x - 1) in
    let lo := (hi - 1)%nat in
    let x_lo := nth lo x 0%Q in
    let x_hi := nth hi x 0%Q in
    let y_lo := nth lo y 0%Q in
    let y_hi := nth hi y 0%Q in
    let slope := ((y_hi - y_lo) / (x_hi - x_lo))%Q in
    Ok (slope * (x_new - x_lo) + y_lo)%Q.

Fixpoint map_result {A B : Type} (f : A -> result B) (l : list A)
    : result (list B) :=
  match l with
  | [] => Ok []
  | a :: l' =>
      b <- f a ;;
      bs <- map_result f l' ;;
      Ok (b :: bs)
  end.

(** [match_lengths(a, b)]: [b] resampled to the length of [a]. The
    interpolator needs at least two knots. *)
Definition match_lengths (a b : list Q) : result (list Q) :=
  let len_a := Z.of_nat (length a) in
  let len_b := Z.of_nat (length b) in
  x <- linspace 0 (inject_Z (len_b - 1)) len_b ;;
  if (length x <? 2)%nat then Raise ValueError
  else
    x_new <- linspace 0 (inject_Z (len_b - 1)) len_a ;;
    map_result (interp1d_call x b) x_new.

(* ===================================================================== *)
(** ** [process_behav_data] *)
(* ===================================================================== *)

(** Lines 364-372: the shorter series is stretched to the longer one, or the
    participant's series is replaced when no button was pushed. *)
Definition align (n_pushes : nat) (subj_rate gold_rate : list Q)
    : result (list Q * list Q) :=
  if negb (n_pushes =? 0)%nat then
    if (length subj_rate <? length gold_rate)%nat then
      s <- match_lengths gold_rate subj_rate ;; Ok (s, gold_rate)
    else if (length gold_rate <? length subj_rate)%nat then
      g <- match_lengths subj_rate gold_rate ;; Ok (subj_rate, g)
    else Ok (subj_rate, gold_rate)
  else Ok (repeat (inject_Z 5) (length gold_rate), gold_rate).

(** [axs[i]] for [fig, axs = plt.subplots(1, n)]: with one column [axs] is a
    single axes object, which cannot be indexed. *)
Definition axes_getitem (n i : nat) : result unit :=
  if (n =? 1)%nat then Raise TypeError else Ok tt.

(** Lines 346-350. *)
Definition next_block_number (blocks : list block) (i : nat) : option Z :=
  match nth_error blocks (S i) with
  | Some b => Some (block_number b)
  | None => None
  end.

Definition ascii_c : ascii := "c"%char.
Definition ascii_v : ascii := "v"%char.

(** What one block contributes to the four output lists. *)
Record block_result : Type := mk_result {
  br_onset : Q;
  br_duration : Q;
  br_correlation : Q;
  br_button_pushes : Q
}.

(** What the four output lists hold after the loop. *)
Record behav_result : Type := mk_behav {
  onsets_used : list Q;
  durations : list Q;
  correlations : list Q;
  button_pushes : list Q
}.

Fixpoint keep_some {A : Type} (l : list (option A)) : list A :=
  match l with
  | [] => []
  | Some a :: l' => a :: keep_some l'
  | None :: l' => keep_some l'
  end.

Definition gather (l : list (option block_result)) : behav_result :=
  let kept := keep_some l in
  mk_behav (map br_onset kept) (map br_duration kept)
           (map br_correlation kept) (map br_button_pushes kept).

Section Driver.
Variable E : externals.

(** Lines 374-378: the coefficient, with NaN replaced by 0. *)
Definition correlation (subj_rate gold_rate : list Q) : Q :=
  match corrcoef E subj_rate gold_rate with
  | Some c => c
  | None => 0%Q
  end.

(** Lines 354-372: the two series handed to [numpy.corrcoef] for block
    [i], and the number of button pushes. *)
Definition block_series (res : list event) (pic : list picture)
    (mri_start : Z) (blocks : list block) (i : nat)
    : result (list Q * list Q * list Q * nat) :=
  b <- getitem blocks i ;;
  '(subj_rate, n_pushes) <-
     find_ratings res pic (block_number b) (next_block_number blocks i)
                  mri_start (block_start b) ;;
  gold_rate <- gold_rate_of E (block_name b) ;;
  duration <- duration_of E (block_name b) ;;
  '(subj_rate, gold_rate) <-
     align n_pushes (map inject_Z subj_rate) gold_rate ;;
  Ok (subj_rate, gold_rate, duration, n_pushes).

(** The body of the loop of lines 340-418 for block [i]; [None] is the
    [continue] taken for a block of the other task. *)
Definition process_block (trial_type : string) (res : list event)
    (pic : list picture) (mri_start : Z) (blocks : list block)
    (onsets : list Q) (i : nat) : result (option block_result) :=
  b <- getitem blocks i ;;
  '(subj_rate, gold_rate, duration, n_pushes) <-
     block_series res pic mri_start blocks i ;;
  let corr := correlation subj_rate gold_rate in
  _ <- axes_getitem (length blocks) i ;;
  c <- str_getitem (block_name b) 0 ;;
  if String.eqb trial_type "vid" && Ascii.eqb c ascii_c then Ok None
  else if String.eqb trial_type "cvid" && Ascii.eqb c ascii_v then Ok None
  else
    o <- getitem onsets i ;;
    d <- getitem duration 0 ;;
    if Qeq_bool d 0 then Raise ZeroDivisionError
    else
      Ok (Some (mk_result o d corr
                  (inject_Z (Z.of_nat n_pushes) / d / 60)%Q)).

Definition process_behav_data (log sub trial_type : string)
    : result behav_result :=
  if negb (String.eqb trial_type "vid" || String.eqb trial_type "cvid")
  then Raise ValueError
  else
    p <- log_parser E sub log ;;
    '(blocks, onsets) <- find_blocks (pl_vid p) (pl_mri_start p) ;;
    (* [plt.figaspect(1.0/len(blocks))] *)
    if (length blocks =? 0)%nat then Raise ZeroDivisionError
    else
      (* with at least one block the anchor is an integer, [res] an array
         of rows and [pic] one-dimensional; the last case is never taken *)
      match pl_pic p, pl_res p, pl_mri_start p with
      | Arr1 pic, Rows res, SInt mri_start =>
          rows <- map_result
                    (process_block trial_type res pic mri_start blocks onsets)
                    (seq 0 (length blocks)) ;;
          Ok (gather rows)
      | _, _, _ => Raise TypeError
      end.
End Driver.

(* ===================================================================== *)
(** ** Rendering of numbers *)
(* ===================================================================== *)

Definition string_of_Z (n : Z) : string :=
  NilZero.string_of_uint (N.to_uint (Z.to_N n)).

Definition digit_char (d : Z) : ascii := ascii_of_nat (Z.to_nat (48 + d)).

Definition sign_of (x : Q) : string :=
  if Qlt_le_dec x 0 then "-"%string else ""%string.

(** [format(x, '.2f')]: the value rounded to hundredths, halves to even,
    printed with exactly two digits after the point. The rounding is that
    of the exact value; Python rounds the binary double, which differs in
    the last digit for a value next to a tie (see the conventions). *)
Definition hundredths (x : Q) : Z := np_round (Qabs x * 100)%Q.

Definition format_2f (x : Q) : string :=
  let n := hundredths x in
  (sign_of x ++ string_of_Z (n / 100) ++ "."
     ++ String (digit_char ((n / 10) mod 10))
          (String (digit_char (n mod 10)) EmptyString))%string.

(** The decimal exponent of a positive rational: [10^e <= x < 10^(e+1)]. *)
Definition decimal_digits (n : Z) : Z :=
  Z.of_nat (String.length (string_of_Z n)).

Definition exponent10 (x : Q) : Z :=
  let e0 := decimal_digits (Qnum x) - decimal_digits (Zpos (Qden x)) in
  if Qle_bool (Qpower 10 e0) x then e0 else e0 - 1.

Fixpoint strip_zeros_rev (ds : list ascii) : list ascii :=
  match ds with
  | c :: ds' => if Ascii.eqb c "0"%char then strip_zeros_rev ds' else ds
  | [] => []
  end.

Definition strip_trailing_zeros (s : string) : string :=
  string_of_list_ascii
    (rev (strip_zeros_rev (rev (list_ascii_of_string s)))).

Fixpoint zeros (n : nat) : string :=
  match n with
  | O => EmptyString
  | S n' => String "0"%char (zeros n')
  end.

Definition two_digits (n : Z) : string :=
  if n <? 10 then ("0" ++ string_of_Z n)%string else string_of_Z n.

(** [str(x)] for a Python 2 float: twelve significant digits, trailing zeros
    removed, scientific notation below [1e-4] and from [1e12] on, and [.0]
    added to a result that looks like an integer. *)
Definition str_float (x : Q) : string :=
  if Qeq_bool x 0 then "0.0"%string
  else
    let a := Qabs x in
    let e0 := exponent10 a in
    let m0 := np_round (a * Qpower 10 (11 - e0))%Q in
    let e := if m0 =? 10 ^ 12 then e0 + 1 else e0 in
    let m := if m0 =? 10 ^ 12 then 10 ^ 11 else m0 in
    let ds := strip_trailing_zeros (string_of_Z m) in
    let body :=
      if (e <? -4) || (12 <=? e) then
        (substring 0 1 ds
           ++ (if (String.length ds =? 1)%nat then ""
               else "." ++ substring 1 (String.length ds - 1) ds)
           ++ "e" ++ (if (e <? 0)%Z then "-" else "+")
           ++ two_digits (Z.abs e))%string
      else if e <? 0 then
        ("0." ++ zeros (Z.to_nat (- e - 1)) ++ ds)%string
      else
        let k := Z.to_nat (e + 1) in
        (substring 0 k ds ++ zeros (k - String.length ds)
           ++ (if (String.length ds <=? k)%nat then ".0"
               else "." ++ substring k (String.length ds - k) ds))%string
    in (sign_of x ++ body)%string.

(* ===================================================================== *)
(** ** [main] *)
(* ===================================================================== *)

(** Line 701: one event of the stimulus-timing file. *)
Definition timing_event (o r p d : Q) : string :=
  (format_2f o ++ "*" ++ format_2f r ++ "," ++ str_float p ++ ":"
     ++ format_2f d ++ " ")%string.

(** Line 705: one row of the summary table. *)
Definition newline : string := String (ascii_of_nat 10) EmptyString.

Definition summary_row (r p : Q) : string :=
  (format_2f r ++ "," ++ str_float p ++ newline)%string.

(** The files the batch writes, by subject, and the subjects whose GLM script
    was generated and run. The variable [f1] (and [f2] with it) is unbound
    until a subject with at least one log is met. *)
Record batch_state : Type := mk_batch {
  f1 : option string;
  block_times : list (string * string);
  corr_push : list (string * string);
  glm_run : list string
}.

Definition initial_state : batch_state := mk_batch None [] [] [].

Fixpoint file_content (files : list (string * string)) (name : string)
    : option string :=
  match files with
  | [] => None
  | (n, c) :: files' =>
      if String.eqb n name then Some c else file_content files' name
  end.

(** [open(name, 'wb')]: the file is created or emptied. *)
Fixpoint file_open (files : list (string * string)) (name : string)
    : list (string * string) :=
  match files with
  | [] => [(name, EmptyString)]
  | (n, c) :: files' =>
      if String.eqb n name then (n, EmptyString) :: files'
      else (n, c) :: file_open files' name
  end.

Fixpoint file_write (files : list (string * string)) (name text : string)
    : list (string * string) :=
  match files with
  | [] => []
  | (n, c) :: files' =>
      if String.eqb n name then (n, (c ++ text)%string) :: files'
      else (n, c) :: file_write files' name text
  end.

Definition open_outputs (sub : string) (st : batch_state) : batch_state :=
  mk_batch (Some sub)
           (file_open (block_times st) sub)
           (file_write (file_open (corr_push st) sub) sub
              ("correlation,n-pushes-per-minute" ++ newline)%string)
           (glm_run st).

Definition write_outputs (t s : string) (st : batch_state)
    : result batch_state :=
  match f1 st with
  | None => Raise UnboundLocalError
  | Some sub =>
      Ok (mk_batch (f1 st) (file_write (block_times st) sub t)
                   (file_write (corr_push st) sub s) (glm_run st))
  end.

(** Lines 700-705 for event [i] of a log. *)
Definition write_event (r : behav_result) (i : nat) (st : batch_state)
    : result batch_state :=
  o <- getitem (onsets_used r) i ;;
  c <- getitem (correlations r) i ;;
  p <- getitem (button_pushes r) i ;;
  d <- getitem (durations r) i ;;
  write_outputs (timing_event o c p d) (summary_row c p) st.

Fixpoint write_events (r : behav_result) (positions : list nat)
    (st : batch_state) : result batch_state :=
  match positions with
  | [] => Ok st
  | i :: rest => st' <- write_event r i st ;; write_events r rest st'
  end.

(** [list.sort()] on file names. *)
Fixpoint insert_sorted (x : string) (l : list string) : list string :=
  match l with
  | [] => [x]
  | y :: l' => if String.leb x y then x :: l else y :: insert_sorted x l'
  end.

Definition sort_names (l : list string) : list string :=
  fold_right insert_sorted [] l.

Section Batch.
Variable E : externals.

(** Lines 692-707 for one log. *)
Definition process_log (sub log : string) (st : batch_state)
    : result batch_state :=
  r <- process_behav_data E log sub "vid" ;;
  st' <- write_events r (seq 0 (length (onsets_used r))) st ;;
  write_outputs newline EmptyString st'.

Fixpoint process_logs (sub : string) (logs : list string)
    (st : batch_state) : result batch_state :=
  match logs with
  | [] => Ok st
  | log :: rest =>
      st' <- process_log sub log st ;; process_logs sub rest st'
  end.

(** [f1.close(); f2.close()] *)
Definition close_outputs (st : batch_state) : result batch_state :=
  match f1 st with
  | None => Raise UnboundLocalError
  | Some _ => Ok st
  end.

(** The body of the loop over the subjects, lines 655-716. *)
Definition process_subject (sub : string) (st : batch_state)
    : result batch_state :=
  if String.eqb (subject_type E sub) "phantom" then Ok st
  else if complete_log_exists E sub then Ok st
  else
    match process_functional_data E sub with
    | Raise ValueError => Ok st
    | Raise e => Raise e
    | Ok _ =>
        match listdir_behav E sub with
        | Raise _ => Ok st
        | Ok names =>
            let logs :=
              sort_names
                (filter (fun x => contains ".log" x
                                  && contains "UCLAEmpAcc" x) names) in
            let st1 := if (0 <? length logs)%nat
                       then open_outputs sub st else st in
            st2 <- process_logs sub logs st1 ;;
            st3 <- close_outputs st2 ;;
            Ok (mk_batch (f1 st3) (block_times st3) (corr_push st3)
                         (glm_run st3 ++ [sub]))
        end
    end.

Fixpoint process_subjects (subs : list string) (st : batch_state)
    : result batch_state :=
  match subs with
  | [] => Ok st
  | sub :: rest =>
      st' <- process_subject sub st ;; process_subjects rest st'
  end.

Definition main : result batch_state :=
  process_subjects (get_subjects E) initial_state.
End Batch.

(* ===================================================================== *)
(** ** Reference definitions the properties are stated against *)
(* ===================================================================== *)

(** Each row paired with the row just before it ([None] for the first). *)
Definition with_predecessor (rows : list event) : list (option event * event) :=
  combine (None :: map Some rows) rows.

Definition starts_run (x : option event * event) : bool :=
  match fst x with
  | None => true
  | Some prev => negb (trial (snd x) =? trial prev)
  end.

(** The rows that open a run of consecutive rows with one trial number. *)
Definition run_heads (rows : list event) : list event :=
  map snd (filter starts_run (with_predecessor rows)).

(** The first row for every distinct trial number, whatever lies between
    two rows with the same number. *)
Fixpoint first_occurrences_from (seen : list Z) (rows : list event)
    : list event :=
  match rows with
  | [] => []
  | r :: rows' =>
      if existsb (Z.eqb (trial r)) seen
      then first_occurrences_from seen rows'
      else r :: first_occurrences_from (trial r :: seen) rows'
  end.

Definition first_occurrences (rows : list event) : list event :=
  first_occurrences_from [] rows.

(** Trial numbers that never decrease along the stream. *)
Fixpoint trials_ascending (rows : list event) : Prop :=
  match rows with
  | [] => True
  | r :: rows' =>
      match rows' with
      | [] => True
      | r' :: _ => trial r <= trial r'
      end /\ trials_ascending rows'
  end.

(** The rating of the Picture event recorded on the trial after response
    [r], the last Picture event's when there is none, and the neutral value
    at the first position. *)
Definition picture_after (pic : list picture) (r : event) : option picture :=
  find (fun p => p_trial p =? trial r + 1) pic.

Definition rating_by_trial (pic : list picture) (r : event) (i : nat)
    : result Z :=
  if (i =? 0)%nat then Ok neutral_rating
  else
    match picture_after pic r with
    | Some p => decode_rating (p_code p)
    | None => p <- getlast pic ;; decode_rating (p_code p)
    end.

(** A time relative to [mri_start]: one of the tick counts [ticks] read off
    the log, minus [mri_start], over 10000. *)
Definition relative_to (mri_start : Z) (ticks : list Z) (q : Q) : Prop :=
  exists tick,
    In tick ticks /\ q = (inject_Z (tick - mri_start) / 10000)%Q.

(** The tick counts of the Response rows [res] and the Picture rows
    [pic]. *)
Definition row_ticks (res : list event) (pic : list picture) : list Z :=
  map time res ++ map p_time pic.

(** A rating: an integer from 0 to 10 that is the neutral value or the
    digit ending the code of one of the Picture rows. *)
Definition rating_value (pic : list picture) (v : Z) : Prop :=
  0 <= v <= 10
  /\ (v = neutral_rating
      \/ exists p, In p pic /\ decode_rating (p_code p) = Ok v).

(** What every pass of the reconstruction loop preserves: the trace so far
    and the held value are ratings. *)
Definition rated (pic : list picture) (st : loop_state) : Prop :=
  Forall (rating_value pic) (ratings st)
  /\ forall v, previous_rating st = Some v -> rating_value pic v.

(** A stimulus-timing event with all four numbers at two decimals. *)
Definition two_decimal_event (o r p d : Q) : string :=
  (format_2f o ++ "*" ++ format_2f r ++ "," ++ format_2f p ++ ":"
     ++ format_2f d ++ " ")%string.

(** The events of one run, each followed by a space, and the newline that
    ends the run's line. *)
Fixpoint timing_tokens (on corr push dur : list Q) : string :=
  match on, corr, push, dur with
  | o :: on', c :: corr', p :: push', d :: dur' =>
      (timing_event o c p d ++ timing_tokens on' corr' push' dur')%string
  | _, _, _, _ => EmptyString
  end.

Definition timing_line (r : behav_result) : string :=
  (timing_tokens (onsets_used r) (correlations r) (button_pushes r)
                 (durations r) ++ newline)%string.

Definition is_digit (c : ascii) : bool :=
  match digit_of_ascii c with
  | Some _ => true
  | None => false
  end.

Fixpoint all_digits (s : string) : bool :=
  match s with
  | EmptyString => true
  | String c s' => is_digit c && all_digits s'
  end.

(** An optional minus sign, at least one digit, a point and exactly two
    digits. *)
Definition two_decimals (s : string) : Prop :=
  exists sign whole d1 d2,
    s = (sign ++ whole ++ "." ++ String d1 (String d2 EmptyString))%string
    /\ (sign = EmptyString \/ sign = "-"%string)
    /\ whole <> EmptyString
    /\ all_digits whole = true
    /\ is_digit d1 = true /\ is_digit d2 = true.

(** Reading back a number printed with two decimals. *)
Fixpoint split_at_point (s : string) : option (string * string) :=
  match s with
  | EmptyString => None
  | String c s' =>
      if Ascii.eqb c "."%char then Some (EmptyString, s')
      else
        match split_at_point s' with
        | Some (a, b) => Some (String c a, b)
        | None => None
        end
  end.

Definition Z_of_digits (s : string) : option Z :=
  match NilZero.uint_of_string s with
  | Some u => Some (Z.of_N (N.of_uint u))
  | None => None
  end.

Definition parse_unsigned_2f (body : string) : option Q :=
  match split_at_point body with
  | Some (whole, frac) =>
      match Z_of_digits whole, Z_of_digits frac with
      | Some w, Some f =>
          if (String.length frac =? 2)%nat
          then Some (inject_Z (100 * w + f) / 100)%Q
          else None
      | _, _ => None
      end
  | None => None
  end.

Definition parse_2f (s : string) : option Q :=
  match s with
  | String c s' =>
      if Ascii.eqb c "-"%char
      then match parse_unsigned_2f s' with
           | Some v => Some (- v)%Q
           | None => None
           end
      else parse_unsigned_2f s
  | EmptyString => None
  end.

(* ===================================================================== *)
(** ** A sample study, to run the definitions on *)
(* ===================================================================== *)

Module Sample.

Definition tab : ascii := ascii_of_nat 9.

(** [s.split('\t')] *)
Fixpoint split_tab (s : string) : list string :=
  match s with
  | EmptyString => [EmptyString]
  | String c s' =>
      if Ascii.eqb c tab then EmptyString :: split_tab s'
      else
        match split_tab s' with
        | f :: fs => String c f :: fs
        | [] => [String c EmptyString]
        end
  end.

Fixpoint join_tab (fields : list string) : string :=
  match fields with
  | [] => EmptyString
  | [f] => f
  | f :: fs => (f ++ String tab (join_tab fs))%string
  end.

(** An integer field; text that is not a number decodes to [-1]. *)
Definition int_field (s : string) : Z :=
  match NilZero.int_of_string s with
  | Some d => Z.of_int d
  | None => -1
  end.

Definition event_of_line (line : string) : result event :=
  match split_tab line with
  | [a; b; c; d; e; f; g] =>
      Ok (mk_event a (int_field b) c d (int_field e) (int_field f)
                   (int_field g))
  | _ => Raise ValueError
  end.

Definition picture_of_line (line : string) : result picture :=
  match split_tab line with
  | [a; b; c; d; e; f; g; h; i; j; k; l; m] =>
      Ok (mk_picture a (int_field b) c d (int_field e) (int_field f)
                     (int_field g) (int_field h) (int_field i)
                     (int_field j) (int_field k) l (int_field m))
  | _ => Raise ValueError
  end.

Definition response_line (sub trial code time : string) : string :=
  join_tab [sub; trial; "Response"; code; time; "0"; "1"]%string.

Definition video_line (sub trial code time : string) : string :=
  join_tab [sub; trial; "Video"; code; time; "0"; "1"]%string.

Definition picture_line (sub trial code time : string) : string :=
  join_tab [sub; trial; "Picture"; code; time; "0"; "1"; "20000"; "2";
            "0"; "20000"; "other"; "0"]%string.

(** A run with the anchor and two videos: in the first a button push on
    trial 3, whose rating is recorded on trial 4, and in the second a button
    push on the last trial. *)
Definition good_log : list string :=
  [ picture_line "s01" "1" "MRI_start" "900";
    response_line "s01" "1" "104" "1000";
    response_line "s01" "1" "104" "1010";
    video_line "s01" "2" "vid_1" "3000";
    response_line "s01" "2" "104" "3000";
    response_line "s01" "3" "102" "23000";
    picture_line "s01" "3" "rating_5" "3000";
    picture_line "s01" "4" "rating_7" "43000";
    response_line "s01" "4" "104" "63000";
    picture_line "s01" "5" "rating_7" "83000";
    video_line "s01" "6" "cvid_2" "103000";
    response_line "s01" "6" "104" "103000";
    picture_line "s01" "7" "rating_5" "143000";
    response_line "s01" "7" "103" "143000" ]%string.

(** The same run without the anchor line. *)
Definition unanchored_log : list string := tl good_log.

(** A run with the anchor and a single Response line. *)
Definition one_response_log : list string :=
  [ picture_line "s01" "1" "MRI_start" "900";
    response_line "s01" "1" "104" "1000";
    picture_line "s01" "3" "rating_5" "3000";
    video_line "s01" "2" "vid_1" "3000";
    video_line "s01" "6" "cvid_2" "103000" ]%string.

(** A run with the anchor and no Response line at all. *)
Definition no_response_log : list string :=
  [ picture_line "s01" "1" "MRI_start" "900";
    picture_line "s01" "3" "rating_5" "3000";
    video_line "s01" "2" "vid_1" "3000" ]%string.

Definition reference (name : string) : result (list Q) :=
  if String.eqb name "vid_1" then Ok [5#1; 6#1; 7#1; 8#1]
  else if String.eqb name "cvid_2" then Ok [5#1; 5#1; 4#1]
  else Ok [].

Definition video_length (name : string) : result (list Q) :=
  if String.eqb name "vid_1" then Ok [8#1]
  else if String.eqb name "cvid_2" then Ok [6#1]
  else Ok [].

(** Two subjects; the only log of the first one lacks the anchor. *)
Definition study : externals := {|
  readlines := fun sub log =>
    if String.eqb sub "SPN01_CMH_0001_01" then Ok unanchored_log
    else if String.eqb sub "SPN01_CMH_0002_01" then Ok good_log
    else Raise IOError;
  decode_picture := map_result picture_of_line;
  decode_event := map_result event_of_line;
  gold_rate_of := reference;
  duration_of := video_length;
  corrcoef := fun _ _ => Some (1 # 2);
  get_subjects := ["SPN01_CMH_0001_01"; "SPN01_CMH_0002_01"]%string;
  subject_type := fun _ => "subject"%string;
  complete_log_exists := fun _ => false;
  process_functional_data := fun _ => Ok tt;
  listdir_behav := fun _ => Ok ["UCLAEmpAcc_part1.log"]%string
|}.

(** The same study with the second subject alone. *)
Definition study_second_only : externals := {|
  readlines := readlines study;
  decode_picture := decode_picture study;
  decode_event := decode_event study;
  gold_rate_of := gold_rate_of study;
  duration_of := duration_of study;
  corrcoef := corrcoef study;
  get_subjects := ["SPN01_CMH_0002_01"]%string;
  subject_type := subject_type study;
  complete_log_exists := complete_log_exists study;
  process_functional_data := process_functional_data study;
  listdir_behav := listdir_behav study
|}.

(** A run whose Response lines all carry trial 1, for a subject with a
    short and with a long identifier. *)
Definition single_trial_log (sub : string) : list string :=
  [ picture_line sub "1" "MRI_start" "900";
    response_line sub "1" "104" "1000";
    response_line sub "1" "104" "1010";
    picture_line sub "3" "rating_5" "3000";
    video_line sub "2" "vid_1" "3000";
    video_line sub "6" "cvid_2" "103000" ]%string.

(** Response rows by trial number and time. *)
Definition response (t tm : Z) : event :=
  mk_event "s01" t "Response" "104" tm 0 1.

Definition repeated_trials : list event :=
  [response 1 10; response 1 20; response 1 30; response 2 40;
   response 2 50; response 3 60].

Definition interleaved_trials : list event :=
  [response 1 10; response 2 20; response 1 30].

(** A button push, and a Picture row, by trial number and time. *)
Definition push (t tm : Z) : event :=
  mk_event "s01" t "Response" "102" tm 0 1.

Definition rating (t : Z) (c : string) (tm : Z) : picture :=
  mk_picture "s01" t "Picture" c tm 0 1 20000 2 0 20000 "other" 0.

(** A block in which the participant pushed no button and no rating was
    recorded: the trigger of trial 10 is the only response of the block
    that starts on trial 10. *)
Definition silent_responses : list event :=
  [response 1 1000; response 10 50000; response 20 90000].

Definition silent_pictures : list picture :=
  [rating 1 "MRI_start" 900; rating 3 "rating_7" 3000].

Definition silent_blocks : list block :=
  [mk_block 10 "vid_1" (49 # 10); mk_block 12 "cvid_2" (89 # 10)].

(** A block that opens with a button push on trial 10, rated 7 on trial 11,
    and closes with the trigger of trial 12, rated 3 on trial 13. *)
Definition pushed_responses : list event :=
  [response 1 1000; push 10 50000; response 12 90000].

Definition pushed_pictures : list picture :=
  [rating 1 "MRI_start" 900; rating 11 "rating_7" 50000;
   rating 13 "rating_3" 90000].

End Sample.

(* ===================================================================== *)
(** ** [find_column_data] *)
(* ===================================================================== *)

(** [x.lower()]: the letters [A] to [Z] are mapped to [a] to [z]. *)
Definition lower_ascii (c : ascii) : ascii :=
  let n := nat_of_ascii c in
  if ((65 <=? n) && (n <=? 90))%nat then ascii_of_nat (n + 32) else c.

Fixpoint lower (s : string) : string :=
  match s with
  | EmptyString => EmptyString
  | String c s' => String (lower_ascii c) (lower s')
  end.

(** What [numpy.genfromtxt(rating_file, delimiter=',', ...)] returns, by
    its number of dimensions. The rows are read into an array of as many
    rows and columns as the table has, and the array is squeezed: one row,
    or one column, leaves one dimension, and a single cell none. *)
Inductive table (A : Type) : Type :=
| Table0 (x : A)
| Table1 (xs : list A)
| Table2 (rows : list (list A)).
Arguments Table0 {A} x.
Arguments Table1 {A} xs.
Arguments Table2 {A} rows.

(** Whether every line has as many cells as the first one. *)
Definition rectangular {A : Type} (lines : list (list A)) : bool :=
  match lines with
  | [] => true
  | first :: rest =>
      forallb (fun line => (length line =? length first)%nat) rest
  end.

(** [numpy.genfromtxt] on the cells of the lines it reads: lines of
    different widths are refused, and no line at all gives an empty array
    of one dimension. *)
Definition genfromtxt_cells {A : Type} (lines : list (list A))
    : result (table A) :=
  if negb (rectangular lines) then Raise ValueError
  else
    match lines with
    | [] => Ok (Table1 [])
    | [[x]] => Ok (Table0 x)
    | [line] => Ok (Table1 line)
    | _ =>
        if forallb (fun line => (length line =? 1)%nat) lines
        then Ok (Table1 (concat lines))
        else Ok (Table2 lines)
    end.

(** The characters of a string, as [map] over a [str] yields them. *)
Fixpoint letters (s : string) : list string :=
  match s with
  | EmptyString => []
  | String c s' => String c EmptyString :: letters s'
  end.

(** Lines 259-260: [numpy.genfromtxt(rating_file, delimiter=',',
    dtype=str)[0].tolist()], as the list [map] runs over on line 261. Row 0
    of a table of two dimensions is the list of the cells of the first
    line; element 0 of an array of one dimension is the first cell, a
    string, which [map] takes letter by letter; an array without a
    dimension cannot be indexed. *)
Definition read_column_names (lines : list (list string))
    : result (list string) :=
  names <- genfromtxt_cells lines ;;
  match names with
  | Table2 (first :: _) => Ok first
  | Table1 (cell :: _) => Ok (letters cell)
  | _ => Raise IndexError
  end.

(** Lines 265-266: [numpy.genfromtxt(rating_file, delimiter=',',
    dtype=float, skip_header=2)]; [to_float] is the conversion of a cell,
    [None] for a value that is not a finite number (NaN for a cell that is
    empty or not a number, or an infinity). *)
Definition read_column_data (to_float : string -> option Q)
    (lines : list (list string)) : result (table (option Q)) :=
  genfromtxt_cells (map (map to_float) (skipn 2 lines)).

(** [numpy.where(numpy.array(names) == x)[0]]: the positions of [x]. *)
Fixpoint where_equal_from (i : nat) (names : list string) (x : string)
    : list nat :=
  match names with
  | [] => []
  | n :: names' =>
      if String.eqb n x then i :: where_equal_from (S i) names' x
      else where_equal_from (S i) names' x
  end.

Definition where_equal (names : list string) (x : string) : list nat :=
  where_equal_from 0 names x.

(** [xs[index]] for an array of positions [index]. *)
Definition take (xs : list (option Q)) (index : list nat)
    : result (list (option Q)) :=
  map_result (getitem xs) index.

(** [find_column_data], on the cells of the lines of [rating_file], none of
    them blank or a comment. The mask [numpy.isfinite] keeps the finite
    entries, row by row. *)
Definition find_column_data (to_float : string -> option Q)
    (blk_name : string) (lines : list (list string)) : result (list Q) :=
  column_names <- read_column_names lines ;;
  let column_names := map lower column_names in
  let column_number := where_equal column_names (lower blk_name) in
  column_data <- read_column_data to_float lines ;;
  match column_data with
  | Table1 xs =>
      selected <- take xs column_number ;;
      Ok (keep_some selected)
  | Table2 rows =>
      selected <- map_result (fun row => take row column_number) rows ;;
      Ok (keep_some (concat selected))
  | Table0 _ => Raise ValueError
  end.

(* ===================================================================== *)
(** ** [process_functional_data]: the checks of its inputs *)
(* ===================================================================== *)

(** [l.remove(d)]: the first element equal to [d] is taken out. *)
Fixpoint list_remove (d : string) (l : list string) : result (list string) :=
  match l with
  | [] => Raise ValueError
  | x :: l' =>
      if String.eqb x d then Ok l'
      else l'' <- list_remove d l' ;; Ok (x :: l'')
  end.

(** Lines 466-469: [for d in EA_data: ... EA_data.remove(d)]. The iterator
    of a Python list is a position in the list; it moves on by one after
    every pass, whether or not the pass shortened the list. No more passes
    are made than the list has elements at the start. *)
Fixpoint remove_truncated_loop (passes : nat) (volumes : string -> result Z)
    (EA_data : list string) (i : nat) : result (list string) :=
  match passes with
  | O => Ok EA_data
  | S passes' =>
      match nth_error EA_data i with
      | None => Ok EA_data
      | Some d =>
          n <- volumes d ;;
          if negb (n =? 277)
          then EA_data' <- list_remove d EA_data ;;
               remove_truncated_loop passes' volumes EA_data' (S i)
          else remove_truncated_loop passes' volumes EA_data (S i)
      end
  end.

(** [l[-3:]] *)
Definition last_three {A : Type} (l : list A) : list A :=
  skipn (length l - 3) l.

(** Lines 460-476: the runs of the task, sorted, without the truncated
    ones, the last three of them; any exception becomes a [ValueError].
    [volumes d] is [nib.load(...).shape[-1]] for the file [d]. *)
Definition select_EA_runs (volumes : string -> result Z)
    (niftis : list string) : result (list string) :=
  let EA_data :=
    sort_names (filter (fun x => contains "EA" x || contains "Emp_Acc" x)
                       niftis) in
  match remove_truncated_loop (length EA_data) volumes EA_data 0 with
  | Ok kept => Ok (last_three kept)
  | Raise _ => Raise ValueError
  end.

(** What [process_functional_data] looks at before it starts to copy. *)
Record functional_inputs : Type := {
  (** [os.listdir] of the subject's [nifti] and [behav] folders *)
  nifti_dir : result (list string);
  behav_dir : result (list string);
  (** whether [freesurfer/<sub>/mri/brain.mgz] is a file *)
  brain_mgz : bool;
  nifti_volumes : string -> result Z;
  (** whether [ea/.<sub>_complete] is a file *)
  complete_marker : bool
}.

(** Lines 432-480. *)
Definition check_functional_inputs (W : functional_inputs)
    : result (list string) :=
  niftis <- match nifti_dir W with
            | Ok names => Ok (filter (contains "nii.gz") names)
            | Raise _ => Raise ValueError
            end ;;
  _ <- match behav_dir W with
       | Ok names =>
           if negb (length (filter (contains "UCLAEmpAcc") names) =? 3)%nat
           then Raise ValueError
           else Ok tt
       | Raise _ => Raise ValueError
       end ;;
  if negb (brain_mgz W) then Raise ValueError
  else
    EA_data <- select_EA_runs (nifti_volumes W) niftis ;;
    if complete_marker W then Raise ValueError else Ok EA_data.

(* ===================================================================== *)
(** ** More reference definitions *)
(* ===================================================================== *)


(** A block of the task that was not asked for: a name that starts with [c]
    under ["vid"], with [v] under ["cvid"]. *)
Definition other_task (trial_type : string) (b : block) : bool :=
  match String.get 0 (block_name b) with
  | Some c =>
      (String.eqb trial_type "vid" && Ascii.eqb c ascii_c)
      || (String.eqb trial_type "cvid" && Ascii.eqb c ascii_v)
  | None => false
  end.

(** What is left of a list when every element for which [truncated] holds
    is dropped and the element after a dropped one is passed over. *)
Fixpoint skip_after_removed (truncated : string -> bool) (l : list string)
    : list string :=
  match l with
  | [] => []
  | d :: l' =>
      if truncated d
      then match l' with
           | [] => []
           | d' :: l'' => d' :: skip_after_removed truncated l''
           end
      else d :: skip_after_removed truncated l'
  end.

(** The rows one run adds to the summary table. *)
Fixpoint summary_rows (corr push : list Q) : string :=
  match corr, push with
  | c :: corr', p :: push' =>
      (summary_row c p ++ summary_rows corr' push')%string
  | _, _ => EmptyString
  end.

Definition summary_header : string :=
  ("correlation,n-pushes-per-minute" ++ newline)%string.

Fixpoint concat_strings (l : list string) : string :=
  match l with
  | [] => EmptyString
  | s :: l' => (s ++ concat_strings l')%string
  end.

(** A table of reference ratings and a folder of scans, to run the
    definitions on. *)
Module Tables.

(** A cell that holds a whole number; any other cell is not a number. *)
Definition to_float (cell : string) : option Q :=
  match NilZero.int_of_string cell with
  | Some d => Some (inject_Z (Z.of_int d))
  | None => None
  end.

(** A table of three columns: the names, a line that is passed over, and
    three lines of ratings, the columns of unequal lengths. *)
Definition ratings : list (list string) :=
  [ ["Vid_1"; "cvid_2"; "VID_3"];
    ["TR"; "TR"; "TR"];
    ["5"; "5"; "1"];
    ["6"; "4"; ""];
    ["";  "4"; ""] ]%string.

(** The first column of the table alone. *)
Definition one_column : list (list string) :=
  [ ["vid_1"]; ["TR"]; ["5"]; ["6"] ]%string.

Definition volumes (d : string) : result Z :=
  if contains "short" d then Ok 120 else Ok 277.

Definition scans : list string :=
  [ "SPN01_EA_run3.nii.gz"; "SPN01_EA_run1_short.nii.gz";
    "SPN01_EA_run2_short.nii.gz"; "SPN01_T1.nii.gz";
    "SPN01_EA_run4.nii.gz" ]%string.

(** A subject with the five scans, three files of the task among the logs,
    a brain and no completion marker. *)
Definition inputs : functional_inputs := {|
  nifti_dir := Ok scans;
  behav_dir := Ok [ "UCLAEmpAcc_part1.log"; "UCLAEmpAcc_part2.log";
                    "UCLAEmpAcc_part3.log"; "notes.txt" ]%string;
  brain_mgz := true;
  nifti_volumes := volumes;
  complete_marker := false
|}.

(** A run with the anchor and a single Video line, and a study that holds
    it. *)
Definition one_video_log : list string :=
  [ Sample.picture_line "s01" "1" "MRI_start" "900";
    Sample.response_line "s01" "1" "104" "1000";
    Sample.video_line "s01" "2" "vid_1" "3000";
    Sample.response_line "s01" "2" "104" "3000";
    Sample.picture_line "s01" "3" "rating_5" "43000" ]%string.

Definition one_video_study : externals := {|
  readlines := fun _ _ => Ok one_video_log;
  decode_picture := decode_picture Sample.study;
  decode_event := decode_event Sample.study;
  gold_rate_of := gold_rate_of Sample.study;
  duration_of := duration_of Sample.study;
  corrcoef := corrcoef Sample.study;
  get_subjects := ["SPN01_CMH_0003_01"]%string;
  subject_type := subject_type Sample.study;
  complete_log_exists := complete_log_exists Sample.study;
  process_functional_data := process_functional_data Sample.study;
  listdir_behav := fun _ => Ok ["UCLAEmpAcc_part1.txt"]%string
|}.

(** A study with a phantom, a subject that is complete, one without
    functional data and one without a folder of logs before the second
    subject of the sample study. *)
Definition mixed_study : externals := {|
  readlines := readlines Sample.study;
  decode_picture := decode_picture Sample.study;
  decode_event := decode_event Sample.study;
  gold_rate_of := gold_rate_of Sample.study;
  duration_of := duration_of Sample.study;
  corrcoef := corrcoef Sample.study;
  get_subjects := ["SPN01_CMH_PHA_FBN0001"; "SPN01_CMH_0004_01";
                   "SPN01_CMH_0005_01"; "SPN01_CMH_0006_01";
                   "SPN01_CMH_0002_01"]%string;
  subject_type := fun sub =>
    if contains "PHA" sub then "phantom"%string else "subject"%string;
  complete_log_exists := String.eqb "SPN01_CMH_0004_01";
  process_functional_data := fun sub =>
    if String.eqb sub "SPN01_CMH_0005_01" then Raise ValueError else Ok tt;
  listdir_behav := fun sub =>
    if String.eqb sub "SPN01_CMH_0006_01" then Raise IOError
    else Ok ["UCLAEmpAcc_part1.log"]%string
|}.

End Tables.

(* ===================================================================== *)
(** * Properties *)
(* ===================================================================== *)

(* ===================================================================== *)
(** ** Removal of repeated trials *)
(* ===================================================================== *)

Lemma events_hstack (a : recarray) (r : event) :
  events (hstack a r) = events a ++ [r].
Proof. destruct a; reflexivity. Qed.

(** The loop keeps [previously_seen] equal to the trial number of the row
    just before the one it looks at, so it appends exactly the rows that
    differ from their predecessor. *)
Lemma drop_repeats_events (rs : list event) :
  forall (prev : event) (acc : recarray),
    events (drop_repeats rs (trial prev) acc)
    = events acc
        ++ map snd (filter starts_run (combine (Some prev :: map Some rs) rs)).
Proof.
  induction rs as [|r rs IH]; intros prev acc.
  - simpl. now rewrite app_nil_r.
  - cbn [drop_repeats map combine filter].
    unfold starts_run at 1. cbn [fst snd].
    destruct (trial r =? trial prev) eqn:Heq; cbn [negb].
    + apply Z.eqb_eq in Heq. rewrite <- Heq. apply IH.
    + rewrite IH, events_hstack, <- app_assoc. reflexivity.
Qed.

Lemma first_occurrences_ascending (rs : list event) :
  forall (prev : event) (seen : list Z),
    trials_ascending (prev :: rs) ->
    In (trial prev) seen ->
    (forall z, In z seen -> z <= trial prev) ->
    first_occurrences_from seen rs
    = map snd (filter starts_run (combine (Some prev :: map Some rs) rs)).
Proof.
  induction rs as [|r rs IH]; intros prev seen Hasc Hin Hmax.
  - reflexivity.
  - destruct Hasc as [Hle Hasc].
    cbn [first_occurrences_from map combine filter].
    unfold starts_run at 1. cbn [fst snd].
    destruct (trial r =? trial prev) eqn:Heq; cbn [negb].
    + apply Z.eqb_eq in Heq.
      assert (Hex : existsb (Z.eqb (trial r)) seen = true).
      { apply existsb_exists. exists (trial prev). split; [exact Hin|].
        now apply Z.eqb_eq. }
      rewrite Hex. apply IH; [exact Hasc| now rewrite Heq |].
      intros z Hz. rewrite Heq. now apply Hmax.
    + apply Z.eqb_neq in Heq.
      assert (Hex : existsb (Z.eqb (trial r)) seen = false).
      { apply not_true_is_false. intros Hex.
        apply existsb_exists in Hex. destruct Hex as (z & Hz & Hzr).
        apply Z.eqb_eq in Hzr. specialize (Hmax z Hz). lia. }
      rewrite Hex. cbn [map snd]. f_equal.
      apply IH; [exact Hasc| now left |].
      intros z [Hz|Hz]; [lia|]. specialize (Hmax z Hz). lia.
Qed.

(** The first row opens the array and is never appended again. *)
Lemma remove_duplicate_trials_cons (r0 : event) (rest : list event) :
  remove_duplicate_trials (Arr1 (r0 :: rest))
  = Ok (drop_repeats rest (trial r0) (Void r0)).
Proof.
  unfold remove_duplicate_trials. cbn. now rewrite Z.eqb_refl.
Qed.

(** C1, as amended: the Response array of a log with at least two Response
    rows is reduced to exactly the rows that open a run of consecutive rows
    with one trial number, in their order; when the trial numbers never
    decrease this is the first row of every distinct trial number. With
    fewer than two rows nothing is kept: [res[0]] raises [IndexError]. *)
Theorem remove_duplicate_trials_run_heads (rows : list event) :
  ((2 <= length rows)%nat ->
   exists res_final,
     remove_duplicate_trials (squeeze rows) = Ok res_final
     /\ events res_final = run_heads rows
     /\ (trials_ascending rows ->
         events res_final = first_occurrences rows))
  /\ ((length rows < 2)%nat ->
      remove_duplicate_trials (squeeze rows) = Raise IndexError).
Proof.
  split.
  - destruct rows as [|r0 [|r1 rest]]; cbn [length]; try lia. intros _.
    set (tl := r1 :: rest).
    change (squeeze (r0 :: tl)) with (Arr1 (r0 :: tl)).
    exists (drop_repeats tl (trial r0) (Void r0)).
    assert (Hheads : events (drop_repeats tl (trial r0) (Void r0))
                     = run_heads (r0 :: tl)).
    { rewrite drop_repeats_events. reflexivity. }
    split; [|split].
    + apply remove_duplicate_trials_cons.
    + exact Hheads.
    + intros Hasc. rewrite Hheads.
      unfold first_occurrences, run_heads, with_predecessor.
      cbn [first_occurrences_from existsb map combine filter starts_run
           fst snd].
      f_equal. symmetry.
      apply first_occurrences_ascending; [exact Hasc| now left |].
      intros z [Hz|[]]. lia.
  - destruct rows as [|r [|r' rows]]; cbn; intros H;
      try reflexivity; lia.
Qed.

(** The stream with trial numbers [1,1,1,2,2,3] is reduced to [1,2,3]. *)
Lemma remove_duplicate_trials_run_heads_witness :
  exists res_final,
    remove_duplicate_trials (squeeze Sample.repeated_trials) = Ok res_final
    /\ map trial (events res_final) = [1; 2; 3].
Proof.
  destruct (proj1 (remove_duplicate_trials_run_heads Sample.repeated_trials))
    as (res_final & Hrun & _ & Hfirst); [cbn; lia|].
  exists res_final. split; [exact Hrun|].
  rewrite Hfirst; [reflexivity|].
  cbn. lia.
Defined.

(** C1 as stated fails: in the stream with trial numbers [1,2,1] the third
    row repeats a number seen before and is kept all the same. *)
Lemma remove_duplicate_trials_keeps_later_repeat :
  exists res_final,
    remove_duplicate_trials (squeeze Sample.interleaved_trials)
    = Ok res_final
    /\ map trial (events res_final) = [1; 2; 1]
    /\ map trial (first_occurrences Sample.interleaved_trials) = [1; 2]
    /\ events res_final <> first_occurrences Sample.interleaved_trials.
Proof.
  eexists. split; [reflexivity|].
  split; [reflexivity|]. split; [reflexivity|].
  cbv. discriminate.
Qed.


(* ===================================================================== *)
(** ** Block segmentation *)
(* ===================================================================== *)

(** The block [find_blocks] derives from one Video row. *)
Lemma find_blocks_loop_int (vs : list event) (m : Z) :
  find_blocks_loop vs (SInt m)
  = Ok (map (fun v => mk_block (trial v) (code v)
                               (inject_Z (time v - m) / 10000)%Q) vs).
Proof.
  induction vs as [|v vs IH]; [reflexivity|].
  cbn [find_blocks_loop map]. rewrite IH. reflexivity.
Qed.

(** C7, as amended: from the Video array of a log with no Video row or
    with at least two and an integer anchor, [find_blocks] returns one
    block per row, in the order of the rows, whose start is the row's time
    minus the anchor, over 10000; the second list it returns holds the
    starts. A row at tick 3000 with the anchor at tick 1000 gives a block
    that starts at 0.2 s, printed [0.20]. *)
Theorem find_blocks_one_per_video (vs : list event) (m : Z) :
  length vs <> 1%nat ->
  exists blocks,
    find_blocks (squeeze vs) (SInt m) = Ok (blocks, map block_start blocks)
    /\ length blocks = length vs
    /\ (forall i v, nth_error vs i = Some v ->
          nth_error blocks i
          = Some (mk_block (trial v) (code v)
                           (inject_Z (time v - m) / 10000)%Q))
    /\ (forall i v, nth_error vs i = Some v -> m = 1000 -> time v = 3000 ->
          exists b, nth_error blocks i = Some b
                    /\ (block_start b == 2 # 10)%Q
                    /\ format_2f (block_start b) = "0.20"%string).
Proof.
  intros Hshape.
  assert (Harr : squeeze vs = Arr1 vs).
  { destruct vs as [|v [|v' vs]]; [reflexivity| |reflexivity].
    now contradiction Hshape. }
  rewrite Harr.
  exists (map (fun v => mk_block (trial v) (code v)
                                 (inject_Z (time v - m) / 10000)%Q) vs).
  split; [|split; [|split]].
  - unfold find_blocks. cbn [arr_iter bind].
    rewrite find_blocks_loop_int. reflexivity.
  - apply length_map.
  - intros i v Hv. rewrite nth_error_map, Hv. reflexivity.
  - intros i v Hv Hm Ht. rewrite nth_error_map, Hv. cbn [option_map].
    eexists. split; [reflexivity|]. cbn [block_start].
    rewrite Hm, Ht. split; reflexivity.
Qed.

(** A log with exactly one Video line gives [find_blocks] a zero-dimensional
    array, over which its loop cannot run. *)
Example find_blocks_single_row (v : event) (m : scalar) :
  find_blocks (squeeze [v]) m = Raise TypeError.
Proof. reflexivity. Qed.

(** The first video of the sample run starts 0.20 s after the anchor. *)
Lemma find_blocks_one_per_video_witness :
  exists b,
    nth_error [Sample.response 2 3000; Sample.response 6 103000] 0
    = Some (Sample.response 2 3000)
    /\ (block_start b == 2 # 10)%Q
    /\ format_2f (block_start b) = "0.20"%string.
Proof.
  destruct (find_blocks_one_per_video
              [Sample.response 2 3000; Sample.response 6 103000] 1000)
    as (blocks & _ & _ & _ & Hstart); [discriminate|].
  destruct (Hstart 0%nat (Sample.response 2 3000)) as (b & _ & Hq & Hf);
    [reflexivity | reflexivity | reflexivity |].
  exists b. split; [reflexivity|]. split; assumption.
Defined.

(** C7 as stated fails: the anchor at tick 1000 and a single Video event at
    tick 3000 give no block at all. The Video lines of the log are read by
    [numpy.genfromtxt], which hands one row over as a record without a
    dimension, and [for v in vid] raises [TypeError]. *)
Lemma find_blocks_single_video_raises :
  genfromtxt_event Sample.study [Sample.video_line "s01" "2" "vid_1" "3000"]
  = Ok (Arr0 (mk_event "s01" 2 "Video" "vid_1" 3000 0 1))
  /\ find_blocks (Arr0 (mk_event "s01" 2 "Video" "vid_1" 3000 0 1))
                 (SInt 1000)
     = Raise TypeError.
Proof. split; reflexivity. Qed.

(* ===================================================================== *)
(** ** The log parser *)
(* ===================================================================== *)

Lemma map_result_length {A B : Type} (f : A -> result B) (l : list A) :
  forall l', map_result f l = Ok l' -> length l' = length l.
Proof.
  induction l as [|a l IH]; intros l' H; cbn in H.
  - injection H as <-. reflexivity.
  - destruct (f a) as [b|e]; cbn in H; [|discriminate].
    destruct (map_result f l) as [bs|e]; cbn in H; [|discriminate].
    injection H as <-. cbn. f_equal. now apply IH.
Qed.

(** A Response array with fewer than two rows cannot be indexed. *)
Lemma remove_duplicate_trials_short (rows : list event) :
  (length rows < 2)%nat ->
  remove_duplicate_trials (squeeze rows) = Raise IndexError.
Proof.
  destruct rows as [|r [|r' rows]]; cbn; intros H; try reflexivity; lia.
Qed.

(** C10: whatever rows the tokenizer makes of the lines, as long as it makes
    at most one row per line, a log with fewer than two lines containing
    ["Response"] makes [log_parser] raise: the error of the Picture
    tokenizer if that one fails, else the error of the Response tokenizer
    or the [IndexError] of [res[0]] - whether or not the first Picture row
    carries ["MRI_start"]. *)
Theorem log_parser_needs_two_responses (E : externals) (log : list string) :
  (forall ls rows, decode_event E ls = Ok rows ->
                   (length rows <= length ls)%nat) ->
  (length (filter (contains "Response") log) < 2)%nat ->
  raises (log_parser_lines E log)
  /\ (forall pics,
        decode_picture E (filter (contains "Picture") log) = Ok pics ->
        log_parser_lines E log = Raise IndexError
        \/ exists e,
             decode_event E (filter (contains "Response") log) = Raise e
             /\ log_parser_lines E log = Raise e).
Proof.
  intros Hrows Hfew.
  assert (Hpics : forall pics,
            decode_picture E (filter (contains "Picture") log) = Ok pics ->
            log_parser_lines E log = Raise IndexError
            \/ exists e,
                 decode_event E (filter (contains "Response") log) = Raise e
                 /\ log_parser_lines E log = Raise e).
  { intros pics Hpic.
    unfold log_parser_lines, genfromtxt_picture, genfromtxt_event.
    rewrite Hpic. cbn [bind].
    destruct (decode_event E (filter (contains "Response") log))
      as [rows|e] eqn:Hres; cbn [bind].
    - left. rewrite remove_duplicate_trials_short; [reflexivity|].
      specialize (Hrows _ _ Hres). lia.
    - right. exists e. split; reflexivity. }
  split; [|exact Hpics].
  destruct (decode_picture E (filter (contains "Picture") log))
    as [pics|e] eqn:Hpic.
  - destruct (Hpics pics eq_refl) as [H|(e & _ & H)];
      eexists; exact H.
  - exists e. unfold log_parser_lines, genfromtxt_picture.
    rewrite Hpic. reflexivity.
Qed.

(** The sample run with the anchor and one Response line is refused. *)
Lemma log_parser_needs_two_responses_witness :
  raises (log_parser_lines Sample.study Sample.one_response_log)
  /\ exists p0 ptl,
       decode_picture Sample.study
         (filter (contains "Picture") Sample.one_response_log)
       = Ok (p0 :: ptl)
       /\ p_code p0 = MRI_start.
Proof.
  split.
  - apply (log_parser_needs_two_responses Sample.study
             Sample.one_response_log).
    + intros ls rows H. rewrite (map_result_length _ _ _ H). lia.
    + vm_compute. lia.
  - eexists. eexists. split; reflexivity.
Defined.

Lemma drop_repeats_rows (rs : list event) :
  forall (prev : Z) (l : list event),
    exists l', drop_repeats rs prev (Rows l) = Rows l'.
Proof.
  induction rs as [|r rs IH]; intros prev l; cbn.
  - now exists l.
  - destruct (trial r =? prev); cbn; apply IH.
Qed.

(** Once a second trial number is met, [res_final] is an array. *)
Lemma drop_repeats_void (rs : list event) (r0 : event) :
  (exists r, In r rs /\ trial r <> trial r0) ->
  exists l, drop_repeats rs (trial r0) (Void r0) = Rows l.
Proof.
  induction rs as [|r rs IH]; intros (x & Hin & Hne).
  - destruct Hin.
  - cbn. destruct (trial r =? trial r0) eqn:Heq; cbn.
    + apply IH. exists x. split; [|exact Hne].
      destruct Hin as [->|Hin]; [|exact Hin].
      apply Z.eqb_eq in Heq. contradiction.
    + apply drop_repeats_rows.
Qed.

Lemma getitem_In {A : Type} (l : list A) (i : nat) (x : A) :
  getitem l i = Ok x -> In x l.
Proof.
  unfold getitem. destruct (nth_error l i) eqn:H; [|discriminate].
  intros [= <-]. exact (nth_error_In _ _ H).
Qed.

Lemma getlast_In {A : Type} (l : list A) (x : A) :
  getlast l = Ok x -> In x l.
Proof.
  unfold getlast. destruct (rev l) as [|y t] eqn:H; [discriminate|].
  intros [= <-]. apply in_rev. rewrite H. now left.
Qed.

Lemma relative_to_incl (m : Z) (ticks ticks' : list Z) (q : Q) :
  incl ticks ticks' -> relative_to m ticks q -> relative_to m ticks' q.
Proof.
  intros Hincl (tick & Hin & Hq). exists tick. split; [|exact Hq].
  now apply Hincl.
Qed.

Lemma row_ticks_incl (rl res : list event) (pl pic : list picture) :
  incl rl res -> incl pl pic -> incl (row_ticks rl pl) (row_ticks res pic).
Proof.
  intros Hr Hp t Ht. unfold row_ticks in *.
  apply in_app_or in Ht. apply in_or_app.
  destruct Ht as [Ht|Ht]; apply in_map_iff in Ht as (x & <- & Hx);
    [left|right]; apply in_map; auto.
Qed.

Lemma comparison_set_rows (rl rl' : list event) :
  comparison_set rl = Ok rl' ->
  incl rl' rl
  /\ length rl' = (length (filter is_button_push rl) + 2)%nat
  /\ filter is_button_push rl <> [].
Proof.
  unfold comparison_set.
  destruct (getitem rl 0) as [first|] eqn:Hfirst; cbn [bind];
    [|discriminate].
  destruct (filter is_button_push rl) as [|b bs] eqn:Hpush; [discriminate|].
  destruct (getlast rl) as [final|] eqn:Hfinal; cbn [bind]; [|discriminate].
  intros [= <-]. split; [|split; [|discriminate]].
  - intros x [<-|Hx]; [exact (getitem_In _ _ _ Hfirst)|].
    change (In x ((b :: bs) ++ [final])) in Hx.
    apply in_app_or in Hx as [Hx|[<-|[]]].
    + rewrite <- Hpush in Hx. now apply filter_In in Hx as [Hx _].
    + exact (getlast_In _ _ Hfinal).
  - cbn [app length]. rewrite length_app. cbn [length]. lia.
Qed.

(** Every value the reconstruction loop computes for [response_time] is the
    time of the Response or of the Picture row it reads, minus [mri_start],
    over 10000. *)
Lemma response_time_relative (rl : list event) (pl : list picture)
    (m : Z) (i : nat) (q : Q) :
  response_time rl pl m i = Ok q -> relative_to m (row_ticks rl pl) q.
Proof.
  unfold response_time, try_except, getitem, relative_to, row_ticks.
  destruct ((i =? 0)%nat || (i =? length rl - 1)%nat).
  - destruct (nth_error rl i) as [r|] eqn:Hr; cbn; intros H; [|discriminate].
    injection H as <-. exists (time r). split; [|reflexivity].
    apply in_or_app. left. apply in_map. exact (nth_error_In _ _ Hr).
  - destruct (nth_error pl i) as [p|] eqn:Hp; cbn.
    + intros H. injection H as <-. exists (p_time p). split; [|reflexivity].
      apply in_or_app. right. apply in_map. exact (nth_error_In _ _ Hp).
    + destruct (nth_error rl i) as [r|] eqn:Hr; cbn; intros H;
        [|discriminate].
      injection H as <-. exists (time r). split; [|reflexivity].
      apply in_or_app. left. apply in_map. exact (nth_error_In _ _ Hr).
Qed.

(** Every pass computes one response time. *)
Lemma rating_pass_times (rl : list event) (pl : list picture) (m : Z)
    (bst : Q) (i : nat) (st st' : loop_state) :
  rating_pass rl pl m bst i st = Ok st' ->
  Forall (relative_to m (row_ticks rl pl)) (response_times st) ->
  Forall (relative_to m (row_ticks rl pl)) (response_times st')
  /\ length (response_times st') = S (length (response_times st)).
Proof.
  unfold rating_pass. intros H Hst.
  destruct (response_time rl pl m i) as [t|] eqn:Ht; cbn [bind] in H;
    [|discriminate].
  destruct (rating_string pl i) as [rating|]; cbn [bind] in H;
    [|discriminate].
  destruct (delta_time rl pl bst i) as [delta|]; cbn [bind] in H;
    [|discriminate].
  assert (Ht' := response_time_relative _ _ _ _ _ Ht).
  destruct (i =? 0)%nat; cbn [bind] in H.
  - destruct (append_previous _ _); cbn [bind] in H; [|discriminate].
    injection H as <-. cbn. split.
    + apply Forall_app. split; [exact Hst|]. now constructor.
    + rewrite length_app. cbn. lia.
  - destruct (decode_rating rating); cbn [bind] in H; [|discriminate].
    destruct (append_previous _ _); cbn [bind] in H; [|discriminate].
    injection H as <-. cbn. split.
    + apply Forall_app. split; [exact Hst|]. now constructor.
    + rewrite length_app. cbn. lia.
Qed.

Lemma rating_loop_times (rl : list event) (pl : list picture) (m : Z)
    (bst : Q) (positions : list nat) :
  forall st st',
    rating_loop rl pl m bst positions st = Ok st' ->
    Forall (relative_to m (row_ticks rl pl)) (response_times st) ->
    Forall (relative_to m (row_ticks rl pl)) (response_times st')
    /\ length (response_times st')
       = (length (response_times st) + length positions)%nat.
Proof.
  induction positions as [|i rest IH]; intros st st' H Hst; cbn in H.
  - injection H as <-. split; [exact Hst|]. cbn. lia.
  - destruct (rating_pass rl pl m bst i st) as [st1|] eqn:Hpass;
      cbn [bind] in H; [|discriminate].
    destruct (rating_pass_times _ _ _ _ _ _ _ Hpass Hst) as (Hst1 & Hlen1).
    destruct (IH st1 st' H Hst1) as (Hst' & Hlen').
    split; [exact Hst'|]. rewrite Hlen', Hlen1. cbn [length]. lia.
Qed.

(** The response times of a block: one for the first selected response, one
    for every button push and one for the last selected response, each the
    time of a Response or a Picture row minus [m], over 10000; none when
    the block selects no response. *)
Lemma find_ratings_trace_times (res : list event) (pic : list picture)
    (bs : Z) (be : option Z) (m : Z) (bst : Q) (st : loop_state) (n : nat) :
  find_ratings_trace res pic bs be m bst = Ok (st, n) ->
  Forall (relative_to m (row_ticks res pic)) (response_times st)
  /\ length (response_times st)
     = match n with O => 0%nat | S _ => (n + 2)%nat end.
Proof.
  unfold find_ratings_trace. intros H.
  destruct (block_trials res bs be) as [tl|]; cbn [bind] in H;
    [|discriminate].
  set (response_list := filter (fun s => in_array (trial s) tl) res) in *.
  destruct (length response_list =? 0)%nat.
  - injection H as <- <-. split; [constructor|reflexivity].
  - destruct (comparison_set response_list) as [rl|] eqn:Hset;
      cbn [bind] in H; [|discriminate].
    destruct (rating_loop _ _ _ _ _ _) as [st1|] eqn:Hloop;
      cbn [bind] in H; [|discriminate].
    injection H as <- <-.
    destruct (comparison_set_rows _ _ Hset) as (Hincl & Hlen & Hpush).
    destruct (rating_loop_times _ _ _ _ _ _ _ Hloop) as (Hall & Hcount);
      [constructor|].
    split.
    + eapply Forall_impl; [|exact Hall]. intros q.
      apply relative_to_incl, row_ticks_incl.
      * intros x Hx. apply Hincl in Hx. unfold response_list in Hx.
        now apply filter_In in Hx as [Hx _].
      * intros x Hx. unfold select_pictures in Hx.
        now apply filter_In in Hx as [Hx _].
    + rewrite Hcount, length_seq, Hlen. cbn [response_times length].
      destruct (filter is_button_push response_list) as [|b l];
        [contradiction|]. cbn [length]. lia.
Qed.

(** The shapes [log_parser] returns: the Picture array is one-dimensional,
    and an integer anchor comes with an array of Response rows. *)
Lemma log_parser_shapes (E : externals) (log : list string) (p : parsed_log) :
  log_parser_lines E log = Ok p ->
  (exists pic, pl_pic p = Arr1 pic)
  /\ (forall m, pl_mri_start p = SInt m -> exists res, pl_res p = Rows res).
Proof.
  unfold log_parser_lines, genfromtxt_picture, genfromtxt_event. intros H.
  destruct (decode_picture E _) as [pics|]; cbn [bind] in H; [|discriminate].
  destruct (decode_event E (filter (contains "Response") log)) as [ress|];
    cbn [bind] in H; [|discriminate].
  destruct (remove_duplicate_trials _) as [rf|]; cbn [bind] in H;
    [|discriminate].
  destruct (decode_event E _) as [vids|]; cbn [bind] in H; [|discriminate].
  destruct (squeeze pics) as [x|pic] eqn:Hpic; cbn [arr_first bind] in H;
    [discriminate|].
  destruct (getitem pic 0) as [p0|]; cbn [bind] in H; [|discriminate].
  destruct (negb _); [discriminate|].
  destruct rf as [r|rs]; cbn [first_time] in H.
  - destruct (str_getitem _ _); cbn [bind] in H; [|discriminate].
    injection H as <-. cbn. split; [now exists pic|]. discriminate.
  - destruct (getitem rs 0); cbn [bind] in H; [|discriminate].
    injection H as <-. cbn. split; [now exists pic|]. intros _ _.
    now exists rs.
Qed.

(** With an anchor that is not an integer [find_blocks] derives no block. *)
Lemma find_blocks_needs_integer_anchor (vid : ndarray event) (c : ascii)
    (blocks : list block) (onsets : list Q) :
  find_blocks vid (SStr c) = Ok (blocks, onsets) -> blocks = [].
Proof.
  unfold find_blocks. destruct vid as [v|[|v vs]]; cbn; try discriminate.
  now intros [= <- _].
Qed.

(** C3, as amended: when the Picture and the Response lines decode to at
    least two rows each, the Video lines decode, and the Response rows do
    not all carry one trial number, [log_parser] raises exactly when the
    code of the first Picture row is not ["MRI_start"]; when it returns, the
    anchor is the time of the first row of the deduplicated Response array
    (the first Response row), every block start [find_blocks] derives from
    the result is the time of its Video row minus that anchor over 10000,
    and the reconstruction loop computes one response time for the first
    and the last selected response and for every button push of a block,
    each the time of a Response or of a Picture row minus that anchor over
    10000. *)
Theorem log_parser_anchor (E : externals) (log : list string)
    (p0 p1 : picture) (ptl : list picture)
    (r0 r1 : event) (rtl vids : list event) :
  decode_picture E (filter (contains "Picture") log) = Ok (p0 :: p1 :: ptl) ->
  decode_event E (filter (contains "Response") log) = Ok (r0 :: r1 :: rtl) ->
  decode_event E (filter (contains "Video") log) = Ok vids ->
  (exists r, In r (r1 :: rtl) /\ trial r <> trial r0) ->
  (raises (log_parser_lines E log) <-> p_code p0 <> MRI_start)
  /\ (forall out, log_parser_lines E log = Ok out ->
        pl_res out = Rows (run_heads (r0 :: r1 :: rtl))
        /\ hd_error (events (pl_res out)) = Some r0
        /\ pl_mri_start out = SInt (time r0)
        /\ (forall blocks onsets,
              find_blocks (pl_vid out) (pl_mri_start out)
              = Ok (blocks, onsets) ->
              blocks = map (fun v => mk_block (trial v) (code v)
                                       (inject_Z (time v - time r0) / 10000)%Q)
                           vids
              /\ onsets = map block_start blocks)
        /\ (forall res pic bs be bst st n,
              pl_res out = Rows res ->
              find_ratings_trace res pic bs be (time r0) bst = Ok (st, n) ->
              Forall (relative_to (time r0) (row_ticks res pic))
                     (response_times st)
              /\ length (response_times st)
                 = match n with O => 0%nat | S _ => (n + 2)%nat end)).
Proof.
  intros Hpic Hres Hvid Hdiff.
  destruct (drop_repeats_void (r1 :: rtl) r0 Hdiff) as (l & Hl).
  assert (Hev : l = run_heads (r0 :: r1 :: rtl)).
  { change l with (events (Rows l)). rewrite <- Hl.
    rewrite drop_repeats_events. reflexivity. }
  assert (Hhd : hd_error l = Some r0) by (rewrite Hev; reflexivity).
  destruct l as [|x l']; [discriminate|].
  injection Hhd as ->.
  assert (Hrun : log_parser_lines E log
                 = if negb (String.eqb (p_code p0) MRI_start)
                   then Raise ValueError
                   else Ok (mk_parsed (Arr1 (p0 :: p1 :: ptl))
                                      (Rows (r0 :: l')) (squeeze vids)
                                      (SInt (time r0)))).
  { unfold log_parser_lines, genfromtxt_picture, genfromtxt_event.
    rewrite Hpic, Hres, Hvid. cbn [bind squeeze].
    rewrite remove_duplicate_trials_cons, Hl. cbn [bind arr_first getitem nth_error].
    cbn [first_time getitem nth_error bind].
    destruct (negb (String.eqb (p_code p0) MRI_start)); reflexivity. }
  split.
  - rewrite Hrun. destruct (String.eqb (p_code p0) MRI_start) eqn:Hcode;
      cbn [negb].
    + apply String.eqb_eq in Hcode. split.
      * intros (e & He). discriminate.
      * intros Hne. contradiction.
    + apply String.eqb_neq in Hcode. split.
      * intros _. exact Hcode.
      * intros _. now exists ValueError.
  - intros out Hout. rewrite Hrun in Hout.
    destruct (negb (String.eqb (p_code p0) MRI_start)); [discriminate|].
    injection Hout as <-. cbn [pl_res pl_mri_start pl_vid events].
    split; [now rewrite Hev|]. split; [reflexivity|].
    split; [reflexivity|]. split.
    + intros blocks onsets Hb. unfold find_blocks in Hb.
      destruct (arr_iter (squeeze vids)) as [vs|] eqn:Hit;
        cbn [bind] in Hb; [|discriminate].
      rewrite find_blocks_loop_int in Hb. cbn [bind] in Hb.
      injection Hb as <- <-.
      assert (vs = vids) as ->; [|split; reflexivity].
      destruct vids as [|v [|v' vids']]; cbn in Hit;
        try discriminate; now injection Hit as <-.
    + intros res pic bs be bst st n _ Htrace.
      exact (find_ratings_trace_times _ _ _ _ _ _ _ _ Htrace).
Qed.

(** The sample run: the anchor is tick 1000, the time of the first Response
    row. *)
Lemma log_parser_anchor_witness :
  exists out,
    log_parser_lines Sample.study Sample.good_log = Ok out
    /\ pl_mri_start out = SInt 1000
    /\ map trial (events (pl_res out)) = [1; 2; 3; 4; 6; 7].
Proof.
  destruct (log_parser_lines Sample.study Sample.good_log) as [out|e] eqn:Hrun;
    [|vm_compute in Hrun; discriminate].
  exists out.
  edestruct (log_parser_anchor Sample.study Sample.good_log)
    as (_ & Hok);
    [ vm_compute; reflexivity | vm_compute; reflexivity
    | vm_compute; reflexivity | | ].
  - eexists. split; [right; left; reflexivity|]. vm_compute. discriminate.
  - destruct (Hok out Hrun) as (Hres & _ & Hanchor & _).
    split; [reflexivity|]. split; [exact Hanchor|].
    rewrite Hres. vm_compute. reflexivity.
Defined.

(** When every Response row carries one trial number, [res_final] is still
    the single record [res[0]], and [res_final[0][4]] is the fifth character
    of the subject identifier, or an [IndexError] when there is none. *)
Example log_parser_single_trial :
  log_parser_lines Sample.study (Sample.single_trial_log "s01")
  = Raise IndexError
  /\ exists out,
       log_parser_lines Sample.study (Sample.single_trial_log "SPN01_CMH")
       = Ok out
       /\ pl_mri_start out = SStr "1"%char.
Proof. split; [reflexivity|]. eexists. split; reflexivity. Qed.

(** C3 as stated fails: the run below has ["MRI_start"] on its first
    Picture row and no Response line, and [log_parser] raises. *)
Lemma log_parser_raises_with_anchor :
  log_parser_lines Sample.study Sample.no_response_log = Raise IndexError
  /\ exists p0 ptl,
       decode_picture Sample.study
         (filter (contains "Picture") Sample.no_response_log)
       = Ok (p0 :: ptl)
       /\ p_code p0 = MRI_start.
Proof.
  split; [reflexivity|].
  eexists. eexists. split; reflexivity.
Qed.

(* ===================================================================== *)
(** ** The rating reconstructor *)
(* ===================================================================== *)

Lemma digit_of_ascii_range (c : ascii) (d : Z) :
  digit_of_ascii c = Some d -> 0 <= d <= 9.
Proof.
  unfold digit_of_ascii.
  destruct ((48 <=? Z.of_nat (nat_of_ascii c))
            && (Z.of_nat (nat_of_ascii c) <=? 57)) eqn:H; [|discriminate].
  intros [= <-]. apply andb_prop in H. lia.
Qed.

Lemma decode_rating_range (s : string) (v : Z) :
  decode_rating s = Ok v -> 0 <= v <= 9.
Proof.
  unfold decode_rating, int_of_char.
  destruct (str_last s) as [c|]; cbn [bind]; [|discriminate].
  destruct (digit_of_ascii c) as [d|] eqn:Hd; [|discriminate].
  intros [= <-]. exact (digit_of_ascii_range _ _ Hd).
Qed.

Lemma rating_string_In (pl : list picture) (i : nat) (s : string) :
  rating_string pl i = Ok s -> exists p, In p pl /\ p_code p = s.
Proof.
  unfold rating_string, try_except.
  destruct (getitem pl i) as [p|] eqn:Hp; cbn [bind].
  - intros [= <-]. exists p. split; [exact (getitem_In _ _ _ Hp)|reflexivity].
  - destruct (getlast pl) as [p|] eqn:Hl; cbn [bind]; [|discriminate].
    intros [= <-]. exists p. split; [exact (getlast_In _ _ Hl)|reflexivity].
Qed.

Section RatingValues.
Variable pic : list picture.

Lemma neutral_is_rating : rating_value pic neutral_rating.
Proof. split; [unfold neutral_rating; lia|now left]. Qed.

Lemma decoded_is_rating (p : picture) (v : Z) :
  In p pic -> decode_rating (p_code p) = Ok v -> rating_value pic v.
Proof.
  intros Hin Hv. split.
  - pose proof (decode_rating_range _ _ Hv). lia.
  - right. now exists p.
Qed.

Lemma append_previous_rated (st : loop_state) (n : nat) (l : list Z) :
  rated pic st -> append_previous st n = Ok l -> Forall (rating_value pic) l.
Proof.
  intros [Hr Hp]. unfold append_previous, read_previous.
  destruct n as [|n].
  - intros [= <-]. exact Hr.
  - destruct (previous_rating st) as [v|]; cbn [bind]; [|discriminate].
    intros [= <-]. apply Forall_app. split; [exact Hr|].
    apply Forall_forall. intros x Hx.
    apply (repeat_spec (S n)) in Hx. subst x. now apply Hp.
Qed.

Lemma rating_pass_rated (rl : list event) (pl : list picture) (m : Z)
    (bst : Q) (i : nat) (st st' : loop_state) :
  (forall p, In p pl -> In p pic) ->
  rated pic st -> rating_pass rl pl m bst i st = Ok st' -> rated pic st'.
Proof.
  intros Hsub Hst. unfold rating_pass. intros H.
  destruct (response_time rl pl m i) as [t|]; cbn [bind] in H;
    [|discriminate].
  destruct (rating_string pl i) as [rating|] eqn:Hrs; cbn [bind] in H;
    [|discriminate].
  destruct (delta_time rl pl bst i) as [delta|]; cbn [bind] in H;
    [|discriminate].
  destruct (rating_string_In _ _ _ Hrs) as (p & Hp & Hcode).
  destruct (i =? 0)%nat; cbn [bind] in H.
  - destruct (append_previous _ _) as [l|] eqn:Hap; cbn [bind] in H;
      [|discriminate].
    injection H as <-. split; cbn.
    + refine (append_previous_rated _ _ _ _ Hap).
      split; [exact (proj1 Hst)|]. cbn. intros v [= <-].
      apply neutral_is_rating.
    + intros v [= <-]. apply neutral_is_rating.
  - destruct (decode_rating rating) as [v|] eqn:Hv; cbn [bind] in H;
      [|discriminate].
    destruct (append_previous _ _) as [l|] eqn:Hap; cbn [bind] in H;
      [|discriminate].
    injection H as <-. split; cbn.
    + exact (append_previous_rated _ _ _ Hst Hap).
    + intros w [= <-]. subst rating.
      exact (decoded_is_rating p v (Hsub p Hp) Hv).
Qed.

Lemma rating_loop_rated (rl : list event) (pl : list picture) (m : Z)
    (bst : Q) (positions : list nat) :
  (forall p, In p pl -> In p pic) ->
  forall st st',
    rated pic st ->
    rating_loop rl pl m bst positions st = Ok st' -> rated pic st'.
Proof.
  intros Hsub.
  induction positions as [|i rest IH]; intros st st' Hst H; cbn in H.
  - now injection H as <-.
  - destruct (rating_pass rl pl m bst i st) as [st1|] eqn:Hpass;
      cbn [bind] in H; [|discriminate].
    apply (IH st1 st'); [|exact H].
    exact (rating_pass_rated _ _ _ _ _ _ _ Hsub Hst Hpass).
Qed.

End RatingValues.

(** C9: every value of a trace [find_ratings] returns is an integer from 0
    to 10 - the neutral 5, or the digit that ends the code of a Picture
    row. (A code that does not end in a digit makes [find_ratings] raise
    instead of returning.) *)
Theorem find_ratings_values (res : list event) (pic : list picture)
    (blk_start : Z) (blk_end : option Z) (mri_start : Z)
    (blk_start_time : Q) (trace : list Z) (n_pushes : nat) :
  find_ratings res pic blk_start blk_end mri_start blk_start_time
  = Ok (trace, n_pushes) ->
  Forall (fun v => 0 <= v <= 10
                   /\ (v = neutral_rating
                       \/ exists p, In p pic
                                    /\ decode_rating (p_code p) = Ok v))
         trace.
Proof.
  unfold find_ratings, find_ratings_trace. intros H.
  destruct (block_trials res blk_start blk_end) as [tl|]; cbn [bind] in H;
    [|discriminate].
  destruct (length _ =? 0)%nat.
  - cbn [bind] in H. injection H as <- _. constructor; [|constructor].
    apply neutral_is_rating.
  - destruct (comparison_set _) as [rl|]; cbn [bind] in H; [|discriminate].
    destruct (rating_loop _ _ _ _ _ _) as [st|] eqn:Hloop;
      cbn [bind] in H; [|discriminate].
    injection H as <- _.
    apply (rating_loop_rated pic) in Hloop.
    + exact (proj1 Hloop).
    + intros p Hp. unfold select_pictures in Hp.
      apply filter_In in Hp. tauto.
    + split; [constructor|]. cbn. discriminate.
Qed.

(** The first block of the sample run: pushes rated 5 and then 7. *)
Lemma find_ratings_values_witness :
  Forall (fun v => 0 <= v <= 10
                   /\ (v = neutral_rating
                       \/ exists p,
                            In p [Sample.rating 1 "MRI_start" 900;
                                  Sample.rating 3 "rating_5" 3000;
                                  Sample.rating 4 "rating_7" 43000;
                                  Sample.rating 5 "rating_7" 83000]
                            /\ decode_rating (p_code p) = Ok v))
         [5; 5; 7; 7].
Proof.
  apply (find_ratings_values
           [Sample.response 1 1000; Sample.response 2 3000;
            Sample.push 3 23000; Sample.response 4 63000;
            Sample.response 6 103000]
           [Sample.rating 1 "MRI_start" 900; Sample.rating 3 "rating_5" 3000;
            Sample.rating 4 "rating_7" 43000; Sample.rating 5 "rating_7" 83000]
           2 (Some 6) 1000 (2 # 10) [5; 5; 7; 7] 1%nat).
  vm_compute. reflexivity.
Defined.

(* ===================================================================== *)
(** ** Length matching *)
(* ===================================================================== *)

Lemma inject_Z_succ (k : nat) :
  (inject_Z (Z.of_nat (S k)) == inject_Z (Z.of_nat k) + 1)%Q.
Proof.
  rewrite Nat2Z.inj_succ. unfold Z.succ. rewrite inject_Z_plus. reflexivity.
Qed.

(** On knots that are the integers [k, k+1, ...], the search for the [i]-th
    knot stops at position [i]. *)
Lemma searchsorted_knot (l : list Q) :
  forall (k : Z) (i : nat) (v : Q),
    (forall j, (j < length l)%nat ->
               (nth j l 0 == inject_Z (k + Z.of_nat j))%Q) ->
    (i < length l)%nat ->
    (v == inject_Z (k + Z.of_nat i))%Q ->
    searchsorted l v = i.
Proof.
  induction l as [|a l IH]; intros k i v Hl Hi Hv; [cbn in Hi; lia|].
  cbn [searchsorted].
  assert (Ha : (a == inject_Z k)%Q).
  { specialize (Hl 0%nat). cbn in Hl. rewrite Hl by lia.
    now rewrite Z.add_0_r. }
  destruct (Qlt_le_dec a v) as [Hlt|Hle].
  - destruct i as [|i].
    + exfalso. rewrite Ha, Hv, Z.add_0_r in Hlt.
      exact (Qlt_irrefl _ Hlt).
    + f_equal. apply (IH (k + 1)).
      * intros j Hj. specialize (Hl (S j)). cbn [nth] in Hl.
        rewrite Hl by (cbn; lia).
        replace (k + Z.of_nat (S j)) with (k + 1 + Z.of_nat j) by lia.
        reflexivity.
      * cbn in Hi. lia.
      * rewrite Hv.
        replace (k + Z.of_nat (S i)) with (k + 1 + Z.of_nat i) by lia.
        reflexivity.
  - destruct i as [|i]; [reflexivity|].
    exfalso. rewrite Ha, Hv in Hle. rewrite <- Zle_Qle in Hle. lia.
Qed.

(** The knots [numpy.linspace(0, n-1, n)] are [0, 1, ..., n-1]. *)
Lemma linspace_knots (n : nat) :
  (2 <= n)%nat ->
  exists x,
    linspace 0 (inject_Z (Z.of_nat n - 1)) (Z.of_nat n) = Ok x
    /\ length x = n
    /\ forall j, (j < n)%nat -> (nth j x 0 == inject_Z (Z.of_nat j))%Q.
Proof.
  intros Hn. unfold linspace.
  destruct (Z.of_nat n <? 0) eqn:H0; [lia|].
  destruct (Z.of_nat n =? 0) eqn:H1; [lia|].
  destruct (Z.of_nat n =? 1) eqn:H2; [lia|].
  eexists. split; [reflexivity|]. rewrite Nat2Z.id. split.
  - now rewrite length_map, length_seq.
  - intros j Hj.
    set (g := fun i : nat => _).
    rewrite (nth_indep _ 0%Q (g 0%nat)) by now rewrite length_map, length_seq.
    rewrite map_nth, seq_nth by exact Hj. subst g. cbn beta.
    rewrite Nat.add_0_l. field.
    intros Hz. apply (Qeq_bool_iff _ _) in Hz.
    assert (Hne : ~ (inject_Z (Z.of_nat n - 1) == 0)%Q).
    { change 0%Q with (inject_Z 0). rewrite inject_Z_injective. lia. }
    apply Hne. apply Qeq_bool_iff. exact Hz.
Qed.

Lemma map_result_knots (x y l : list Q) :
  forall (targets : list Q),
    length targets = length l ->
    (forall i, (i < length l)%nat ->
       exists v, interp1d_call x y (nth i l 0%Q) = Ok v
                 /\ (v == nth i targets 0)%Q) ->
    exists ys, map_result (interp1d_call x y) l = Ok ys
               /\ Forall2 Qeq ys targets.
Proof.
  induction l as [|a l IH]; intros targets Hlen Hall.
  - destruct targets; [|discriminate]. exists []. split; constructor.
  - destruct targets as [|t targets]; [discriminate|].
    destruct (Hall 0%nat ltac:(cbn; lia)) as (v & Hv & Hvt). cbn in Hv, Hvt.
    destruct (IH targets) as (ys & Hys & Hall2).
    + cbn in Hlen. lia.
    + intros i Hi. apply (Hall (S i)). cbn. lia.
    + exists (v :: ys). split.
      * cbn [map_result]. rewrite Hv, Hys. reflexivity.
      * now constructor.
Qed.

Section Knots.
Variables (x y : list Q) (n : nat).
Hypothesis Hn : (2 <= n)%nat.
Hypothesis Hx : length x = n.
Hypothesis Hknot :
  forall j, (j < n)%nat -> (nth j x 0 == inject_Z (Z.of_nat j))%Q.

Lemma last_knot : (last x 0 == inject_Z (Z.of_nat (n - 1)))%Q.
Proof.
  assert (Hl : last x 0%Q = nth (n - 1) x 0%Q).
  { rewrite <- Hx. clear. induction x as [|a [|b l] IH]; try reflexivity.
    change (last (a :: b :: l) 0%Q) with (last (b :: l) 0%Q). rewrite IH.
    cbn [length]. replace (S (S (length l)) - 1)%nat with (S (length l)) by lia.
    cbn [nth]. replace (S (length l) - 1)%nat with (length l) by lia.
    reflexivity. }
  rewrite Hl. apply Hknot. lia.
Qed.

(** The interpolator built on integer knots returns the value stored at a
    knot when it is asked for that knot. *)
Lemma interp1d_call_knot (i : nat) :
  (i < n)%nat ->
  exists v, interp1d_call x y (nth i x 0%Q) = Ok v /\ (v == nth i y 0)%Q.
Proof.
  intros Hi. unfold interp1d_call.
  assert (Hxi := Hknot i Hi).
  assert (Hx0 := Hknot 0%nat ltac:(lia)).
  destruct (Qlt_le_dec (nth i x 0%Q) (nth 0 x 0%Q)) as [Hlt|_].
  { exfalso. rewrite Hxi, Hx0 in Hlt. rewrite <- Zlt_Qlt in Hlt. lia. }
  destruct (Qlt_le_dec (last x 0%Q) (nth i x 0%Q)) as [Hlt|_].
  { exfalso. rewrite last_knot, Hxi in Hlt. rewrite <- Zlt_Qlt in Hlt. lia. }
  assert (Hss : searchsorted x (nth i x 0%Q) = i).
  { apply (searchsorted_knot x 0).
    - intros j Hj. rewrite Z.add_0_l. apply Hknot. lia.
    - lia.
    - now rewrite Z.add_0_l. }
  rewrite Hss, Hx. eexists. split; [reflexivity|].
  unfold clip. destruct i as [|i].
  - replace (Nat.min (Nat.max 0 1) (n - 1)) with 1%nat by lia.
    cbn [Nat.sub]. rewrite Hx0. ring.
  - replace (Nat.min (Nat.max (S i) 1) (n - 1)) with (S i) by lia.
    replace (S i - 1)%nat with i by lia.
    rewrite Hxi, (Hknot i) by lia.
    rewrite inject_Z_succ. field.
    intros Hz. ring_simplify in Hz. discriminate Hz.
Qed.

End Knots.

(** C8, as amended: when at least one button was pushed and the two series
    have one length, the length-matching step of [process_behav_data]
    returns both as they are; and [match_lengths] applied to a series of at
    least two samples and itself returns that series. *)
Theorem matching_equal_lengths_is_identity :
  (forall (n_pushes : nat) (subj_rate gold_rate : list Q),
      n_pushes <> 0%nat ->
      length subj_rate = length gold_rate ->
      align n_pushes subj_rate gold_rate = Ok (subj_rate, gold_rate))
  /\ (forall b : list Q,
        (2 <= length b)%nat ->
        exists b', match_lengths b b = Ok b' /\ Forall2 Qeq b' b).
Proof.
  split.
  - intros n_pushes subj_rate gold_rate Hn Hlen. unfold align.
    destruct (n_pushes =? 0)%nat eqn:H0; [apply Nat.eqb_eq in H0; lia|].
    cbn [negb]. rewrite Hlen, Nat.ltb_irrefl. reflexivity.
  - intros b Hb. unfold match_lengths.
    destruct (linspace_knots (length b) Hb) as (x & Hlin & Hlen & Hknot).
    rewrite Hlin. cbn [bind].
    destruct (length x <? 2)%nat eqn:Hshort;
      [apply Nat.ltb_lt in Hshort; lia|].
    apply map_result_knots.
    + now rewrite Hlen.
    + intros i Hi.
      apply interp1d_call_knot with (n := length b); try assumption.
      lia.
Qed.

(** A reference series of four samples is left as it is. *)
Lemma matching_equal_lengths_is_identity_witness :
  align 2 [5#1; 5#1; 7#1; 7#1] [5#1; 6#1; 7#1; 8#1]
  = Ok ([5#1; 5#1; 7#1; 7#1], [5#1; 6#1; 7#1; 8#1])
  /\ exists b', match_lengths [5#1; 6#1; 7#1; 8#1] [5#1; 6#1; 7#1; 8#1] = Ok b'
                /\ Forall2 Qeq b' [5#1; 6#1; 7#1; 8#1].
Proof.
  split.
  - apply (proj1 matching_equal_lengths_is_identity); [discriminate|].
    reflexivity.
  - apply (proj2 matching_equal_lengths_is_identity). cbn. lia.
Defined.

(** C8 as stated fails: the interpolator cannot be built on fewer than two
    samples, so a series of one sample, or of none, is not returned. *)
Lemma match_lengths_short_series_raise :
  match_lengths [] [] = Raise ValueError
  /\ match_lengths [5#1] [5#1] = Raise ValueError.
Proof. split; reflexivity. Qed.

(* ===================================================================== *)
(** ** Blocks without button pushes *)
(* ===================================================================== *)

(** The count [find_ratings] returns is the number of button pushes among
    the responses of the block. *)
Lemma find_ratings_count (res : list event) (pic : list picture) (bs : Z)
    (be : option Z) (m : Z) (bst : Q) (trials : list Q) (trace : list Z)
    (n : nat) :
  block_trials res bs be = Ok trials ->
  find_ratings res pic bs be m bst = Ok (trace, n) ->
  n = length (filter is_button_push
                (filter (fun s => in_array (trial s) trials) res)).
Proof.
  intros Htrials. unfold find_ratings, find_ratings_trace.
  rewrite Htrials. cbn [bind].
  destruct (filter (fun s => in_array (trial s) trials) res) as [|r rl].
  - cbn. now intros [= _ <-].
  - cbn [length Nat.eqb].
    destruct (comparison_set (r :: rl)); cbn [bind]; [|discriminate].
    destruct (rating_loop _ _ _ _ _ _); cbn [bind]; [|discriminate].
    now intros [= _ <-].
Qed.

(** What the fallback does when it is reached. For a block whose responses
    include no button push, [find_ratings] returns the one-sample trace [5]
    and the count 0 when no response falls in the block at all; and whenever
    it returns, the count is 0, the participant's series handed to the
    correlation is the constant 5 with the length of the reference series,
    and the button-push rate of an emitted result is 0. *)
Theorem zero_push_block (E : externals) (res : list event)
    (pic : list picture) (mri_start : Z) (blocks : list block) (i : nat)
    (b : block) (gold dur trials : list Q) :
  getitem blocks i = Ok b ->
  gold_rate_of E (block_name b) = Ok gold ->
  duration_of E (block_name b) = Ok dur ->
  block_trials res (block_number b) (next_block_number blocks i) = Ok trials ->
  filter is_button_push (filter (fun s => in_array (trial s) trials) res)
  = [] ->
  (filter (fun s => in_array (trial s) trials) res = [] ->
   find_ratings res pic (block_number b) (next_block_number blocks i)
                mri_start (block_start b)
   = Ok ([neutral_rating], 0%nat))
  /\ (forall trace n,
        find_ratings res pic (block_number b) (next_block_number blocks i)
                     mri_start (block_start b)
        = Ok (trace, n) ->
        n = 0%nat
        /\ block_series E res pic mri_start blocks i
           = Ok (repeat (inject_Z neutral_rating) (length gold), gold, dur,
                 0%nat)
        /\ forall trial_type onsets r,
             process_block E trial_type res pic mri_start blocks onsets i
             = Ok (Some r) ->
             (br_button_pushes r == 0)%Q
             /\ br_correlation r
                = correlation E (repeat (inject_Z neutral_rating)
                                        (length gold)) gold).
Proof.
  intros Hb Hgold Hdur Htrials Hpush. split.
  - intros Hnone. unfold find_ratings, find_ratings_trace.
    rewrite Htrials. cbn [bind]. rewrite Hnone. reflexivity.
  - intros trace n Hfind.
    assert (Hn : n = 0%nat).
    { rewrite (find_ratings_count _ _ _ _ _ _ _ _ _ Htrials Hfind), Hpush.
      reflexivity. }
    subst n.
    assert (Hseries : block_series E res pic mri_start blocks i
                      = Ok (repeat (inject_Z neutral_rating) (length gold),
                            gold, dur, 0%nat)).
    { unfold block_series. rewrite Hb. cbn [bind]. rewrite Hfind.
      cbn [bind]. rewrite Hgold, Hdur. reflexivity. }
    split; [reflexivity|]. split; [exact Hseries|].
    intros trial_type onsets r. unfold process_block.
    rewrite Hb, Hseries. cbn [bind].
    destruct (axes_getitem _ _); cbn [bind]; [|discriminate].
    destruct (str_getitem _ _) as [c|]; cbn [bind]; [|discriminate].
    destruct (_ && _); [discriminate|].
    destruct (_ && _); [discriminate|].
    destruct (getitem onsets i) as [o|]; cbn [bind]; [|discriminate].
    destruct (getitem dur 0) as [d|]; cbn [bind]; [|discriminate].
    destruct (Qeq_bool d 0) eqn:Hd; [discriminate|].
    intros [= <-]. cbn. split; [|reflexivity].
    apply Qeq_bool_neq in Hd. field. exact Hd.
Qed.

(** A first block in which no response falls: the one-sample trace, and
    the constant 5 over the four reference samples. *)
Lemma zero_push_block_example :
  find_ratings
    [Sample.response 1 1000; Sample.response 6 103000; Sample.push 7 143000]
    [Sample.rating 1 "MRI_start" 900; Sample.rating 7 "rating_5" 143000]
    2 (Some 6) 1000 (2 # 10)
  = Ok ([5], 0%nat)
  /\ block_series Sample.study
       [Sample.response 1 1000; Sample.response 6 103000;
        Sample.push 7 143000]
       [Sample.rating 1 "MRI_start" 900; Sample.rating 7 "rating_5" 143000]
       1000 [mk_block 2 "vid_1" (2 # 10); mk_block 6 "cvid_2" (102 # 10)] 0
     = Ok ([5#1; 5#1; 5#1; 5#1], [5#1; 6#1; 7#1; 8#1], [8#1], 0%nat).
Proof.
  edestruct (zero_push_block Sample.study
               [Sample.response 1 1000; Sample.response 6 103000;
                Sample.push 7 143000]
               [Sample.rating 1 "MRI_start" 900;
                Sample.rating 7 "rating_5" 143000]
               1000
               [mk_block 2 "vid_1" (2 # 10); mk_block 6 "cvid_2" (102 # 10)]
               0 (mk_block 2 "vid_1" (2 # 10))
               [5#1; 6#1; 7#1; 8#1] [8#1])
    as (Hnone & Hany); [ vm_compute; reflexivity .. | ].
  assert (Hfind := Hnone eq_refl).
  split; [exact Hfind|].
  destruct (Hany _ _ Hfind) as (_ & Hseries & _). exact Hseries.
Defined.

(** C4, on the code as it is: the block below holds one response, the
    trigger of trial 10, and no button push; [find_ratings] raises instead
    of returning a count of 0, so the constant trace is never substituted
    and no rate is reported. *)
Theorem zero_push_block_can_raise :
  block_trials Sample.silent_responses 10 (Some 12) = Ok [10#1; 11#1]
  /\ filter (fun s => in_array (trial s) [10#1; 11#1]) Sample.silent_responses
     = [Sample.response 10 50000]
  /\ filter is_button_push [Sample.response 10 50000] = []
  /\ raises (find_ratings Sample.silent_responses Sample.silent_pictures
                          10 (Some 12) 1000 (49 # 10))
  /\ raises (block_series Sample.study Sample.silent_responses
                          Sample.silent_pictures 1000 Sample.silent_blocks 0).
Proof.
  split; [reflexivity|]. split; [reflexivity|]. split; [reflexivity|].
  split; eexists; vm_compute; reflexivity.
Qed.

(* ===================================================================== *)
(** ** Pairing of responses and ratings *)
(* ===================================================================== *)

(** C5, on the code as it is: the loop pairs position [i] of the comparison
    set with position [i] of the selected Picture rows. In the block below
    the opening response is a button push, so it occupies positions 0 and 1;
    its rating, recorded on trial 11, is 7, and the loop holds 3, the rating
    recorded on trial 13 for the closing response. *)
Theorem ratings_are_paired_by_position :
  let selected := [Sample.push 10 50000; Sample.response 12 90000] in
  let compared := [Sample.push 10 50000; Sample.push 10 50000;
                   Sample.response 12 90000] in
  let pictures := [Sample.rating 11 "rating_7" 50000;
                   Sample.rating 13 "rating_3" 90000] in
  comparison_set selected = Ok compared
  /\ select_pictures compared Sample.pushed_pictures = pictures
  /\ rating_by_trial Sample.pushed_pictures (Sample.push 10 50000) 1 = Ok 7
  /\ (r <- rating_string pictures 1 ;; decode_rating r) = Ok 3
  /\ find_ratings Sample.pushed_responses Sample.pushed_pictures 10 None
                  1000 (1 # 1)
     = Ok ([5; 5; 5; 5; 3; 3], 1%nat).
Proof. repeat split; vm_compute; reflexivity. Qed.

(* ===================================================================== *)
(** ** The batch loop *)
(* ===================================================================== *)

(** C2, on the code as it is: the call of [process_behav_data] stands
    outside every [try], so the exception of one log ends [main]; the
    subjects that follow are not processed. *)
Theorem log_failure_ends_main (E : externals) (sub : string)
    (rest names : list string) (log : string) (logs : list string)
    (st : batch_state) (e : pyexc) :
  String.eqb (subject_type E sub) "phantom" = false ->
  complete_log_exists E sub = false ->
  process_functional_data E sub = Ok tt ->
  listdir_behav E sub = Ok names ->
  sort_names (filter (fun x => contains ".log" x && contains "UCLAEmpAcc" x)
                     names)
  = log :: logs ->
  process_behav_data E log sub "vid" = Raise e ->
  process_subjects E (sub :: rest) st = Raise e.
Proof.
  intros Hphantom Hcomplete Hfunc Hlist Hlogs Hbehav.
  cbn [process_subjects]. unfold process_subject.
  rewrite Hphantom, Hcomplete, Hfunc, Hlist, Hlogs.
  cbn [process_logs]. unfold process_log. rewrite Hbehav.
  reflexivity.
Qed.

(** In the sample study the only log of the first subject lacks the anchor:
    [main] ends with the parser's [ValueError], although the second subject
    on its own is processed to the end. *)
Lemma log_failure_ends_main_witness :
  log_parser Sample.study "SPN01_CMH_0001_01" "UCLAEmpAcc_part1.log"
  = Raise ValueError
  /\ main Sample.study = Raise ValueError
  /\ exists st, main Sample.study_second_only = Ok st
                /\ glm_run st = ["SPN01_CMH_0002_01"%string].
Proof.
  split; [vm_compute; reflexivity|]. split.
  - apply (log_failure_ends_main Sample.study "SPN01_CMH_0001_01"
             ["SPN01_CMH_0002_01"%string] ["UCLAEmpAcc_part1.log"%string]
             "UCLAEmpAcc_part1.log" [] initial_state ValueError);
      vm_compute; reflexivity.
  - eexists. split; vm_compute; reflexivity.
Defined.

(* ===================================================================== *)
(** ** The stimulus-timing file *)
(* ===================================================================== *)

(** [numpy.round] moves a number by at most one half. *)
Lemma np_round_close (y : Q) :
  (Qabs (inject_Z (np_round y) - y) <= 1 # 2)%Q.
Proof.
  pose proof (Qfloor_le y) as Hlo.
  pose proof (Qlt_floor y) as Hhi.
  rewrite inject_Z_plus in Hhi. change (inject_Z 1) with 1%Q in Hhi.
  apply Qabs_Qle_condition. unfold np_round.
  destruct (Qcompare_spec (y - inject_Z (Qfloor y)) (1 # 2)) as [He|Hl|Hg];
    [destruct (Z.even (Qfloor y))| |];
    rewrite ?inject_Z_plus; change (inject_Z 1) with 1%Q; lra.
Qed.

Lemma np_round_nonneg (y : Q) : (0 <= y)%Q -> 0 <= np_round y.
Proof.
  intros Hy. pose proof (Qfloor_resp_le _ _ Hy) as Hf.
  change (Qfloor 0) with 0 in Hf. unfold np_round.
  destruct (_ ?= _)%Q; [destruct (Z.even _)| |]; lia.
Qed.

Lemma hundredths_nonneg (x : Q) : 0 <= hundredths x.
Proof.
  apply np_round_nonneg. pose proof (Qabs_nonneg x). lra.
Qed.

Lemma append_assoc (a b c : string) :
  ((a ++ b) ++ c = a ++ (b ++ c))%string.
Proof. induction a as [|x a IH]; cbn; [reflexivity|now rewrite IH]. Qed.

Lemma all_digits_uint (d : Decimal.uint) :
  all_digits (NilEmpty.string_of_uint d) = true.
Proof. induction d; cbn; try reflexivity; exact IHd. Qed.

Lemma string_of_Z_digits (n : Z) :
  all_digits (string_of_Z n) = true /\ string_of_Z n <> EmptyString.
Proof.
  unfold string_of_Z, NilZero.string_of_uint.
  destruct (N.to_uint (Z.to_N n)) eqn:Hd; split;
    try reflexivity; try discriminate;
    rewrite <- Hd at 1; apply all_digits_uint.
Qed.

Lemma Z_of_digits_string_of_Z (n : Z) :
  0 <= n -> Z_of_digits (string_of_Z n) = Some n.
Proof.
  intros Hn. unfold Z_of_digits, string_of_Z.
  rewrite NilZero.usu.
  - rewrite DecimalN.Unsigned.of_to, Z2N.id by exact Hn. reflexivity.
  - destruct (Z.to_N n) as [|p]; [discriminate|].
    apply DecimalPos.Unsigned.to_uint_nonnil.
Qed.

Lemma digit_cases (d : Z) :
  0 <= d <= 9 ->
  d = 0 \/ d = 1 \/ d = 2 \/ d = 3 \/ d = 4 \/ d = 5 \/ d = 6 \/ d = 7
  \/ d = 8 \/ d = 9.
Proof. lia. Qed.

Lemma digit_char_is_digit (d : Z) :
  0 <= d <= 9 -> is_digit (digit_char d) = true.
Proof.
  intros H.
  destruct (digit_cases d H) as [->|[->|[->|[->|[->|[->|[->|[->|[->| ->]]]]]]]]];
    reflexivity.
Qed.

Lemma Z_of_two_digits (d1 d2 : Z) :
  0 <= d1 <= 9 -> 0 <= d2 <= 9 ->
  Z_of_digits (String (digit_char d1) (String (digit_char d2) EmptyString))
  = Some (10 * d1 + d2).
Proof.
  intros H1 H2.
  destruct (digit_cases d1 H1) as [->|[->|[->|[->|[->|[->|[->|[->|[->| ->]]]]]]]]];
    destruct (digit_cases d2 H2)
      as [->|[->|[->|[->|[->|[->|[->|[->|[->| ->]]]]]]]]];
    reflexivity.
Qed.

Lemma digit_is_not_point (c : ascii) :
  is_digit c = true -> Ascii.eqb c "."%char = false.
Proof.
  intros H. destruct (Ascii.eqb_spec c "."%char) as [->|]; [|reflexivity].
  discriminate H.
Qed.

Lemma digit_is_not_minus (c : ascii) :
  is_digit c = true -> Ascii.eqb c "-"%char = false.
Proof.
  intros H. destruct (Ascii.eqb_spec c "-"%char) as [->|]; [|reflexivity].
  discriminate H.
Qed.

Lemma split_at_point_digits (whole frac : string) :
  all_digits whole = true ->
  split_at_point (whole ++ String "."%char frac)%string = Some (whole, frac).
Proof.
  induction whole as [|c whole IH]; intros H; [reflexivity|].
  cbn in H. apply andb_prop in H. destruct H as [Hc Hw].
  cbn. rewrite (digit_is_not_point c Hc), (IH Hw). reflexivity.
Qed.

(** A number printed with [.2f] has two decimals, and reading it back
    gives the number to within half a hundredth. *)
Lemma format_2f_two_decimals (x : Q) : two_decimals (format_2f x).
Proof.
  pose proof (hundredths_nonneg x) as Hn.
  destruct (string_of_Z_digits (hundredths x / 100)) as [Hall Hne].
  exists (sign_of x), (string_of_Z (hundredths x / 100)),
         (digit_char ((hundredths x / 10) mod 10)),
         (digit_char (hundredths x mod 10)).
  split; [reflexivity|]. split.
  - unfold sign_of. destruct (Qlt_le_dec x 0); [now right|now left].
  - pose proof (Z.mod_pos_bound (hundredths x / 10) 10 ltac:(lia)).
    pose proof (Z.mod_pos_bound (hundredths x) 10 ltac:(lia)).
    repeat split; try assumption; apply digit_char_is_digit; lia.
Qed.

Lemma parse_2f_format_2f (x : Q) :
  parse_2f (format_2f x)
  = Some (if Qlt_le_dec x 0
          then (- (inject_Z (hundredths x) / 100))%Q
          else (inject_Z (hundredths x) / 100)%Q).
Proof.
  pose proof (hundredths_nonneg x) as Hn.
  set (n := hundredths x) in *.
  destruct (string_of_Z_digits (n / 100)) as [Hall Hne].
  assert (Hbody :
    parse_unsigned_2f
      (string_of_Z (n / 100)
         ++ String "."%char
              (String (digit_char ((n / 10) mod 10))
                 (String (digit_char (n mod 10)) EmptyString)))%string
    = Some (inject_Z n / 100)%Q).
  { unfold parse_unsigned_2f.
    rewrite (split_at_point_digits _ _ Hall).
    rewrite Z_of_digits_string_of_Z by (apply Z.div_pos; lia).
    pose proof (Z.mod_pos_bound (n / 10) 10 ltac:(lia)).
    pose proof (Z.mod_pos_bound n 10 ltac:(lia)).
    rewrite Z_of_two_digits by lia.
    cbn [String.length Nat.eqb]. do 3 f_equal.
    pose proof (Z.div_mod n 100 ltac:(lia)).
    pose proof (Z.div_mod n 10 ltac:(lia)).
    pose proof (Z.div_mod (n / 10) 10 ltac:(lia)).
    assert (n / 10 / 10 = n / 100) by (rewrite Z.div_div by lia; reflexivity).
    lia. }
  unfold format_2f, sign_of. fold n.
  destruct (Qlt_le_dec x 0) as [Hneg|Hpos].
  - cbn [append parse_2f]. change (Ascii.eqb "-" "-") with true. cbv iota.
    cbn [append] in Hbody. rewrite Hbody. reflexivity.
  - cbn [append].
    destruct (string_of_Z (n / 100)) as [|c whole'] eqn:Hw;
      [contradiction|].
    cbn in Hall. apply andb_prop in Hall. destruct Hall as [Hc _].
    cbn [append parse_2f]. rewrite (digit_is_not_minus c Hc).
    exact Hbody.
Qed.

Lemma format_2f_close (x : Q) :
  exists q, parse_2f (format_2f x) = Some q /\ (Qabs (q - x) <= 1 # 200)%Q.
Proof.
  eexists. split; [apply parse_2f_format_2f|].
  pose proof (np_round_close (Qabs x * 100)) as Hclose.
  fold (hundredths x) in Hclose.
  apply Qabs_Qle_condition in Hclose. apply Qabs_Qle_condition.
  destruct (Qlt_le_dec x 0) as [Hneg|Hpos].
  - rewrite (Qabs_neg x) in Hclose by lra.
    unfold Qdiv. change (/ 100)%Q with (1 # 100)%Q. lra.
  - rewrite (Qabs_pos x) in Hclose by lra.
    unfold Qdiv. change (/ 100)%Q with (1 # 100)%Q. lra.
Qed.

Lemma file_content_write (files : list (string * string))
    (name text old : string) :
  file_content files name = Some old ->
  file_content (file_write files name text) name
  = Some (old ++ text)%string.
Proof.
  induction files as [|[n c] files IH]; cbn; [discriminate|].
  destruct (String.eqb n name) eqn:Hn; cbn; rewrite Hn.
  - now intros [= ->].
  - exact IH.
Qed.

Lemma getitem_middle {A B : Type} (f : A -> B) (done todo : list A) (k : A) :
  getitem (map f (done ++ k :: todo)) (length done) = Ok (f k).
Proof.
  unfold getitem. rewrite nth_error_map, nth_error_app2 by lia.
  rewrite Nat.sub_diag. reflexivity.
Qed.

Lemma keep_some_map_Some {A : Type} (l : list A) :
  keep_some (map Some l) = l.
Proof. induction l as [|a l IH]; cbn; [reflexivity|now rewrite IH]. Qed.

(** The tokens written for the rows kept by [process_behav_data]. *)
Lemma timing_tokens_kept (kept : list block_result) :
  timing_tokens (map br_onset kept) (map br_correlation kept)
                (map br_button_pushes kept) (map br_duration kept)
  = fold_right
      (fun k rest =>
         (timing_event (br_onset k) (br_correlation k) (br_button_pushes k)
                       (br_duration k) ++ rest)%string)
      EmptyString kept.
Proof.
  induction kept as [|k kept IH]; [reflexivity|].
  cbn [map timing_tokens fold_right]. now rewrite IH.
Qed.

Lemma write_events_kept (kept : list block_result) :
  forall (todo done : list block_result) (st : batch_state) (s old : string),
    kept = done ++ todo ->
    f1 st = Some s ->
    file_content (block_times st) s = Some old ->
    exists st',
      write_events (gather (map Some kept))
                   (seq (length done) (length todo)) st = Ok st'
      /\ f1 st' = Some s
      /\ file_content (block_times st') s
         = Some (old
                 ++ fold_right
                      (fun k rest =>
                         (timing_event (br_onset k) (br_correlation k)
                                       (br_button_pushes k) (br_duration k)
                            ++ rest)%string)
                      EmptyString todo)%string.
Proof.
  pose proof (keep_some_map_Some kept) as Hkeep.
  induction todo as [|k todo IH]; intros done st s old Hkept Hf1 Hold.
  - exists st. cbn. split; [reflexivity|]. split; [exact Hf1|].
    rewrite Hold. f_equal. clear. induction old; cbn; congruence.
  - cbn [length seq write_events]. unfold write_event, gather.
    rewrite Hkeep. cbn [onsets_used correlations button_pushes durations].
    rewrite Hkept, !getitem_middle. cbn [bind].
    unfold write_outputs. rewrite Hf1. cbn [bind].
    set (st1 := mk_batch _ _ _ _).
    destruct (IH (done ++ [k]) st1 s
                 (old ++ timing_event (br_onset k) (br_correlation k)
                           (br_button_pushes k) (br_duration k))%string)
      as (st' & Hrun & Hf1' & Hcontent).
    + rewrite <- app_assoc. exact Hkept.
    + reflexivity.
    + subst st1. cbn [block_times]. now apply file_content_write.
    + exists st'. rewrite length_app, Nat.add_1_r in Hrun.
      unfold gather in Hrun. rewrite Hkeep, Hkept in Hrun.
      split; [exact Hrun|]. split; [exact Hf1'|].
      rewrite Hcontent. cbn [fold_right]. now rewrite append_assoc.
Qed.

(** The four lists [process_behav_data] returns are the columns of one list
    of rows. *)
Lemma process_behav_data_rows (E : externals) (log sub trial_type : string)
    (r : behav_result) :
  process_behav_data E log sub trial_type = Ok r ->
  exists kept, r = gather (map Some kept).
Proof.
  unfold process_behav_data. intros H.
  destruct (negb _); [discriminate|].
  destruct (log_parser E sub log) as [p|]; cbn [bind] in H; [|discriminate].
  destruct (find_blocks _ _) as [[blocks onsets]|]; cbn [bind] in H;
    [|discriminate].
  destruct (length blocks =? 0)%nat; [discriminate|].
  destruct (pl_pic p); [discriminate|].
  destruct (pl_res p); [discriminate|].
  destruct (pl_mri_start p); [|discriminate].
  destruct (map_result _ _) as [rows|]; cbn [bind] in H; [|discriminate].
  injection H as <-. exists (keep_some rows). unfold gather.
  now rewrite keep_some_map_Some.
Qed.

(** C6, as amended: an event of the stimulus-timing file is the onset, a
    star, the correlation, a comma, the button-push rate, a colon, the
    duration and a space, where onset, correlation and duration are printed
    with exactly two decimals - and read back to within half a hundredth -
    while the rate is printed the way [str] prints a float; the events of one
    run are written one after the other and the run's line is ended by a
    newline. *)
Theorem timing_line_format :
  (forall o r p d,
      timing_event o r p d
      = (format_2f o ++ "*" ++ format_2f r ++ "," ++ str_float p ++ ":"
           ++ format_2f d ++ " ")%string)
  /\ (forall x,
        two_decimals (format_2f x)
        /\ exists q, parse_2f (format_2f x) = Some q
                     /\ (Qabs (q - x) <= 1 # 200)%Q)
  /\ (forall (E : externals) (sub log : string) (st : batch_state)
             (r : behav_result) (s old : string),
        process_behav_data E log sub "vid" = Ok r ->
        f1 st = Some s ->
        file_content (block_times st) s = Some old ->
        exists st',
          process_log E sub log st = Ok st'
          /\ f1 st' = Some s
          /\ file_content (block_times st') s
             = Some (old ++ timing_line r)%string).
Proof.
  split; [reflexivity|]. split.
  - intros x. split; [apply format_2f_two_decimals|apply format_2f_close].
  - intros E sub log st r s old Hr Hf1 Hold.
    destruct (process_behav_data_rows _ _ _ _ _ Hr) as (kept & ->).
    destruct (write_events_kept kept kept [] st s old eq_refl Hf1 Hold)
      as (st1 & Hrun & Hf1' & Hcontent).
    unfold process_log. rewrite Hr. cbn [bind].
    unfold gather at 2. rewrite keep_some_map_Some.
    cbn [onsets_used]. rewrite length_map.
    cbn [length] in Hrun. rewrite Hrun. cbn [bind].
    unfold write_outputs. rewrite Hf1'.
    eexists. split; [reflexivity|]. cbn [f1 block_times].
    split; [reflexivity|].
    rewrite (file_content_write _ _ _ _ Hcontent).
    unfold timing_line, gather. rewrite keep_some_map_Some.
    cbn [onsets_used correlations button_pushes durations].
    rewrite timing_tokens_kept, append_assoc. reflexivity.
Qed.

(** The line written for the sample run of the second subject. *)
Lemma timing_line_format_witness :
  exists st',
    process_log Sample.study "SPN01_CMH_0002_01" "UCLAEmpAcc_part1.log"
                (open_outputs "SPN01_CMH_0002_01" initial_state)
    = Ok st'
    /\ file_content (block_times st') "SPN01_CMH_0002_01"
       = Some ("0.20*0.50,0.00208333333333:8.00 " ++ newline)%string.
Proof.
  destruct (process_behav_data Sample.study "UCLAEmpAcc_part1.log"
              "SPN01_CMH_0002_01" "vid") as [r|] eqn:Hr;
    [|vm_compute in Hr; discriminate].
  destruct (proj2 (proj2 timing_line_format) Sample.study
              "SPN01_CMH_0002_01"%string "UCLAEmpAcc_part1.log"%string
              (open_outputs "SPN01_CMH_0002_01" initial_state) r
              "SPN01_CMH_0002_01"%string EmptyString Hr)
    as (st' & Hrun & _ & Hcontent);
    [reflexivity | reflexivity |].
  exists st'. split; [exact Hrun|]. rewrite Hcontent.
  vm_compute in Hr. injection Hr as <-. reflexivity.
Defined.

Lemma short_rate_has_one_decimal : ~ two_decimals "0.1".
Proof.
  intros (sign & whole & d1 & d2 & Heq & Hsign & Hne & Hall & _).
  destruct Hsign as [-> | ->]; cbn in Heq.
  - destruct whole as [|a [|b [|c whole]]]; cbn in Heq, Hall;
      try contradiction; try discriminate.
    injection Heq as _ _ _ Habs. destruct whole; discriminate.
  - discriminate.
Qed.

(** C6 as stated fails: for onset 12.34, correlation 0.56, rate 0.1 and
    duration 8 the event written is not ["12.34*0.56,0.10:8.00"]; the rate
    is printed ["0.1"], with one decimal. *)
Lemma timing_event_rate_not_two_decimals :
  timing_event (1234 # 100) (56 # 100) (1 # 10) (8 # 1)
  = "12.34*0.56,0.1:8.00 "%string
  /\ two_decimal_event (1234 # 100) (56 # 100) (1 # 10) (8 # 1)
     = "12.34*0.56,0.10:8.00 "%string
  /\ str_float (1 # 10) = "0.1"%string
  /\ ~ two_decimals (str_float (1 # 10)).
Proof.
  split; [vm_compute; reflexivity|]. split; [vm_compute; reflexivity|].
  split; [vm_compute; reflexivity|].
  change (str_float (1 # 10)) with "0.1"%string.
  exact short_rate_has_one_decimal.
Qed.


(* ===================================================================== *)
(** * Further properties *)
(* ===================================================================== *)

(* ===================================================================== *)
(** ** The deduplicated Response stream *)
(* ===================================================================== *)






(* ===================================================================== *)
(** ** The trials of a block *)
(* ===================================================================== *)

(** [numpy.linspace(a, a+n-1, n)] holds the integers from [a] to [a+n-1]. *)
Lemma linspace_integers (a b n : Z) :
  0 <= n -> b = a + n - 1 ->
  exists l,
    linspace (inject_Z a) (inject_Z b) n = Ok l
    /\ forall t, in_array t l = true <-> a <= t < a + n.
Proof.
  intros Hn ->. unfold linspace.
  destruct (n <? 0) eqn:H0; [lia|].
  destruct (n =? 0) eqn:H1.
  { exists []. split; [reflexivity|]. intros t. cbn. split; [discriminate|lia]. }
  destruct (n =? 1) eqn:H2.
  { exists [inject_Z a]. split; [reflexivity|]. intros t. cbn.
    rewrite orb_false_r, Qeq_bool_iff, inject_Z_injective. lia. }
  eexists. split; [reflexivity|]. intros t. unfold in_array.
  rewrite existsb_exists.
  assert (Hstep : forall i : nat,
            (inject_Z (Z.of_nat i)
             * ((inject_Z (a + n - 1) - inject_Z a) / inject_Z (n - 1))
             + inject_Z a == inject_Z (a + Z.of_nat i))%Q).
  { intros i.
    assert (Hnum : (inject_Z (a + n - 1) - inject_Z a == inject_Z (n - 1))%Q).
    { unfold Qminus. rewrite <- inject_Z_opp, <- inject_Z_plus.
      now replace (a + n - 1 + - a) with (n - 1) by lia. }
    rewrite Hnum, inject_Z_plus. field.
    change 0%Q with (inject_Z 0). rewrite inject_Z_injective. lia. }
  split.
  - intros (y & Hy & Heq). apply in_map_iff in Hy.
    destruct Hy as (i & <- & Hi). apply in_seq in Hi.
    apply Qeq_bool_iff in Heq. rewrite Hstep, inject_Z_injective in Heq.
    lia.
  - intros Ht. eexists. split.
    + apply in_map_iff. exists (Z.to_nat (t - a)). split; [reflexivity|].
      apply in_seq. lia.
    + apply Qeq_bool_iff. rewrite Hstep, inject_Z_injective. lia.
Qed.

Lemma filter_same {A : Type} (f g : A -> bool) (l : list A) :
  (forall x, f x = true <-> g x = true) -> filter f l = filter g l.
Proof.
  intros H. apply filter_ext. intros x. apply eq_true_iff_eq. apply H.
Qed.

(** The responses of a block are those with a trial number from the block's
    own up to, and without, the next block's; for the last block, up to the
    trial number of the last response. A block that starts on the trial on
    which the next one starts has no response and gets the neutral trace. *)
Theorem block_responses_by_trial (res : list event) (pic : list picture)
    (blk_start : Z) (mri_start : Z) (blk_start_time : Q) :
  (forall blk_end,
      blk_start <= blk_end ->
      exists trials,
        block_trials res blk_start (Some blk_end) = Ok trials
        /\ filter (fun s => in_array (trial s) trials) res
           = filter (fun s => (blk_start <=? trial s)
                              && (trial s <? blk_end)) res)
  /\ (forall final,
        getlast res = Ok final ->
        blk_start <= trial final + 1 ->
        exists trials,
          block_trials res blk_start None = Ok trials
          /\ filter (fun s => in_array (trial s) trials) res
             = filter (fun s => (blk_start <=? trial s)
                                && (trial s <=? trial final)) res)
  /\ find_ratings res pic blk_start (Some blk_start) mri_start blk_start_time
     = Ok ([neutral_rating], 0%nat).
Proof.
  split; [|split].
  - intros blk_end Hle.
    destruct (linspace_integers blk_start (blk_end - 1) (blk_end - blk_start))
      as (l & Hl & Hin); [lia|lia|].
    exists l. split; [exact Hl|]. apply filter_same. intros s.
    rewrite Hin. lia.
  - intros final Hfinal Hle.
    destruct (linspace_integers blk_start (trial final)
                                (trial final - blk_start + 1))
      as (l & Hl & Hin); [lia|lia|].
    exists l. split.
    + unfold block_trials. rewrite Hfinal. exact Hl.
    + apply filter_same. intros s. rewrite Hin. lia.
  - unfold find_ratings, find_ratings_trace, block_trials.
    rewrite Z.sub_diag.
    change (linspace (inject_Z blk_start) (inject_Z (blk_start - 1)) 0)
      with (@Ok (list Q) []).
    cbn [bind].
    assert (Hnone : filter (fun s => in_array (trial s) []) res = []).
    { clear. induction res as [|r res IH]; [reflexivity|exact IH]. }
    rewrite Hnone. reflexivity.
Qed.

(** The block of trials 10 and 11 of a sample stream. *)
Lemma block_responses_by_trial_witness :
  exists trials,
    block_trials Sample.pushed_responses 10 (Some 12) = Ok trials
    /\ filter (fun s => in_array (trial s) trials) Sample.pushed_responses
       = [Sample.push 10 50000].
Proof.
  destruct (proj1 (block_responses_by_trial Sample.pushed_responses [] 10 0 0)
              12 ltac:(lia)) as (trials & Htrials & Hsel).
  exists trials. split; [exact Htrials|]. rewrite Hsel. reflexivity.
Defined.

(* ===================================================================== *)
(** ** Responses without a rating *)
(* ===================================================================== *)

Lemma select_pictures_none (compared : list event) (pic : list picture) :
  (forall r p, In r compared -> In p pic -> p_trial p <> trial r + 1) ->
  select_pictures compared pic = [].
Proof.
  intros Hno. unfold select_pictures.
  induction pic as [|p pic IH]; [reflexivity|]. cbn [filter].
  assert (Hp : existsb (Z.eqb (p_trial p))
                       (map (fun r => trial r + 1) compared) = false).
  { apply not_true_is_false. intros Hex. apply existsb_exists in Hex.
    destruct Hex as (t & Ht & Heq). apply in_map_iff in Ht.
    destruct Ht as (r & <- & Hr). apply Z.eqb_eq in Heq.
    exact (Hno r p Hr (or_introl eq_refl) Heq). }
  rewrite Hp. apply IH. intros r q Hr Hq. apply (Hno r q Hr). now right.
Qed.

(** When a block holds a button push and no Picture row lies on the trial
    after any of its responses, [find_ratings] raises [IndexError]: the
    lookup [picture_list[-1]] of the first pass finds an empty list. *)
Theorem find_ratings_without_pictures (res : list event)
    (pic : list picture) (blk_start : Z) (blk_end : option Z)
    (mri_start : Z) (blk_start_time : Q) (trials : list Q) :
  block_trials res blk_start blk_end = Ok trials ->
  filter is_button_push (filter (fun s => in_array (trial s) trials) res)
  <> [] ->
  (forall r p,
      In r (filter (fun s => in_array (trial s) trials) res) ->
      In p pic -> p_trial p <> trial r + 1) ->
  find_ratings res pic blk_start blk_end mri_start blk_start_time
  = Raise IndexError.
Proof.
  intros Htrials Hpush Hnone.
  unfold find_ratings, find_ratings_trace. rewrite Htrials. cbn [bind].
  destruct (filter (fun s => in_array (trial s) trials) res)
    as [|s0 sel] eqn:Hsel; [now cbn in Hpush|].
  cbn [length Nat.eqb]. unfold comparison_set.
  cbn [getitem nth_error bind].
  destruct (filter is_button_push (s0 :: sel)) as [|b pushes] eqn:Hb;
    [contradiction|].
  destruct (getlast (s0 :: sel)) as [final|e] eqn:Hfinal.
  2:{ unfold getlast in Hfinal. destruct (rev (s0 :: sel)) eqn:Hrev.
      - apply (f_equal (@length event)) in Hrev.
        rewrite length_rev in Hrev. discriminate.
      - discriminate. }
  cbn [bind].
  rewrite select_pictures_none.
  - cbn [app length seq rating_loop]. unfold rating_pass.
    unfold response_time. cbn [Nat.eqb orb getitem nth_error bind].
    reflexivity.
  - intros r p Hr Hp. apply (Hnone r p); [|exact Hp].
    cbn [app] in Hr. destruct Hr as [<-|Hr]; [now left|].
    change (In r ((b :: pushes) ++ [final])) in Hr.
    apply in_app_or in Hr. destruct Hr as [Hr|[<-|[]]].
    + assert (Hin : In r (filter is_button_push (s0 :: sel)))
        by (rewrite Hb; exact Hr).
      apply filter_In in Hin. tauto.
    + exact (getlast_In _ _ Hfinal).
Qed.

(** A button push on trial 10 with ratings recorded on trials 1 and 3
    only. *)
Lemma find_ratings_without_pictures_witness :
  find_ratings Sample.pushed_responses Sample.silent_pictures 10 None 1000
               (49 # 10)
  = Raise IndexError.
Proof.
  apply (find_ratings_without_pictures Sample.pushed_responses
           Sample.silent_pictures 10 None 1000 (49 # 10)
           [20#2; 22#2; 24#2]).
  - vm_compute. reflexivity.
  - vm_compute. discriminate.
  - intros r p Hr Hp.
    change (In r [Sample.push 10 50000; Sample.response 12 90000]) in Hr.
    destruct Hr as [<-|[<-|[]]]; destruct Hp as [<-|[<-|[]]];
      vm_compute; discriminate.
Defined.

(* ===================================================================== *)
(** ** Resampling *)
(* ===================================================================== *)

Lemma linspace_length (a b : Q) (n : nat) :
  exists l, linspace a b (Z.of_nat n) = Ok l /\ length l = n.
Proof.
  unfold linspace.
  destruct (Z.ltb_spec (Z.of_nat n) 0) as [H0|H0]; [lia|].
  destruct (Z.eqb_spec (Z.of_nat n) 0) as [H1|H1].
  { exists []. split; [reflexivity|]. cbn [length]. lia. }
  destruct (Z.eqb_spec (Z.of_nat n) 1) as [H2|H2].
  { exists [a]. split; [reflexivity|]. cbn [length]. lia. }
  eexists. split; [reflexivity|].
  now rewrite length_map, length_seq, Nat2Z.id.
Qed.

(** The points at which [match_lengths] asks for a value lie between the
    first and the last knot. *)
Lemma linspace_between (n m : nat) (l : list Q) :
  (1 <= n)%nat ->
  linspace 0 (inject_Z (Z.of_nat n - 1)) (Z.of_nat m) = Ok l ->
  forall v, In v l -> (0 <= v <= inject_Z (Z.of_nat n - 1))%Q.
Proof.
  intros Hn. unfold linspace.
  assert (HN : (0 <= inject_Z (Z.of_nat n - 1))%Q).
  { change 0%Q with (inject_Z 0). rewrite <- Zle_Qle. lia. }
  destruct (Z.ltb_spec (Z.of_nat m) 0) as [H0|H0]; [lia|].
  destruct (Z.eqb_spec (Z.of_nat m) 0) as [H1|H1].
  { intros [= <-] v []. }
  destruct (Z.eqb_spec (Z.of_nat m) 1) as [H2|H2].
  { intros [= <-] v [<-|[]]. split; [apply Qle_refl|exact HN]. }
  intros [= <-] v Hv. apply in_map_iff in Hv.
  destruct Hv as (i & <- & Hi). apply in_seq in Hi.
  set (N := inject_Z (Z.of_nat n - 1)) in *.
  set (M := inject_Z (Z.of_nat m - 1)).
  set (I := inject_Z (Z.of_nat i)).
  assert (HM : (0 < M)%Q).
  { subst M. change 0%Q with (inject_Z 0). rewrite <- Zlt_Qlt. lia. }
  assert (HI : (0 <= I)%Q).
  { subst I. change 0%Q with (inject_Z 0). rewrite <- Zle_Qle. lia. }
  assert (HIM : (I <= M)%Q).
  { subst I M. rewrite <- Zle_Qle. lia. }
  assert (Hv : (I * ((N - 0) / M) + 0 == N * I / M)%Q).
  { field. intros Hz. rewrite Hz in HM. exact (Qlt_irrefl _ HM). }
  rewrite Hv. split.
  - apply Qle_shift_div_l; [exact HM|].
    rewrite Qmult_0_l. now apply Qmult_le_0_compat.
  - apply Qle_shift_div_r; [exact HM|].
    rewrite (Qmult_comm N I), (Qmult_comm N M).
    now apply Qmult_le_compat_r.
Qed.

(** What the search returns: at most the number of knots, with every knot
    before the position below the point and the knot at the position, if
    there is one, not below it. *)
Lemma searchsorted_spec (xs : list Q) (v : Q) :
  (searchsorted xs v <= length xs)%nat
  /\ (forall j, (j < searchsorted xs v)%nat -> (nth j xs 0 < v)%Q)
  /\ ((searchsorted xs v < length xs)%nat ->
      (v <= nth (searchsorted xs v) xs 0)%Q).
Proof.
  induction xs as [|x xs (IHlen & IHlt & IHge)]; cbn [searchsorted length].
  - split; [lia|]. split; intros; lia.
  - destruct (Qlt_le_dec x v) as [Hlt|Hle].
    + split; [lia|]. split.
      * intros [|j] Hj; cbn [nth]; [exact Hlt|]. apply IHlt. lia.
      * intros Hj. cbn [nth]. apply IHge. lia.
    + split; [lia|]. split; [intros j Hj; lia|].
      intros _. exact Hle.
Qed.

Section Interpolation.
Variables (x y : list Q) (n : nat).
Hypothesis Hn : (2 <= n)%nat.
Hypothesis Hx : length x = n.
Hypothesis Hy : length y = n.
Hypothesis Hknot :
  forall j, (j < n)%nat -> (nth j x 0 == inject_Z (Z.of_nat j))%Q.

(** Between the first and the last knot the interpolator answers, with a
    value between the smallest and the largest of the values it holds. *)
Lemma interp1d_call_between (v : Q) :
  (0 <= v <= inject_Z (Z.of_nat n - 1))%Q ->
  exists r,
    interp1d_call x y v = Ok r
    /\ forall lo hi,
         (forall e, In e y -> (lo <= e <= hi)%Q) -> (lo <= r <= hi)%Q.
Proof.
  intros [Hv0 Hvn]. unfold interp1d_call.
  pose proof (Hknot 0%nat ltac:(lia)) as Hx0.
  change (inject_Z (Z.of_nat 0)) with 0%Q in Hx0.
  destruct (Qlt_le_dec v (nth 0 x 0%Q)) as [Hlt|_].
  { exfalso. rewrite Hx0 in Hlt. lra. }
  destruct (Qlt_le_dec (last x 0%Q) v) as [Hlt|_].
  { exfalso. rewrite (last_knot x n Hn Hx Hknot) in Hlt.
    replace (Z.of_nat (n - 1)) with (Z.of_nat n - 1) in Hlt by lia. lra. }
  eexists. split; [reflexivity|]. intros lo hi Hbound.
  destruct (searchsorted_spec x v) as (Hlen & Hbefore & Hat).
  set (idx := searchsorted x v) in *. rewrite Hx in *.
  assert (Hk : exists k,
            clip idx 1 (n - 1) = S k /\ (S k < n)%nat
            /\ (inject_Z (Z.of_nat k) <= v)%Q
            /\ (v <= inject_Z (Z.of_nat k) + 1)%Q).
  { destruct (Nat.eq_dec idx 0) as [H0|H0].
    - exists 0%nat. unfold clip. rewrite H0.
      split; [lia|]. split; [lia|]. split; [exact Hv0|].
      specialize (Hat ltac:(lia)). rewrite H0, Hx0 in Hat.
      change (inject_Z (Z.of_nat 0)) with 0%Q. lra.
    - destruct (Nat.eq_dec idx n) as [Hfull|Hpart].
      + exfalso. specialize (Hbefore (n - 1)%nat ltac:(lia)).
        rewrite (Hknot (n - 1)%nat) in Hbefore by lia.
        replace (Z.of_nat (n - 1)) with (Z.of_nat n - 1) in Hbefore by lia.
        lra.
      + exists (idx - 1)%nat. unfold clip.
        split; [lia|]. split; [lia|]. split.
        * specialize (Hbefore (idx - 1)%nat ltac:(lia)).
          rewrite (Hknot (idx - 1)%nat) in Hbefore by lia. lra.
        * specialize (Hat ltac:(lia)).
          rewrite (Hknot idx) in Hat by lia.
          replace idx with (S (idx - 1)) in Hat at 1 by lia.
          rewrite inject_Z_succ in Hat. exact Hat. }
  destruct Hk as (k & -> & Hkn & Hlo & Hhi).
  replace (S k - 1)%nat with k by lia.
  pose proof (Hknot k ltac:(lia)) as Hxk.
  pose proof (Hknot (S k) Hkn) as Hxk1. rewrite inject_Z_succ in Hxk1.
  assert (Hyk : (lo <= nth k y 0 <= hi)%Q).
  { apply Hbound, nth_In. lia. }
  assert (Hyk1 : (lo <= nth (S k) y 0 <= hi)%Q).
  { apply Hbound, nth_In. lia. }
  set (yl := nth k y 0%Q) in *. set (yh := nth (S k) y 0%Q) in *.
  set (t := (v - inject_Z (Z.of_nat k))%Q).
  assert (Ht : (0 <= t <= 1)%Q) by (subst t; lra).
  assert (Hr : ((yh - yl) / (nth (S k) x 0 - nth k x 0) * (v - nth k x 0)
                + yl == (1 - t) * yl + t * yh)%Q).
  { rewrite Hxk1, Hxk. subst t. field. intros Hz. ring_simplify in Hz.
    discriminate Hz. }
  rewrite Hr.
  assert (H1 : (0 <= (1 - t) * (yl - lo))%Q)
    by (apply Qmult_le_0_compat; lra).
  assert (H2 : (0 <= t * (yh - lo))%Q) by (apply Qmult_le_0_compat; lra).
  assert (H3 : (0 <= (1 - t) * (hi - yl))%Q)
    by (apply Qmult_le_0_compat; lra).
  assert (H4 : (0 <= t * (hi - yh))%Q) by (apply Qmult_le_0_compat; lra).
  split; lra.
Qed.

End Interpolation.

Lemma map_result_all {A B : Type} (f : A -> result B) (P : B -> Prop)
    (l : list A) :
  (forall a, In a l -> exists b, f a = Ok b /\ P b) ->
  exists bs, map_result f l = Ok bs /\ Forall P bs.
Proof.
  induction l as [|a l IH]; intros Hall.
  - exists []. split; constructor.
  - destruct (Hall a (or_introl eq_refl)) as (b & Hb & Hp).
    destruct IH as (bs & Hbs & Hps).
    { intros a' Ha'. apply Hall. now right. }
    exists (b :: bs). split; [|now constructor].
    cbn [map_result]. rewrite Hb, Hbs. reflexivity.
Qed.

(** [match_lengths(a, b)] raises [ValueError] when [b] has fewer than two
    samples; otherwise it returns as many samples as [a] has, none of them
    outside the bounds that hold for the samples of [b]. *)
Theorem match_lengths_resamples (a b : list Q) :
  ((length b < 2)%nat -> match_lengths a b = Raise ValueError)
  /\ ((2 <= length b)%nat ->
      exists l,
        match_lengths a b = Ok l
        /\ length l = length a
        /\ forall lo hi,
             (forall e, In e b -> (lo <= e <= hi)%Q) ->
             forall r, In r l -> (lo <= r <= hi)%Q).
Proof.
  unfold match_lengths.
  destruct (linspace_length 0 (inject_Z (Z.of_nat (length b) - 1))
                            (length b)) as (x & Hx & Hxlen).
  rewrite Hx. cbn [bind]. rewrite Hxlen. split.
  - intros Hshort. apply Nat.ltb_lt in Hshort. now rewrite Hshort.
  - intros Hlong.
    destruct (length b <? 2)%nat eqn:Hlt; [apply Nat.ltb_lt in Hlt; lia|].
    destruct (linspace_length 0 (inject_Z (Z.of_nat (length b) - 1))
                              (length a)) as (x_new & Hnew & Hnewlen).
    rewrite Hnew. cbn [bind].
    destruct (linspace_knots (length b) Hlong) as (x' & Hx' & _ & Hknot).
    rewrite Hx in Hx'. injection Hx' as <-.
    destruct (map_result_all (interp1d_call x b)
                (fun r => forall lo hi,
                     (forall e, In e b -> (lo <= e <= hi)%Q) ->
                     (lo <= r <= hi)%Q) x_new) as (l & Hl & Hall).
    { intros v Hv.
      apply (interp1d_call_between x b (length b) Hlong Hxlen eq_refl Hknot).
      exact (linspace_between (length b) (length a) x_new ltac:(lia)
                              Hnew v Hv). }
    exists l. split; [exact Hl|]. split.
    + rewrite (map_result_length _ _ _ Hl). exact Hnewlen.
    + intros lo hi Hb r Hr. rewrite Forall_forall in Hall.
      exact (Hall r Hr lo hi Hb).
Qed.

(** A trace of two ratings stretched over four samples stays between 0 and
    10. *)
Lemma match_lengths_resamples_witness :
  exists l,
    match_lengths [5#1; 6#1; 7#1; 8#1] [5#1; 7#1] = Ok l
    /\ length l = 4%nat
    /\ forall r, In r l -> (0 <= r <= 10)%Q.
Proof.
  destruct (proj2 (match_lengths_resamples [5#1; 6#1; 7#1; 8#1] [5#1; 7#1]))
    as (l & Hl & Hlen & Hbound); [cbn; lia|].
  exists l. split; [exact Hl|]. split; [exact Hlen|].
  apply Hbound. intros e [<-|[<-|[]]]; split; discriminate.
Defined.

(** A returned resampling of [b] has the length of [a], and [b] had at
    least two samples. *)
Lemma match_lengths_length (a b l : list Q) :
  match_lengths a b = Ok l ->
  length l = length a /\ (2 <= length b)%nat.
Proof.
  unfold match_lengths.
  destruct (linspace_length 0 (inject_Z (Z.of_nat (length b) - 1))
                            (length b)) as (x & Hx & Hxlen).
  rewrite Hx. cbn [bind]. rewrite Hxlen.
  destruct (length b <? 2)%nat eqn:Hlt; [discriminate|].
  apply Nat.ltb_ge in Hlt.
  destruct (linspace_length 0 (inject_Z (Z.of_nat (length b) - 1))
                            (length a)) as (x_new & Hnew & Hnewlen).
  rewrite Hnew. cbn [bind]. intros Hl.
  rewrite (map_result_length _ _ _ Hl). split; [exact Hnewlen|exact Hlt].
Qed.

(** Whenever the series of a block reach [numpy.corrcoef], the two have one
    length; with a button pushed this length is the larger of the two
    lengths, and without, the length of the reference series. *)
Theorem aligned_series_have_one_length (n_pushes : nat)
    (subj_rate gold_rate subj_rate' gold_rate' : list Q) :
  align n_pushes subj_rate gold_rate = Ok (subj_rate', gold_rate') ->
  length subj_rate' = length gold_rate'
  /\ (n_pushes <> 0%nat ->
      length gold_rate' = Nat.max (length subj_rate) (length gold_rate))
  /\ (n_pushes = 0%nat -> gold_rate' = gold_rate).
Proof.
  unfold align. destruct (n_pushes =? 0)%nat eqn:Hn; cbn [negb].
  - apply Nat.eqb_eq in Hn. intros [= <- <-].
    rewrite repeat_length. split; [reflexivity|]. split; [lia|reflexivity].
  - apply Nat.eqb_neq in Hn.
    destruct (length subj_rate <? length gold_rate)%nat eqn:Hlt.
    + apply Nat.ltb_lt in Hlt.
      destruct (match_lengths gold_rate subj_rate) as [s|] eqn:Hs;
        cbn [bind]; [|discriminate].
      intros [= <- <-].
      destruct (match_lengths_length _ _ _ Hs) as [Hlen _].
      split; [exact Hlen|]. split; [lia|contradiction].
    + apply Nat.ltb_ge in Hlt.
      destruct (length gold_rate <? length subj_rate)%nat eqn:Hgt.
      * apply Nat.ltb_lt in Hgt.
        destruct (match_lengths subj_rate gold_rate) as [g|] eqn:Hg;
          cbn [bind]; [|discriminate].
        intros [= <- <-].
        destruct (match_lengths_length _ _ _ Hg) as [Hlen _].
        split; [now rewrite Hlen|]. split; [lia|contradiction].
      * apply Nat.ltb_ge in Hgt. intros [= <- <-].
        split; [lia|]. split; [lia|contradiction].
Qed.

(** The trace of the first block of the sample run against its reference
    series of four samples. *)
Lemma aligned_series_have_one_length_witness :
  exists subj gold,
    align 1 [5#1; 7#1] [5#1; 6#1; 7#1; 8#1] = Ok (subj, gold)
    /\ length subj = length gold.
Proof.
  destruct (align 1 [5#1; 7#1] [5#1; 6#1; 7#1; 8#1]) as [[subj gold]|]
    eqn:Halign; [|vm_compute in Halign; discriminate].
  exists subj, gold. split; [reflexivity|].
  exact (proj1 (aligned_series_have_one_length _ _ _ _ _ Halign)).
Defined.

(* ===================================================================== *)
(** ** What [process_behav_data] returns *)
(* ===================================================================== *)

(** What a pass of the block loop yields for block [i]: nothing for a block
    of the other task, else a result that starts where the block starts. *)
Lemma process_block_row (E : externals) (trial_type : string)
    (res : list event) (pic : list picture) (mri_start : Z)
    (blocks : list block) (i : nat) (row : option block_result) :
  process_block E trial_type res pic mri_start blocks
                (map block_start blocks) i = Ok row ->
  exists b,
    nth_error blocks i = Some b
    /\ (other_task trial_type b = true -> row = None)
    /\ (other_task trial_type b = false ->
        exists r, row = Some r /\ br_onset r = block_start b).
Proof.
  unfold process_block, getitem. intros H.
  destruct (nth_error blocks i) as [b|] eqn:Hb; cbn [bind] in H;
    [|discriminate].
  exists b. split; [reflexivity|].
  destruct (block_series _ _ _ _ _ _) as [[[[s g] d] n]|]; cbn [bind] in H;
    [|discriminate].
  destruct (axes_getitem _ _); cbn [bind] in H; [|discriminate].
  unfold other_task, str_getitem in *.
  destruct (String.get 0 (block_name b)) as [c|]; cbn [bind] in H;
    [|discriminate].
  destruct (String.eqb trial_type "vid" && Ascii.eqb c ascii_c) eqn:H1.
  { injection H as <-. cbn [orb]. split; [reflexivity|discriminate]. }
  destruct (String.eqb trial_type "cvid" && Ascii.eqb c ascii_v) eqn:H2.
  { injection H as <-. cbn [orb]. split; [reflexivity|discriminate]. }
  cbn [orb]. split; [discriminate|]. intros _.
  rewrite nth_error_map, Hb in H. cbn [option_map bind] in H.
  destruct (nth_error d 0); cbn [bind] in H; [|discriminate].
  destruct (Qeq_bool _ _); [discriminate|].
  injection H as <-. eexists. split; reflexivity.
Qed.

Lemma process_block_rows (E : externals) (trial_type : string)
    (res : list event) (pic : list picture) (mri_start : Z)
    (blocks : list block) :
  forall (todo done : list block) (rows : list (option block_result)),
    blocks = done ++ todo ->
    map_result (process_block E trial_type res pic mri_start blocks
                              (map block_start blocks))
               (seq (length done) (length todo)) = Ok rows ->
    map br_onset (keep_some rows)
    = map block_start
          (filter (fun b => negb (other_task trial_type b)) todo).
Proof.
  induction todo as [|b todo IH]; intros done rows Hblocks Hrows.
  - cbn in Hrows. now injection Hrows as <-.
  - cbn [length seq map_result] in Hrows.
    destruct (process_block _ _ _ _ _ _ _ _) as [row|] eqn:Hrow;
      cbn [bind] in Hrows; [|discriminate].
    destruct (map_result _ _) as [rows'|] eqn:Hrest; cbn [bind] in Hrows;
      [|discriminate].
    injection Hrows as <-.
    destruct (process_block_row _ _ _ _ _ _ _ _ Hrow)
      as (b' & Hb' & Hskip & Hkeep).
    rewrite Hblocks, nth_error_app2, Nat.sub_diag in Hb' by lia.
    injection Hb' as <-.
    assert (IH' : map br_onset (keep_some rows')
                  = map block_start
                        (filter (fun b => negb (other_task trial_type b))
                                todo)).
    { apply (IH (done ++ [b])).
      - now rewrite <- app_assoc.
      - now rewrite length_app, Nat.add_1_r. }
    cbn [filter]. destruct (other_task trial_type b) eqn:Hother; cbn [negb].
    + rewrite (Hskip eq_refl). exact IH'.
    + destruct (Hkeep eq_refl) as (r & -> & Hr).
      cbn [keep_some map]. now rewrite Hr, IH'.
Qed.

(** The four lists [process_behav_data] returns have one length, and the
    onsets it returns are the starts of the blocks of the task asked for,
    in the order of the Video rows: a block whose name starts with [c] is
    left out under ["vid"], one whose name starts with [v] under
    ["cvid"]. *)
Theorem process_behav_data_outputs (E : externals)
    (log sub trial_type : string) (r : behav_result) :
  process_behav_data E log sub trial_type = Ok r ->
  (length (onsets_used r) = length (durations r)
   /\ length (durations r) = length (correlations r)
   /\ length (correlations r) = length (button_pushes r))
  /\ exists p blocks onsets,
       log_parser E sub log = Ok p
       /\ find_blocks (pl_vid p) (pl_mri_start p) = Ok (blocks, onsets)
       /\ onsets_used r
          = map block_start
                (filter (fun b => negb (other_task trial_type b)) blocks).
Proof.
  intros Hr. split.
  - destruct (process_behav_data_rows _ _ _ _ _ Hr) as (kept & ->).
    unfold gather. rewrite keep_some_map_Some. cbn.
    now rewrite !length_map.
  - unfold process_behav_data in Hr.
    destruct (negb _); [discriminate|].
    destruct (log_parser E sub log) as [p|] eqn:Hp; cbn [bind] in Hr;
      [|discriminate].
    destruct (find_blocks _ _) as [[blocks onsets]|] eqn:Hblocks;
      cbn [bind] in Hr; [|discriminate].
    exists p, blocks, onsets. split; [reflexivity|]. split; [exact Hblocks|].
    assert (Honsets : onsets = map block_start blocks).
    { unfold find_blocks in Hblocks.
      destruct (arr_iter _); cbn [bind] in Hblocks; [|discriminate].
      destruct (find_blocks_loop _ _); cbn [bind] in Hblocks;
        [|discriminate].
      now injection Hblocks as <- <-. }
    subst onsets.
    destruct (length blocks =? 0)%nat; [discriminate|].
    destruct (pl_pic p); [discriminate|].
    destruct (pl_res p); [discriminate|].
    destruct (pl_mri_start p); [|discriminate].
    destruct (map_result _ _) as [rows|] eqn:Hrows; cbn [bind] in Hr;
      [|discriminate].
    injection Hr as <-. cbn [gather onsets_used].
    exact (process_block_rows _ _ _ _ _ _ blocks [] rows eq_refl Hrows).
Qed.

(** The sample run has a block [vid_1] and a block [cvid_2]. *)
Lemma process_behav_data_outputs_witness :
  exists r,
    process_behav_data Sample.study "UCLAEmpAcc_part1.log"
                       "SPN01_CMH_0002_01" "cvid" = Ok r
    /\ length (onsets_used r) = length (button_pushes r)
    /\ map format_2f (onsets_used r) = ["10.20"%string].
Proof.
  destruct (process_behav_data Sample.study "UCLAEmpAcc_part1.log"
              "SPN01_CMH_0002_01" "cvid") as [r|] eqn:Hr;
    [|vm_compute in Hr; discriminate].
  exists r. split; [reflexivity|].
  destruct (process_behav_data_outputs _ _ _ _ _ Hr)
    as ((H1 & H2 & H3) & _).
  split; [congruence|].
  vm_compute in Hr. injection Hr as <-. reflexivity.
Defined.

Lemma log_parser_video_array (E : externals) (lines : list string)
    (vids : list event) (p : parsed_log) :
  decode_event E (filter (contains "Video") lines) = Ok vids ->
  log_parser_lines E lines = Ok p ->
  pl_vid p = squeeze vids.
Proof.
  intros Hvid. unfold log_parser_lines, genfromtxt_picture, genfromtxt_event.
  destruct (decode_picture E _); cbn [bind]; [|discriminate].
  destruct (decode_event E (filter (contains "Response") lines));
    cbn [bind]; [|discriminate].
  destruct (remove_duplicate_trials _); cbn [bind]; [|discriminate].
  rewrite Hvid. cbn [bind].
  destruct (arr_first _); cbn [bind]; [|discriminate].
  destruct (negb _); [discriminate|].
  destruct (first_time _); cbn [bind]; [|discriminate].
  now intros [= <-].
Qed.

(** A log with fewer than two Video rows is never processed: with none
    there is no block and the figure's aspect ratio [1.0/len(blocks)] is a
    division by zero; with one, the squeezed Video array cannot be iterated
    by [find_blocks]. *)
Theorem process_behav_data_needs_two_videos (E : externals)
    (log sub trial_type : string) (lines : list string)
    (vids : list event) :
  trial_type = "vid"%string \/ trial_type = "cvid"%string ->
  readlines E sub log = Ok lines ->
  decode_event E (filter (contains "Video") lines) = Ok vids ->
  (length vids < 2)%nat ->
  raises (process_behav_data E log sub trial_type)
  /\ (forall p,
        log_parser_lines E lines = Ok p ->
        process_behav_data E log sub trial_type
        = Raise (match vids with
                 | [] => ZeroDivisionError
                 | _ => TypeError
                 end)).
Proof.
  intros Htype Hlines Hvid Hfew.
  assert (Hparsed : forall p,
            log_parser_lines E lines = Ok p ->
            process_behav_data E log sub trial_type
            = Raise (match vids with
                     | [] => ZeroDivisionError
                     | _ => TypeError
                     end)).
  { intros p Hp. unfold process_behav_data, log_parser.
    assert (Hvalid : negb (String.eqb trial_type "vid"
                           || String.eqb trial_type "cvid") = false)
      by (destruct Htype as [-> | ->]; reflexivity).
    rewrite Hvalid, Hlines. cbn [bind]. rewrite Hp. cbn [bind].
    rewrite (log_parser_video_array _ _ _ _ Hvid Hp).
    destruct vids as [|v [|v' vids]]; [reflexivity|reflexivity|].
    cbn in Hfew. lia. }
  split; [|exact Hparsed].
  destruct (log_parser_lines E lines) as [p|e] eqn:Hp.
  - eexists. exact (Hparsed p eq_refl).
  - exists e. unfold process_behav_data, log_parser.
    assert (Hvalid : negb (String.eqb trial_type "vid"
                           || String.eqb trial_type "cvid") = false)
      by (destruct Htype as [-> | ->]; reflexivity).
    rewrite Hvalid, Hlines. cbn [bind]. rewrite Hp. reflexivity.
Qed.

(** A run with one Video line. *)
Lemma process_behav_data_needs_two_videos_witness :
  process_behav_data Tables.one_video_study "UCLAEmpAcc_part1.log"
                     "SPN01_CMH_0003_01" "vid"
  = Raise TypeError.
Proof.
  destruct (log_parser_lines Tables.one_video_study Tables.one_video_log)
    as [p|] eqn:Hp; [|vm_compute in Hp; discriminate].
  refine (proj2 (process_behav_data_needs_two_videos Tables.one_video_study
                   "UCLAEmpAcc_part1.log" "SPN01_CMH_0003_01" "vid"
                   Tables.one_video_log
                   [mk_event "s01" 2 "Video" "vid_1" 3000 0 1]
                   (or_introl eq_refl) eq_refl _ _) p Hp).
  - vm_compute. reflexivity.
  - cbn. lia.
Defined.

(* ===================================================================== *)
(** ** The files of a subject *)
(* ===================================================================== *)

Lemma append_nil_r (s : string) : (s ++ "")%string = s.
Proof. induction s as [|c s IH]; cbn; [reflexivity|now rewrite IH]. Qed.

Lemma file_content_open (files : list (string * string)) (name : string) :
  file_content (file_open files name) name = Some EmptyString.
Proof.
  induction files as [|[n c] files IH]; cbn.
  - now rewrite String.eqb_refl.
  - destruct (String.eqb n name) eqn:Hn; cbn; rewrite Hn;
      [reflexivity|exact IH].
Qed.

Lemma summary_rows_kept (kept : list block_result) :
  summary_rows (map br_correlation kept) (map br_button_pushes kept)
  = fold_right
      (fun k rest =>
         (summary_row (br_correlation k) (br_button_pushes k) ++ rest)%string)
      EmptyString kept.
Proof.
  induction kept as [|k kept IH]; [reflexivity|].
  cbn [map summary_rows fold_right]. now rewrite IH.
Qed.

(** The loop of lines 700-705 appends one event to the timing file and one
    row to the summary table for every result of the run. *)
Lemma write_events_files (kept : list block_result) :
  forall (todo done : list block_result) (st : batch_state)
         (s timing summary : string),
    kept = done ++ todo ->
    f1 st = Some s ->
    file_content (block_times st) s = Some timing ->
    file_content (corr_push st) s = Some summary ->
    exists st',
      write_events (gather (map Some kept))
                   (seq (length done) (length todo)) st = Ok st'
      /\ f1 st' = Some s
      /\ glm_run st' = glm_run st
      /\ file_content (block_times st') s
         = Some (timing
                 ++ fold_right
                      (fun k rest =>
                         (timing_event (br_onset k) (br_correlation k)
                                       (br_button_pushes k) (br_duration k)
                            ++ rest)%string)
                      EmptyString todo)%string
      /\ file_content (corr_push st') s
         = Some (summary
                 ++ fold_right
                      (fun k rest =>
                         (summary_row (br_correlation k)
                                      (br_button_pushes k) ++ rest)%string)
                      EmptyString todo)%string.
Proof.
  pose proof (keep_some_map_Some kept) as Hkeep.
  induction todo as [|k todo IH];
    intros done st s timing summary Hkept Hf1 Htiming Hsummary.
  - exists st. cbn. rewrite !append_nil_r. repeat split; assumption.
  - cbn [length seq write_events]. unfold write_event, gather.
    rewrite Hkeep. cbn [onsets_used correlations button_pushes durations].
    rewrite Hkept, !getitem_middle. cbn [bind].
    unfold write_outputs. rewrite Hf1. cbn [bind].
    set (st1 := mk_batch _ _ _ _).
    destruct (IH (done ++ [k]) st1 s
                 (timing ++ timing_event (br_onset k) (br_correlation k)
                              (br_button_pushes k) (br_duration k))%string
                 (summary ++ summary_row (br_correlation k)
                               (br_button_pushes k))%string)
      as (st' & Hrun & Hf1' & Hglm & Ht & Hs).
    + rewrite <- app_assoc. exact Hkept.
    + reflexivity.
    + subst st1. cbn [block_times]. now apply file_content_write.
    + subst st1. cbn [corr_push]. now apply file_content_write.
    + exists st'. rewrite length_app, Nat.add_1_r in Hrun.
      unfold gather in Hrun. rewrite Hkeep, Hkept in Hrun.
      split; [exact Hrun|]. split; [exact Hf1'|]. split; [exact Hglm|].
      rewrite Ht, Hs. cbn [fold_right]. now rewrite !append_assoc.
Qed.

Lemma process_log_files (E : externals) (sub log : string)
    (st : batch_state) (r : behav_result) (s timing summary : string) :
  process_behav_data E log sub "vid" = Ok r ->
  f1 st = Some s ->
  file_content (block_times st) s = Some timing ->
  file_content (corr_push st) s = Some summary ->
  exists st',
    process_log E sub log st = Ok st'
    /\ f1 st' = Some s
    /\ glm_run st' = glm_run st
    /\ file_content (block_times st') s
       = Some (timing ++ timing_line r)%string
    /\ file_content (corr_push st') s
       = Some (summary
               ++ summary_rows (correlations r) (button_pushes r))%string.
Proof.
  intros Hr Hf1 Htiming Hsummary.
  destruct (process_behav_data_rows _ _ _ _ _ Hr) as (kept & ->).
  destruct (write_events_files kept kept [] st s timing summary eq_refl
                               Hf1 Htiming Hsummary)
    as (st1 & Hrun & Hf1' & Hglm & Ht & Hs).
  unfold process_log. rewrite Hr. cbn [bind].
  unfold gather at 2. rewrite keep_some_map_Some.
  cbn [onsets_used]. rewrite length_map.
  cbn [length] in Hrun. rewrite Hrun. cbn [bind].
  unfold write_outputs. rewrite Hf1'.
  eexists. split; [reflexivity|]. cbn [f1 block_times corr_push glm_run].
  split; [reflexivity|]. split; [exact Hglm|].
  rewrite (file_content_write _ _ _ _ Ht), (file_content_write _ _ _ _ Hs).
  unfold timing_line, gather. rewrite keep_some_map_Some.
  cbn [onsets_used correlations button_pushes durations].
  rewrite timing_tokens_kept, summary_rows_kept, append_assoc, append_nil_r.
  split; reflexivity.
Qed.

Lemma process_logs_files (E : externals) (sub : string) (logs : list string) :
  forall (rs : list behav_result) (st : batch_state)
         (s timing summary : string),
    Forall2 (fun log r => process_behav_data E log sub "vid" = Ok r)
            logs rs ->
    f1 st = Some s ->
    file_content (block_times st) s = Some timing ->
    file_content (corr_push st) s = Some summary ->
    exists st',
      process_logs E sub logs st = Ok st'
      /\ f1 st' = Some s
      /\ glm_run st' = glm_run st
      /\ file_content (block_times st') s
         = Some (timing ++ concat_strings (map timing_line rs))%string
      /\ file_content (corr_push st') s
         = Some (summary
                 ++ concat_strings
                      (map (fun r => summary_rows (correlations r)
                                                  (button_pushes r)) rs))%string.
Proof.
  induction logs as [|log logs IH];
    intros rs st s timing summary Hall Hf1 Htiming Hsummary.
  - inversion Hall; subst. exists st. cbn. rewrite !append_nil_r.
    repeat split; assumption.
  - inversion Hall as [|? r ? rs' Hr Hrest]; subst.
    destruct (process_log_files E sub log st r s timing summary Hr Hf1
                                Htiming Hsummary)
      as (st1 & Hrun & Hf1' & Hglm & Ht & Hs).
    destruct (IH rs' st1 s _ _ Hrest Hf1' Ht Hs)
      as (st' & Hrun' & Hf1'' & Hglm' & Ht' & Hs').
    exists st'. cbn [process_logs]. rewrite Hrun. cbn [bind].
    split; [exact Hrun'|]. split; [exact Hf1''|].
    split; [congruence|].
    rewrite Ht', Hs'. cbn [map concat_strings].
    now rewrite !append_assoc.
Qed.

(** For a subject that passes the checks and whose logs are all processed,
    the timing file holds the lines of its logs in sorted order and nothing
    else, the summary table holds the header and then the rows of these
    logs, and the GLM script of the subject is generated and run: what the
    two files held before is overwritten. *)
Theorem process_subject_files (E : externals) (sub : string)
    (st : batch_state) (names : list string) (log : string)
    (logs : list string) (rs : list behav_result) :
  String.eqb (subject_type E sub) "phantom" = false ->
  complete_log_exists E sub = false ->
  process_functional_data E sub = Ok tt ->
  listdir_behav E sub = Ok names ->
  sort_names (filter (fun x => contains ".log" x && contains "UCLAEmpAcc" x)
                     names)
  = log :: logs ->
  Forall2 (fun l r => process_behav_data E l sub "vid" = Ok r)
          (log :: logs) rs ->
  exists st',
    process_subject E sub st = Ok st'
    /\ f1 st' = Some sub
    /\ file_content (block_times st') sub
       = Some (concat_strings (map timing_line rs))
    /\ file_content (corr_push st') sub
       = Some (summary_header
               ++ concat_strings
                    (map (fun r => summary_rows (correlations r)
                                                (button_pushes r)) rs))%string
    /\ glm_run st' = glm_run st ++ [sub].
Proof.
  intros Hphantom Hcomplete Hfunc Hlist Hlogs Hall.
  unfold process_subject.
  rewrite Hphantom, Hcomplete, Hfunc, Hlist, Hlogs.
  cbn [length Nat.ltb Nat.leb].
  destruct (process_logs_files E sub (log :: logs) rs
              (open_outputs sub st) sub EmptyString summary_header Hall)
    as (st' & Hrun & Hf1 & Hglm & Ht & Hs).
  - reflexivity.
  - apply file_content_open.
  - cbn [open_outputs corr_push].
    rewrite (file_content_write _ _ _ _ (file_content_open _ _)).
    reflexivity.
  - rewrite Hrun. cbn [bind]. unfold close_outputs. rewrite Hf1.
    cbn [bind]. eexists. split; [reflexivity|].
    cbn [f1 block_times corr_push glm_run].
    split; [exact Hf1|]. split; [exact Ht|]. split; [exact Hs|].
    now rewrite Hglm.
Qed.

(** The second subject of the sample study. *)
Lemma process_subject_files_witness :
  exists st',
    process_subject Sample.study "SPN01_CMH_0002_01" initial_state = Ok st'
    /\ file_content (corr_push st') "SPN01_CMH_0002_01"
       = Some ("correlation,n-pushes-per-minute" ++ newline
               ++ "0.50,0.00208333333333" ++ newline)%string.
Proof.
  destruct (process_behav_data Sample.study "UCLAEmpAcc_part1.log"
              "SPN01_CMH_0002_01" "vid") as [r|] eqn:Hr;
    [|vm_compute in Hr; discriminate].
  destruct (process_subject_files Sample.study "SPN01_CMH_0002_01"
              initial_state ["UCLAEmpAcc_part1.log"%string]
              "UCLAEmpAcc_part1.log" [] [r])
    as (st' & Hrun & _ & _ & Hs & _);
    [reflexivity | reflexivity | reflexivity | reflexivity | reflexivity
    | constructor; [exact Hr|constructor] | ].
  exists st'. split; [exact Hrun|]. rewrite Hs.
  vm_compute in Hr. injection Hr as <-. reflexivity.
Defined.

(* ===================================================================== *)
(** ** Subjects without logs, and subjects that are passed over *)
(* ===================================================================== *)

(** A subject that passes the checks but has no log of the task opens no
    file. If no earlier subject opened one, closing the timing file ends
    the batch with an [UnboundLocalError]; otherwise the files written so
    far stay as they are, and the GLM script of the subject is generated
    and run although it has no timing file. *)
Theorem subject_without_logs (E : externals) (sub : string)
    (st : batch_state) (names : list string) :
  String.eqb (subject_type E sub) "phantom" = false ->
  complete_log_exists E sub = false ->
  process_functional_data E sub = Ok tt ->
  listdir_behav E sub = Ok names ->
  (forall x, In x names ->
             contains ".log" x && contains "UCLAEmpAcc" x = false) ->
  (f1 st = None ->
   forall rest, process_subjects E (sub :: rest) st = Raise UnboundLocalError)
  /\ (forall s, f1 st = Some s ->
        process_subject E sub st
        = Ok (mk_batch (Some s) (block_times st) (corr_push st)
                       (glm_run st ++ [sub]))).
Proof.
  intros Hphantom Hcomplete Hfunc Hlist Hnone.
  assert (Hlogs : filter (fun x => contains ".log" x
                                   && contains "UCLAEmpAcc" x) names = []).
  { clear Hlist. induction names as [|x names IH]; [reflexivity|].
    cbn [filter]. rewrite (Hnone x (or_introl eq_refl)).
    apply IH. intros y Hy. apply Hnone. now right. }
  assert (Hbody : process_subject E sub st
                  = (st3 <- close_outputs st ;;
                     Ok (mk_batch (f1 st3) (block_times st3) (corr_push st3)
                                  (glm_run st3 ++ [sub])))%py).
  { unfold process_subject.
    rewrite Hphantom, Hcomplete, Hfunc, Hlist, Hlogs. reflexivity. }
  split.
  - intros Hf1 rest. cbn [process_subjects]. rewrite Hbody.
    unfold close_outputs. rewrite Hf1. reflexivity.
  - intros s Hf1. rewrite Hbody. unfold close_outputs. rewrite Hf1.
    cbn [bind]. now rewrite Hf1.
Qed.

(** A study whose only subject has a text file but no log. *)
Lemma subject_without_logs_witness :
  main Tables.one_video_study = Raise UnboundLocalError.
Proof.
  refine (proj1 (subject_without_logs Tables.one_video_study
                   "SPN01_CMH_0003_01" initial_state
                   ["UCLAEmpAcc_part1.txt"%string] _ _ _ _ _) _ []);
    try reflexivity.
  intros x [<-|[]]. vm_compute. reflexivity.
Defined.

(** Phantoms, subjects with a completion log, subjects whose functional
    data fail a check and subjects without a folder of logs are passed
    over: whatever their number, the batch goes on with the files and the
    list of GLM runs it had. *)
Theorem passed_over_subjects (E : externals) (subs rest : list string)
    (st : batch_state) :
  Forall (fun sub =>
            String.eqb (subject_type E sub) "phantom" = true
            \/ complete_log_exists E sub = true
            \/ process_functional_data E sub = Raise ValueError
            \/ (process_functional_data E sub = Ok tt
                /\ exists e, listdir_behav E sub = Raise e)) subs ->
  process_subjects E (subs ++ rest) st = process_subjects E rest st.
Proof.
  induction 1 as [|sub subs Hsub _ IH]; [reflexivity|].
  cbn [app process_subjects].
  assert (Hskip : process_subject E sub st = Ok st).
  { unfold process_subject.
    destruct (String.eqb (subject_type E sub) "phantom"); [reflexivity|].
    destruct (complete_log_exists E sub); [reflexivity|].
    destruct Hsub as [Hsub|[Hsub|[Hsub|[Hsub [e He]]]]];
      try discriminate; rewrite Hsub; [reflexivity|].
    rewrite He. reflexivity. }
  rewrite Hskip. exact IH.
Qed.

(** Four subjects that are passed over, one of each kind. *)
Lemma passed_over_subjects_witness :
  main Tables.mixed_study
  = process_subjects Tables.mixed_study ["SPN01_CMH_0002_01"%string]
                     initial_state.
Proof.
  apply (passed_over_subjects Tables.mixed_study
           ["SPN01_CMH_PHA_FBN0001"; "SPN01_CMH_0004_01";
            "SPN01_CMH_0005_01"; "SPN01_CMH_0006_01"]%string
           ["SPN01_CMH_0002_01"%string] initial_state).
  repeat apply Forall_cons; [| | | |apply Forall_nil].
  - left. reflexivity.
  - right. left. reflexivity.
  - right. right. left. reflexivity.
  - right. right. right. split; [reflexivity|]. exists IOError. reflexivity.
Defined.

(* ===================================================================== *)
(** ** The column of reference ratings *)
(* ===================================================================== *)

Lemma where_equal_from_none (names : list string) (x : string) :
  forall i,
    (forall n, In n names -> n <> x) -> where_equal_from i names x = [].
Proof.
  induction names as [|n names IH]; intros i Hnone; [reflexivity|].
  cbn [where_equal_from].
  destruct (String.eqb_spec n x) as [Heq|_].
  - exfalso. apply (Hnone n); [now left|exact Heq].
  - apply IH. intros m Hm. apply Hnone. now right.
Qed.

Lemma where_equal_from_unique (names : list string) (x : string) :
  forall (i k : nat),
    nth_error names k = Some x ->
    (forall j, nth_error names j = Some x -> j = k) ->
    where_equal_from i names x = [(i + k)%nat].
Proof.
  induction names as [|n names IH]; intros i k Hk Huniq.
  - destruct k; discriminate.
  - cbn [where_equal_from]. destruct k as [|k].
    + injection Hk as ->. rewrite String.eqb_refl, Nat.add_0_r.
      f_equal. apply where_equal_from_none.
      intros m Hm ->. apply In_nth_error in Hm as [j Hj].
      specialize (Huniq (S j) Hj). discriminate.
    + destruct (String.eqb_spec n x) as [->|_].
      * specialize (Huniq 0%nat eq_refl). discriminate.
      * rewrite (IH (S i) k Hk).
        -- now rewrite Nat.add_succ_r.
        -- intros j Hj. specialize (Huniq (S j) Hj). now injection Huniq.
Qed.

Lemma take_one (xs : list (option Q)) (k : nat) :
  (k < length xs)%nat -> take xs [k] = Ok [nth k xs None].
Proof.
  intros Hk. unfold take. cbn [map_result]. unfold getitem.
  destruct (nth_error xs k) as [x|] eqn:Hx.
  - cbn [bind]. now rewrite (nth_error_nth _ _ None Hx).
  - apply nth_error_None in Hx. lia.
Qed.

Lemma take_column (rows : list (list (option Q))) (k : nat) :
  (forall row, In row rows -> (k < length row)%nat) ->
  exists selected,
    map_result (fun row => take row [k]) rows = Ok selected
    /\ concat selected = map (fun row => nth k row None) rows.
Proof.
  induction rows as [|row rows IH]; intros Hwide.
  - exists []. split; reflexivity.
  - destruct IH as (selected & Hrun & Hcat).
    { intros r Hr. apply Hwide. now right. }
    exists ([nth k row None] :: selected). cbn [map_result].
    rewrite (take_one row k (Hwide row (or_introl eq_refl))), Hrun.
    split; [reflexivity|]. cbn [concat map app]. now rewrite Hcat.
Qed.

Lemma take_nothing (rows : list (list (option Q))) :
  exists selected,
    map_result (fun row => take row []) rows = Ok selected
    /\ concat selected = [].
Proof.
  induction rows as [|row rows (selected & Hrun & Hcat)].
  - exists []. split; reflexivity.
  - exists ([] :: selected). cbn [map_result]. rewrite Hrun.
    split; [reflexivity|exact Hcat].
Qed.

Lemma rectangular_width {A : Type} (lines : list (list A)) :
  rectangular lines = true <->
  exists w, Forall (fun line => length line = w) lines.
Proof.
  destruct lines as [|first rest]; cbn [rectangular].
  - split; [now exists 0%nat|reflexivity].
  - rewrite forallb_forall. split.
    + intros Hall. exists (length first). constructor; [reflexivity|].
      apply Forall_forall. intros line Hline.
      now apply Nat.eqb_eq, Hall.
    + intros (w & Hall) line Hline. rewrite Forall_forall in Hall.
      apply Nat.eqb_eq.
      rewrite (Hall line (or_intror Hline)).
      now rewrite (Hall first (or_introl eq_refl)).
Qed.

(** The numeric lines of a table that was read for its names are read
    too. *)
Lemma read_column_data_returns (to_float : string -> option Q)
    (lines : list (list string)) :
  rectangular lines = true ->
  exists column_data, read_column_data to_float lines = Ok column_data.
Proof.
  intros Hrect. unfold read_column_data, genfromtxt_cells.
  assert (Hdata : rectangular (map (map to_float) (skipn 2 lines)) = true).
  { apply rectangular_width. apply rectangular_width in Hrect as (w & Hall).
    exists w. rewrite Forall_forall in *. intros row Hrow.
    apply in_map_iff in Hrow as (line & <- & Hline).
    rewrite length_map. apply Hall.
    rewrite <- (firstn_skipn 2 lines). apply in_or_app. now right. }
  rewrite Hdata. cbn [negb].
  destruct (map (map to_float) (skipn 2 lines)) as [|[|x [|y row]] [|r rs]];
    try (eexists; reflexivity);
    destruct (forallb _ _); eexists; reflexivity.
Qed.

Lemma read_column_names_rectangular (lines : list (list string))
    (names : list string) :
  read_column_names lines = Ok names -> rectangular lines = true.
Proof.
  unfold read_column_names, genfromtxt_cells.
  destruct (rectangular lines); [reflexivity|discriminate].
Qed.

(** A table of at least two lines and two columns keeps its shape. *)
Lemma genfromtxt_cells_wide {A : Type} (first second : list A)
    (rest : list (list A)) :
  (2 <= length first)%nat ->
  (forall line, In line (second :: rest) -> length line = length first) ->
  genfromtxt_cells (first :: second :: rest)
  = Ok (Table2 (first :: second :: rest)).
Proof.
  intros Hwide Hall. unfold genfromtxt_cells.
  assert (Hrect : rectangular (first :: second :: rest) = true).
  { apply rectangular_width. exists (length first).
    constructor; [reflexivity|]. now apply Forall_forall. }
  rewrite Hrect. cbn [negb forallb].
  destruct (Nat.eqb_spec (length first) 1) as [Hone|_]; [lia|].
  destruct first as [|x [|y first]]; reflexivity.
Qed.

Lemma lower_length (s : string) : String.length (lower s) = String.length s.
Proof. induction s as [|c s IH]; cbn; [reflexivity|now rewrite IH]. Qed.

Lemma letters_length (s name : string) :
  In name (map lower (letters s)) -> String.length name = 1%nat.
Proof.
  induction s as [|c s IH]; cbn; [intros []|].
  intros [<-|Hin]; [reflexivity|now apply IH].
Qed.

(** When the name of the block is, up to the case of its letters, exactly
    one of the cells of the first line of a table of at least two columns,
    the result is that column of the numeric lines (those after the second
    line) without its entries that are not finite numbers, from top to
    bottom. A table of a single column is read differently: the name is
    compared with the letters of the first cell, and a name of two letters
    or more gets an empty series even when it is the header. *)
Theorem find_column_data_selects_column (to_float : string -> option Q)
    (blk_name : string) :
  (forall (name : string) (header second : list string)
          (data : list (list string)) (k : nat),
      (2 <= length header)%nat ->
      (forall line, In line (second :: data) ->
                    length line = length header) ->
      data <> [] ->
      nth_error header k = Some name ->
      lower name = lower blk_name ->
      (forall j other, nth_error header j = Some other ->
                       lower other = lower blk_name -> j = k) ->
      find_column_data to_float blk_name (header :: second :: data)
      = Ok (keep_some
              (map (fun line => nth k (map to_float line) None) data)))
  /\ (forall (header second : string) (cells : list string),
        (2 <= String.length blk_name)%nat ->
        length cells <> 1%nat ->
        find_column_data to_float blk_name
          ([header] :: [second] :: map (fun cell => [cell]) cells)
        = Ok []).
Proof.
  split.
  - intros name header second data k Hwide Hall Hdata Hk Hname Huniq.
    assert (Hwidth : (k < length header)%nat).
    { apply nth_error_Some. rewrite Hk. discriminate. }
    assert (Hwhere : where_equal (map lower header) (lower blk_name) = [k]).
    { unfold where_equal.
      apply (where_equal_from_unique (map lower header) (lower blk_name)
                                     0 k).
      - rewrite nth_error_map, Hk. cbn. now rewrite Hname.
      - intros j Hj. rewrite nth_error_map in Hj.
        destruct (nth_error header j) as [other|] eqn:Hother;
          [|discriminate].
        injection Hj as Hj. exact (Huniq j other Hother Hj). }
    unfold find_column_data, read_column_names.
    rewrite (genfromtxt_cells_wide header second data Hwide Hall).
    cbn [bind]. rewrite Hwhere.
    unfold read_column_data. cbn [skipn].
    assert (Hrows : forall row, In row (map (map to_float) data) ->
                                (k < length row)%nat).
    { intros row Hrow. apply in_map_iff in Hrow as (line & <- & Hline).
      rewrite length_map, (Hall line (or_intror Hline)). exact Hwidth. }
    destruct data as [|line [|line' data]]; [contradiction| |].
    + assert (Hline : length (map to_float line) = length header).
      { rewrite length_map. apply Hall. right. now left. }
      unfold genfromtxt_cells. cbn [map rectangular forallb negb].
      destruct (map to_float line) as [|x [|y row]] eqn:Hrow;
        [cbn in Hline; lia | cbn in Hline; lia |].
      cbn [bind]. rewrite <- Hrow.
      rewrite take_one by (apply Hrows; now left). reflexivity.
    + cbn [map].
      rewrite genfromtxt_cells_wide.
      * cbn [bind].
        destruct (take_column (map (map to_float) (line :: line' :: data)) k
                              Hrows) as (selected & Hrun & Hcat).
        cbn [map] in Hrun. rewrite Hrun. cbn [bind].
        rewrite Hcat, map_map. reflexivity.
      * rewrite length_map, (Hall line); [exact Hwide|]. right. now left.
      * intros row Hrow. rewrite length_map.
        change (In row (map (map to_float) (line' :: data))) in Hrow.
        apply in_map_iff in Hrow as (l & <- & Hl).
        rewrite length_map, (Hall l), (Hall line); [reflexivity| |].
        -- right. now left.
        -- right. now right.
  - intros header second cells Hlong Hcells.
    assert (Hsingle : forall l : list string,
               forallb (fun line => (length line =? 1)%nat)
                       (map (fun cell => [cell]) l) = true).
    { induction l as [|c l IH]; [reflexivity|exact IH]. }
    assert (Hwhere : where_equal (map lower (letters header))
                                 (lower blk_name) = []).
    { apply where_equal_from_none. intros n Hn Heq.
      apply letters_length in Hn. rewrite Heq, lower_length in Hn. lia. }
    unfold find_column_data, read_column_names, genfromtxt_cells.
    cbn [rectangular length forallb Nat.eqb andb negb].
    rewrite Hsingle. cbn [negb bind concat app].
    rewrite Hwhere.
    unfold read_column_data, genfromtxt_cells. cbn [skipn].
    destruct cells as [|c [|c' cells]]; [reflexivity|contradiction|].
    cbn [map rectangular length forallb Nat.eqb andb negb].
    rewrite map_map. cbn [map].
    assert (Hdata : forall l : list string,
               forallb (fun line => (length line =? 1)%nat)
                       (map (fun cell => [to_float cell]) l) = true).
    { induction l as [|x l IH]; [reflexivity|exact IH]. }
    rewrite Hdata. cbn [negb bind]. reflexivity.
Qed.

(** The third column of the sample table, asked for in lower case, and the
    first column alone. *)
Lemma find_column_data_selects_column_witness :
  find_column_data Tables.to_float "vid_3" Tables.ratings = Ok [1%Q]
  /\ find_column_data Tables.to_float "vid_1" Tables.one_column = Ok [].
Proof.
  destruct (find_column_data_selects_column Tables.to_float "vid_3")
    as (Hwide & _).
  destruct (find_column_data_selects_column Tables.to_float "vid_1")
    as (_ & Hnarrow).
  split.
  - unfold Tables.ratings.
    rewrite (Hwide "VID_3"%string ["Vid_1"; "cvid_2"; "VID_3"]%string
               ["TR"; "TR"; "TR"]%string
               [ ["5"; "5"; "1"]; ["6"; "4"; ""]; [""; "4"; ""] ]%string
               2%nat).
    + reflexivity.
    + cbn. lia.
    + intros line [<-|[<-|[<-|[<-|[]]]]]; reflexivity.
    + discriminate.
    + reflexivity.
    + reflexivity.
    + intros [|[|[|j]]] other Hother Hlower; cbn in Hother.
      * injection Hother as <-. vm_compute in Hlower. discriminate.
      * injection Hother as <-. vm_compute in Hlower. discriminate.
      * reflexivity.
      * destruct j; discriminate.
  - apply (Hnarrow "vid_1"%string "TR"%string ["5"; "6"]%string).
    + cbn. lia.
    + discriminate.
Defined.

(** When none of the names read off the table is the name of the block up
    to the case of its letters, and the numeric lines hold more than a
    single cell, the block gets an empty series of reference ratings, not
    an error. *)
Theorem find_column_data_unknown_name (to_float : string -> option Q)
    (blk_name : string) (lines : list (list string))
    (names : list string) :
  read_column_names lines = Ok names ->
  (forall name, In name names -> lower name <> lower blk_name) ->
  (forall x, read_column_data to_float lines <> Ok (Table0 x)) ->
  find_column_data to_float blk_name lines = Ok [].
Proof.
  intros Hnames Hnone Hshape.
  assert (Hwhere : where_equal (map lower names) (lower blk_name) = []).
  { apply where_equal_from_none. intros n Hn.
    apply in_map_iff in Hn as (name & <- & Hin). now apply Hnone. }
  destruct (read_column_data_returns to_float lines
              (read_column_names_rectangular _ _ Hnames))
    as (column_data & Hdata).
  unfold find_column_data. rewrite Hnames. cbn [bind].
  rewrite Hwhere, Hdata. cbn [bind].
  destruct column_data as [x|xs|rows].
  - exfalso. exact (Hshape x Hdata).
  - reflexivity.
  - destruct (take_nothing rows) as (selected & Hrun & Hcat).
    rewrite Hrun. cbn [bind]. now rewrite Hcat.
Qed.

(** The sample table has no column for a fourth video. *)
Lemma find_column_data_unknown_name_witness :
  find_column_data Tables.to_float "vid_4" Tables.ratings = Ok [].
Proof.
  apply (find_column_data_unknown_name Tables.to_float "vid_4"
           Tables.ratings ["Vid_1"; "cvid_2"; "VID_3"]%string).
  - reflexivity.
  - intros name [<-|[<-|[<-|[]]]]; vm_compute; discriminate.
  - intros x. vm_compute. discriminate.
Defined.

(* ===================================================================== *)
(** ** The runs of the task that are kept *)
(* ===================================================================== *)

Lemma list_remove_middle (d : string) (done rest : list string) :
  ~ In d done -> list_remove d (done ++ d :: rest) = Ok (done ++ rest).
Proof.
  induction done as [|x done IH]; intros Hnot; cbn [app list_remove].
  - now rewrite String.eqb_refl.
  - destruct (String.eqb_spec x d) as [->|_].
    + exfalso. apply Hnot. now left.
    + rewrite IH; [reflexivity|]. intros Hin. apply Hnot. now right.
Qed.

Lemma list_remove_incl (d : string) (l l' : list string) :
  list_remove d l = Ok l' -> incl l' l.
Proof.
  revert l'. induction l as [|x l IH]; intros l' Hrun; cbn in Hrun.
  - discriminate.
  - destruct (String.eqb x d).
    + injection Hrun as <-. now apply incl_tl, incl_refl.
    + destruct (list_remove d l) as [l''|] eqn:Hrest; [|discriminate].
      injection Hrun as <-. intros y [<-|Hy]; [now left|].
      right. now apply (IH l'' eq_refl).
Qed.

Lemma remove_truncated_loop_incl (volumes : string -> result Z) :
  forall (passes : nat) (l : list string) (i : nat) (kept : list string),
    remove_truncated_loop passes volumes l i = Ok kept -> incl kept l.
Proof.
  induction passes as [|passes IH]; intros l i kept Hrun;
    cbn [remove_truncated_loop] in Hrun.
  - injection Hrun as <-. apply incl_refl.
  - destruct (nth_error l i) as [d|]; [|injection Hrun as <-; apply incl_refl].
    destruct (volumes d) as [n|]; [|discriminate]. cbn [bind] in Hrun.
    destruct (negb (n =? 277)).
    + destruct (list_remove d l) as [l'|] eqn:Hrem; [|discriminate].
      cbn [bind] in Hrun.
      apply (incl_tran (IH _ _ _ Hrun)), (list_remove_incl _ _ _ Hrem).
    + exact (IH _ _ _ Hrun).
Qed.

Lemma insert_sorted_permutation (x : string) (l : list string) :
  Permutation (insert_sorted x l) (x :: l).
Proof.
  induction l as [|y l IH]; cbn [insert_sorted].
  - apply Permutation_refl.
  - destruct (String.leb x y).
    + apply Permutation_refl.
    + apply perm_trans with (y :: x :: l).
      * now apply perm_skip.
      * apply perm_swap.
Qed.

Lemma sort_names_permutation (l : list string) :
  Permutation (sort_names l) l.
Proof.
  induction l as [|x l IH]; cbn; [constructor|].
  apply perm_trans with (x :: sort_names l).
  - apply insert_sorted_permutation.
  - now apply perm_skip.
Qed.

(** The loop over a list it shortens: with [done] behind the iterator and
    [rest] before it, the runs of [rest] are looked at in turn, but the one
    that follows a run taken out is never looked at. *)
Lemma remove_truncated_loop_skips (volumes : string -> result Z)
    (truncated : string -> bool) :
  forall (passes : nat) (done rest : list string),
    (length rest <= passes)%nat ->
    NoDup (done ++ rest) ->
    (forall d, In d rest ->
               exists n, volumes d = Ok n /\ truncated d = negb (n =? 277)) ->
    remove_truncated_loop passes volumes (done ++ rest) (length done)
    = Ok (done ++ skip_after_removed truncated rest).
Proof.
  induction passes as [|passes IH]; intros done rest Hfuel Hnodup Hvol.
  - destruct rest; [reflexivity|cbn in Hfuel; lia].
  - cbn [remove_truncated_loop].
    destruct rest as [|d rest].
    + cbn [skip_after_removed]. rewrite app_nil_r.
      now rewrite (proj2 (nth_error_None done (length done)) (le_n _)).
    + rewrite nth_error_app2, Nat.sub_diag by apply le_n.
      cbn [nth_error].
      destruct (Hvol d (or_introl eq_refl)) as (n & Hn & Htrunc).
      rewrite Hn. cbn [bind]. cbn [skip_after_removed]. rewrite Htrunc.
      destruct (negb (n =? 277)).
      * rewrite list_remove_middle.
        2:{ intros Hin. apply NoDup_remove_2 in Hnodup. apply Hnodup.
            apply in_or_app. now left. }
        cbn [bind]. apply NoDup_remove_1 in Hnodup.
        destruct rest as [|d' rest].
        -- rewrite app_nil_r. destruct passes; [reflexivity|].
           cbn [remove_truncated_loop].
           now rewrite (proj2 (nth_error_None done (S (length done))))
             by lia.
        -- replace (done ++ d' :: rest) with ((done ++ [d']) ++ rest)
             by now rewrite <- app_assoc.
           replace (S (length done)) with (length (done ++ [d']))
             by (rewrite length_app; cbn; lia).
           rewrite IH.
           ++ now rewrite <- app_assoc.
           ++ cbn in Hfuel. lia.
           ++ now rewrite <- app_assoc.
           ++ intros x Hx. apply Hvol. now right; right.
      * replace (done ++ d :: rest) with ((done ++ [d]) ++ rest)
          by now rewrite <- app_assoc.
        replace (S (length done)) with (length (done ++ [d]))
          by (rewrite length_app; cbn; lia).
        rewrite IH.
        -- now rewrite <- app_assoc.
        -- cbn in Hfuel. lia.
        -- now rewrite <- app_assoc.
        -- intros x Hx. apply Hvol. now right.
Qed.

(** The runs handed to the pipeline are the last three of the sorted runs
    of the task that are left when every run looked at is dropped if it
    does not have 277 volumes; the run that follows a dropped one is not
    looked at, and stays whatever its length. *)
Theorem select_EA_runs_skips (volumes : string -> result Z)
    (truncated : string -> bool) (niftis : list string) :
  NoDup niftis ->
  (forall d, In d niftis ->
             exists n, volumes d = Ok n /\ truncated d = negb (n =? 277)) ->
  select_EA_runs volumes niftis
  = Ok (last_three
          (skip_after_removed truncated
             (sort_names
                (filter (fun x => contains "EA" x || contains "Emp_Acc" x)
                        niftis)))).
Proof.
  intros Hnodup Hvol. unfold select_EA_runs.
  set (EA_data := sort_names _).
  assert (Hperm : Permutation EA_data
                    (filter (fun x => contains "EA" x
                                      || contains "Emp_Acc" x) niftis))
    by apply sort_names_permutation.
  change (remove_truncated_loop (length EA_data) volumes EA_data 0)
    with (remove_truncated_loop (length EA_data) volumes ([] ++ EA_data)
                                (length (@nil string))).
  rewrite (remove_truncated_loop_skips volumes truncated
             (length EA_data) [] EA_data).
  - reflexivity.
  - apply le_n.
  - cbn [app]. apply (Permutation_NoDup
                        (Permutation_sym Hperm)).
    now apply NoDup_filter.
  - intros d Hd. apply Hvol.
    apply (Permutation_in _ Hperm) in Hd.
    now apply filter_In in Hd as [Hd _].
Qed.

(** Two truncated runs in a row: the second one is among the runs kept. *)
Lemma select_EA_runs_skips_witness :
  select_EA_runs Tables.volumes Tables.scans
  = Ok [ "SPN01_EA_run2_short.nii.gz"; "SPN01_EA_run3.nii.gz";
         "SPN01_EA_run4.nii.gz" ]%string.
Proof.
  rewrite (select_EA_runs_skips Tables.volumes (contains "short")
             Tables.scans).
  - vm_compute. reflexivity.
  - repeat constructor; cbn; intuition discriminate.
  - intros d Hd. unfold Tables.volumes.
    destruct (contains "short" d); [exists 120|exists 277];
      split; reflexivity.
Defined.

(** The checks fail with a [ValueError] and nothing else. When they pass,
    the subject has three files of the task among its logs, a brain from
    FreeSurfer and no completion marker, and at most three runs are handed
    on, each of them a file of the subject's NIfTI folder whose name holds
    [nii.gz] and [EA] or [Emp_Acc]; fewer than three, or none, pass too. *)
Theorem check_functional_inputs_result (W : functional_inputs) :
  (forall e, check_functional_inputs W = Raise e -> e = ValueError)
  /\ (forall EA_data,
        check_functional_inputs W = Ok EA_data ->
        (length EA_data <= 3)%nat
        /\ brain_mgz W = true
        /\ complete_marker W = false
        /\ (exists behavs,
               behav_dir W = Ok behavs
               /\ length (filter (contains "UCLAEmpAcc") behavs) = 3%nat)
        /\ exists names,
             nifti_dir W = Ok names
             /\ forall d, In d EA_data ->
                          In d names
                          /\ contains "nii.gz" d = true
                          /\ contains "EA" d || contains "Emp_Acc" d = true).
Proof.
  unfold check_functional_inputs, select_EA_runs.
  destruct (nifti_dir W) as [names|];
    [|split; [now intros ? [= <-]|discriminate]].
  cbn [bind].
  destruct (behav_dir W) as [behavs|];
    [|split; [now intros ? [= <-]|discriminate]].
  destruct (Nat.eqb_spec (length (filter (contains "UCLAEmpAcc") behavs)) 3)
    as [Hthree|_];
    [|split; [now intros ? [= <-]|discriminate]].
  cbn [negb bind].
  destruct (brain_mgz W);
    [|split; [now intros ? [= <-]|discriminate]].
  cbn [negb].
  set (EA_data := sort_names _).
  destruct (remove_truncated_loop (length EA_data) (nifti_volumes W)
                                  EA_data 0) as [kept|] eqn:Hloop;
    [|split; [now intros ? [= <-]|discriminate]].
  cbn [bind].
  destruct (complete_marker W);
    [split; [now intros ? [= <-]|discriminate]|].
  split; [discriminate|].
  intros runs [= <-].
  split.
  { unfold last_three. rewrite length_skipn. lia. }
  split; [reflexivity|]. split; [reflexivity|].
  split; [now exists behavs|].
  exists names. split; [reflexivity|].
  intros d Hd.
  assert (Hin : In d EA_data).
  { apply (remove_truncated_loop_incl _ _ _ _ _ Hloop).
    unfold last_three in Hd.
    rewrite <- (firstn_skipn (length kept - 3) kept).
    apply in_or_app. now right. }
  apply (Permutation_in _ (sort_names_permutation _)) in Hin.
  apply filter_In in Hin as [Hin Htask].
  apply filter_In in Hin as [Hin Hgz].
  now repeat split.
Qed.

(** The sample subject passes the checks with three runs of its folder. *)
Lemma check_functional_inputs_result_witness :
  exists EA_data,
    check_functional_inputs Tables.inputs = Ok EA_data
    /\ (length EA_data <= 3)%nat
    /\ forall d, In d EA_data -> In d Tables.scans.
Proof.
  destruct (check_functional_inputs Tables.inputs) as [EA_data|] eqn:Hrun;
    [|vm_compute in Hrun; discriminate].
  destruct (proj2 (check_functional_inputs_result Tables.inputs)
                  EA_data Hrun)
    as (Hlen & _ & _ & _ & names & Hnames & Hfrom).
  injection Hnames as <-.
  exists EA_data. split; [reflexivity|]. split; [exact Hlen|].
  intros d Hd. exact (proj1 (Hfrom d Hd)).
Defined.
